(** * Scraper: a shallow embedding of [Scraper/scraper.py]

    The development follows the layout of the Python module: the run-time
    notions the script relies on (strings, exceptions, dates, the parsed
    HTML tree, [urllib.parse.urljoin]), then [Article], [BaseScraper], three
    of the site controllers ([InfoSecurityMagazineScraper], [CISAScraper],
    [CyberSecurityDiveScraper]), the relative-time parser of
    [SecurityWeekScraper] and the run orchestrator [scrape_selected_sites].

    Strings are [string]s whose characters stand for the code points below
    256.  Third-party behaviour that the script only calls (the HTTP client,
    the HTML parser, the CSS selector engine, [datetime.strptime], object
    hashing) is a field of the record [Lib]; every definition that needs it
    takes the record as a section variable. *)

From Stdlib Require Import ZArith List String Ascii Bool Lia.
From Stdlib Require Import DecimalString DecimalNat.
Import ListNotations.

Open Scope string_scope.
Open Scope list_scope.
Open Scope Z_scope.

Notation "a +++ b" := (String.append a b) (at level 60, right associativity).

(* ================================================================= *)
(** ** Python run-time notions *)

Module Py.

(** Exception classes the script raises or handles.  All of them derive
    from [Exception]; [KeyboardInterrupt] and [SystemExit], which
    [except Exception] does not handle, are signals from outside the
    program and are not part of the model. *)
Inductive exc_class :=
| ValueError | TypeError | AttributeError | OverflowError | KeyError
| IndexError | UnboundLocalError | RequestException | WebDriverException
| OtherException.

Record exn := Exn { exn_class : exc_class; exn_msg : string }.

Definition exc_class_eqb (a b : exc_class) : bool :=
  match a, b with
  | ValueError, ValueError | TypeError, TypeError
  | AttributeError, AttributeError | OverflowError, OverflowError
  | KeyError, KeyError | IndexError, IndexError
  | UnboundLocalError, UnboundLocalError
  | RequestException, RequestException
  | WebDriverException, WebDriverException
  | OtherException, OtherException => true
  | _, _ => false
  end.

(** What running a piece of code gives: a value, a raised exception, or no
    answer at all ([Diverge]: a call that never returns, a loop that has
    used up the fuel of the model). *)
Inductive outcome (A : Type) :=
| Ok (a : A)
| Raise (e : exn)
| Diverge.
Arguments Ok {A} a.
Arguments Raise {A} e.
Arguments Diverge {A}.

Definition obind {A B} (o : outcome A) (k : A -> outcome B) : outcome B :=
  match o with
  | Ok a => k a
  | Raise e => Raise e
  | Diverge => Diverge
  end.

(** [str.isspace] on one character, which is also what [\s] matches. *)
Definition isspace (c : ascii) : bool :=
  let n := N_of_ascii c in
  (((9 <=? n) && (n <=? 13)) || ((28 <=? n) && (n <=? 32))
   || (n =? 133) || (n =? 160))%N.

(** [\d]: below code point 256 only the ASCII digits are decimal digits. *)
Definition isdigit (c : ascii) : bool :=
  let n := N_of_ascii c in ((48 <=? n) && (n <=? 57))%N.

Fixpoint lstrip (s : string) : string :=
  match s with
  | String c s' => if isspace c then lstrip s' else s
  | EmptyString => EmptyString
  end.

Fixpoint rstrip (s : string) : string :=
  match s with
  | EmptyString => EmptyString
  | String c s' =>
      match rstrip s' with
      | EmptyString => if isspace c then EmptyString else String c EmptyString
      | r => String c r
      end
  end.

(** [s.strip()] *)
Definition strip (s : string) : string := rstrip (lstrip s).

Fixpoint drop (n : nat) (s : string) : string :=
  match n, s with
  | O, _ => s
  | S n', String _ s' => drop n' s'
  | S _, EmptyString => EmptyString
  end.

(** [s.replace(old, new)] for a non-empty [old]: the occurrences are found
    from the left and do not overlap.  [skip] counts the characters of an
    occurrence that is being stepped over. *)
Fixpoint replace_from (old new : string) (skip : nat) (s : string) : string :=
  match s with
  | EmptyString => EmptyString
  | String c s' =>
      match skip with
      | S k => replace_from old new k s'
      | O =>
          if String.prefix old s
          then new +++ replace_from old new (Nat.pred (String.length old)) s'
          else String c (replace_from old new O s')
      end
  end.

Definition replace (old new s : string) : string := replace_from old new O s.

(** [sep.join(parts)] *)
Fixpoint join (sep : string) (parts : list string) : string :=
  match parts with
  | [] => EmptyString
  | [p] => p
  | p :: rest => p +++ sep +++ join sep rest
  end.

(** [s.split(c)] for a one-character separator: the pieces between the
    occurrences of [c], empty pieces included. *)
Fixpoint split_chr (c : ascii) (s : string) : list string :=
  match s with
  | EmptyString => [EmptyString]
  | String a s' =>
      if Ascii.eqb a c then EmptyString :: split_chr c s'
      else match split_chr c s' with
           | p :: ps => String a p :: ps
           | [] => [String a EmptyString]
           end
  end.

(** [c in s] for a character. *)
Fixpoint contains_chr (c : ascii) (s : string) : bool :=
  match s with
  | EmptyString => false
  | String a s' => Ascii.eqb a c || contains_chr c s'
  end.

(** Truth value of a [str]: the empty string is false. *)
Definition str_truthy (s : string) : bool :=
  match s with EmptyString => false | _ => true end.

(** Truth value of a value that is a [str] or [None]. *)
Definition opt_str_truthy (o : option string) : bool :=
  match o with Some s => str_truthy s | None => false end.

(** [int(s)] on a string of decimal digits, and [str(n)] on an [int]. *)
Definition digit_value (c : ascii) : Z := Z.of_N (N_of_ascii c) - 48.

Fixpoint int_of_digits_acc (s : string) (acc : Z) : Z :=
  match s with
  | EmptyString => acc
  | String c s' => int_of_digits_acc s' (10 * acc + digit_value c)
  end.

Definition int (s : string) : Z := int_of_digits_acc s 0.

Definition str_of_int (z : Z) : string := NilZero.string_of_int (Z.to_int z).

Definition str_of_nat (n : nat) : string := NilZero.string_of_uint (Nat.to_uint n).

End Py.
Export Py.

(* ================================================================= *)
(** ** [datetime]: dates, times of day and durations *)

Module Datetime.

(** A [Date] (the class [datetime.date]) is modelled by its proleptic Gregorian ordinal, the number
    [date.toordinal()] returns: 1 is 0001-01-01 and [MAXORDINAL] is
    9999-12-31.  Comparing two dates compares their ordinals. *)
Definition Date := Z.

Definition MINORDINAL : Z := 1.
Definition MAXORDINAL : Z := 3652059.

Definition is_leap (year : Z) : bool :=
  (year mod 4 =? 0) && (negb (year mod 100 =? 0) || (year mod 400 =? 0)).

Definition days_before_year (year : Z) : Z :=
  let y := year - 1 in y * 365 + y / 4 - y / 100 + y / 400.

Definition DAYS_BEFORE_MONTH : list Z :=
  [-1; 0; 31; 59; 90; 120; 151; 181; 212; 243; 273; 304; 334].

Definition days_before_month (year month : Z) : Z :=
  nth (Z.to_nat month) DAYS_BEFORE_MONTH 0
  + (if (2 <? month) && is_leap year then 1 else 0).

(** [date(year, month, day).toordinal()] *)
Definition ymd2ord (year month day : Z) : Date :=
  days_before_year year + days_before_month year month + day.

(** A [datetime]: the ordinal of its date, the second of the day and the
    microsecond of the second. *)
Record datetime := { dt_ordinal : Z; dt_second : Z; dt_microsecond : Z }.

(** [dt.date()] *)
Definition dt_date (dt : datetime) : Date := dt_ordinal dt.

Definition datetime_ok (dt : datetime) : Prop :=
  MINORDINAL <= dt_ordinal dt <= MAXORDINAL /\ 0 <= dt_second dt < 86400.

(** A [timedelta] with a zero microsecond part, normalised as Python keeps
    it: [0 <= td_seconds < 86400]. *)
Record timedelta := { td_days : Z; td_seconds : Z }.

Definition overflow (msg : string) : exn := Exn OverflowError msg.

(** [timedelta(days=.., seconds=.., minutes=.., hours=.., weeks=..)] on
    integers; more than 999999999 days in either direction is refused, with
    one message when the number of days fits a C [int] and another when it
    does not. *)
Definition mk_timedelta (days seconds minutes hours weeks : Z)
  : outcome timedelta :=
  let s := seconds + 60 * minutes + 3600 * hours in
  let d := days + 7 * weeks + s / 86400 in
  if Z.abs d <=? 999999999
  then Ok {| td_days := d; td_seconds := s mod 86400 |}
  else if (- 2147483648 <=? d) && (d <=? 2147483647)
  then Raise (overflow ("days=" +++ str_of_int d +++ "; must have magnitude <= 999999999"))
  else Raise (overflow "Python int too large to convert to C int").

(** [dt - td]; a result before year 1 or after year 9999 is refused. *)
Definition datetime_sub (dt : datetime) (td : timedelta) : outcome datetime :=
  let total := (dt_ordinal dt * 86400 + dt_second dt)
               - (td_days td * 86400 + td_seconds td) in
  let ord := total / 86400 in
  if (MINORDINAL <=? ord) && (ord <=? MAXORDINAL)
  then Ok {| dt_ordinal := ord; dt_second := total mod 86400;
             dt_microsecond := dt_microsecond dt |}
  else Raise (overflow "date value out of range").

End Datetime.
Export Datetime.

(* ================================================================= *)
(** ** The parsed HTML tree ([bs4]) *)

Module BS4.

(** A [Tag] has a name, its attributes (the items of the [attrs]
    dictionary, one per key) and its contents; a piece of text between tags
    is a [NavigableString].  Comments and the other special strings are not
    modelled. *)
Inductive tag :=
| Tag (name : string) (attrs : list (string * string)) (contents : list node)
with node :=
| NavigableString (s : string)
| Element (t : tag).

Definition tag_name (t : tag) : string := let 'Tag n _ _ := t in n.
Definition tag_attrs (t : tag) : list (string * string) := let 'Tag _ a _ := t in a.
Definition tag_contents (t : tag) : list node := let 'Tag _ _ c := t in c.

(** [tag.attrs.get(key)]: [key in tag.attrs] is [Some], [tag[key]] its value. *)
Fixpoint attr_get (key : string) (attrs : list (string * string)) : option string :=
  match attrs with
  | [] => None
  | (k, v) :: rest => if String.eqb k key then Some v else attr_get key rest
  end.

(** [tag.descendants], in document order. *)
Fixpoint descendants (t : tag) : list node :=
  match t with
  | Tag _ _ cs =>
      (fix go (cs : list node) : list node :=
         match cs with
         | [] => []
         | NavigableString s :: rest => NavigableString s :: go rest
         | Element t' :: rest => Element t' :: descendants t' ++ go rest
         end) cs
  end.

Definition tags_of (ns : list node) : list tag :=
  flat_map (fun n => match n with Element t => [t] | NavigableString _ => [] end) ns.

Definition strings_of (ns : list node) : list string :=
  flat_map (fun n => match n with NavigableString s => [s] | Element _ => [] end) ns.

Definition name_in (names : list string) (t : tag) : bool :=
  existsb (String.eqb (tag_name t)) names.

(** [tag.find_all(names)]: the descendant tags whose name is one of
    [names], in document order. *)
Definition find_all (t : tag) (names : list string) : list tag :=
  filter (name_in names) (tags_of (descendants t)).

(** The whitespace-separated tokens of a [class] attribute. *)
Fixpoint tokens_from (cur : string) (s : string) : list string :=
  match s with
  | EmptyString => if str_truthy cur then [cur] else []
  | String c s' =>
      if isspace c
      then (if str_truthy cur then [cur] else []) ++ tokens_from EmptyString s'
      else tokens_from (cur +++ String c EmptyString) s'
  end.

Definition class_tokens (t : tag) : option (list string) :=
  option_map (tokens_from EmptyString) (attr_get "class" (tag_attrs t)).

(** The [class_=value] filter: one of the classes of the tag is [value], or
    the classes joined by single spaces are [value]. *)
Definition has_class (value : string) (t : tag) : bool :=
  match class_tokens t with
  | None => false
  | Some toks => existsb (String.eqb value) toks || String.eqb (join " " toks) value
  end.

(** [tag.find_all(name, class_=value)] and [tag.find(name, class_=value)]. *)
Definition find_all_class (t : tag) (name value : string) : list tag :=
  filter (fun d => String.eqb (tag_name d) name && has_class value d)
         (tags_of (descendants t)).

Definition find_class (t : tag) (name value : string) : option tag :=
  hd_error (find_all_class t name value).

(** [tag.get_text(strip=True)]: every string below the tag is stripped, the
    ones left empty are dropped, the others are put end to end. *)
Definition get_text_strip (t : tag) : string :=
  join "" (filter str_truthy (map strip (strings_of (descendants t)))).

End BS4.
Export BS4.

(* ================================================================= *)
(** ** [urllib.parse]: resolving a reference against a base URL *)

Module UrlParse.

Definition uses_relative : list string :=
  [""; "ftp"; "http"; "gopher"; "nntp"; "imap"; "wais"; "file"; "https";
   "shttp"; "mms"; "prospero"; "rtsp"; "rtspu"; "sftp"; "svn"; "svn+ssh";
   "ws"; "wss"].

Definition uses_netloc : list string :=
  [""; "ftp"; "http"; "gopher"; "nntp"; "telnet"; "imap"; "wais"; "file";
   "mms"; "https"; "shttp"; "snews"; "prospero"; "rtsp"; "rtspu"; "rsync";
   "svn"; "svn+ssh"; "sftp"; "nfs"; "git"; "git+ssh"; "ws"; "wss"].

Definition uses_params : list string :=
  [""; "ftp"; "hdl"; "prospero"; "http"; "imap"; "https"; "shttp"; "rtsp";
   "rtspu"; "sip"; "sips"; "mms"; "sftp"; "tel"].

Definition str_in (s : string) (l : list string) : bool := existsb (String.eqb s) l.

Definition is_ascii_alpha (c : ascii) : bool :=
  let n := N_of_ascii c in
  (((65 <=? n) && (n <=? 90)) || ((97 <=? n) && (n <=? 122)))%N.

(** [c in scheme_chars] *)
Definition is_scheme_char (c : ascii) : bool :=
  is_ascii_alpha c || isdigit c || contains_chr c "+-.".

Definition ascii_lower (c : ascii) : ascii :=
  let n := N_of_ascii c in
  if ((65 <=? n) && (n <=? 90))%N then ascii_of_N (n + 32) else c.

Fixpoint str_map (f : ascii -> ascii) (s : string) : string :=
  match s with
  | EmptyString => EmptyString
  | String c s' => String (f c) (str_map f s')
  end.

Fixpoint str_forallb (p : ascii -> bool) (s : string) : bool :=
  match s with
  | EmptyString => true
  | String c s' => p c && str_forallb p s'
  end.

Fixpoint str_filter (p : ascii -> bool) (s : string) : string :=
  match s with
  | EmptyString => EmptyString
  | String c s' => if p c then String c (str_filter p s') else str_filter p s'
  end.

(** [_WHATWG_C0_CONTROL_OR_SPACE]: the code points up to 0x20. *)
Definition is_c0_or_space (c : ascii) : bool := (N_of_ascii c <=? 32)%N.

Fixpoint lstrip_c0 (s : string) : string :=
  match s with
  | String c s' => if is_c0_or_space c then lstrip_c0 s' else s
  | EmptyString => EmptyString
  end.

Fixpoint rstrip_c0 (s : string) : string :=
  match s with
  | EmptyString => EmptyString
  | String c s' =>
      match rstrip_c0 s' with
      | EmptyString => if is_c0_or_space c then EmptyString else String c EmptyString
      | r => String c r
      end
  end.

(** [_UNSAFE_URL_BYTES_TO_REMOVE]: tab, carriage return and line feed. *)
Definition is_unsafe_byte (c : ascii) : bool :=
  let n := N_of_ascii c in ((n =? 9) || (n =? 13) || (n =? 10))%N.

Definition remove_unsafe (s : string) : string :=
  str_filter (fun c => negb (is_unsafe_byte c)) s.

(** [s.split(c, 1)] when [c] occurs in [s]: what is before the first
    occurrence and what is after it. *)
Fixpoint partition_chr (c : ascii) (s : string) : option (string * string) :=
  match s with
  | EmptyString => None
  | String a s' =>
      if Ascii.eqb a c then Some (EmptyString, s')
      else match partition_chr c s' with
           | Some (l, r) => Some (String a l, r)
           | None => None
           end
  end.

(** [_splitnetloc(url, 2)] on what follows the two slashes: the netloc runs
    to the first of [/], [?], [#]. *)
Fixpoint splitnetloc (s : string) : string * string :=
  match s with
  | EmptyString => (EmptyString, EmptyString)
  | String c s' =>
      if contains_chr c "/?#" then (EmptyString, s)
      else let '(n, r) := splitnetloc s' in (String c n, r)
  end.

Definition value_error (msg : string) : exn := Exn ValueError msg.

Section Urls.

(** [_check_bracketed_netloc]: whether a netloc with a bracketed host names
    a well-formed IPv6 or IPvFuture address (decided by [ipaddress]). *)
Variable bracketed_netloc_ok : string -> bool.

Definition split_result : Type := string * string * string * string * string.

(** [urlsplit(url, scheme)].  [_checknetloc] only rejects characters whose
    compatibility normalisation contains a delimiter; no code point below
    256 does, so it has no counterpart here. *)
Definition urlsplit (url scheme : string) : outcome split_result :=
  let url := remove_unsafe (lstrip_c0 url) in
  let scheme := remove_unsafe (rstrip_c0 (lstrip_c0 scheme)) in
  let '(scheme, url) :=
    match partition_chr ":" url with
    | Some (String c0 pre, rest) =>
        if is_ascii_alpha c0 && str_forallb is_scheme_char (String c0 pre)
        then (str_map ascii_lower (String c0 pre), rest)
        else (scheme, url)
    | _ => (scheme, url)
    end in
  let split_qf (netloc url : string) : split_result :=
    let '(url, fragment) :=
      match partition_chr "#" url with
      | Some (u, f) => (u, f)
      | None => (url, EmptyString)
      end in
    let '(url, query) :=
      match partition_chr "?" url with
      | Some (u, q) => (u, q)
      | None => (url, EmptyString)
      end in
    (scheme, netloc, url, query, fragment) in
  match url with
  | String "/" (String "/" after) =>
      let '(netloc, url) := splitnetloc after in
      let lb := contains_chr "[" netloc in
      let rb := contains_chr "]" netloc in
      if (lb && negb rb) || (rb && negb lb)
      then Raise (value_error "Invalid IPv6 URL")
      else if lb && rb && negb (bracketed_netloc_ok netloc)
      then Raise (value_error "Invalid IPv6 URL")
      else Ok (split_qf netloc url)
  | _ => Ok (split_qf EmptyString url)
  end.

(** [url.find(';', url.rfind('/'))]: the text is cut at the first [;] that
    comes at or after the last [/]. *)
Fixpoint split_after_last_slash (s : string) : option (string * string) :=
  match s with
  | EmptyString => None
  | String c s' =>
      if contains_chr "/" s' then
        match split_after_last_slash s' with
        | Some (u, p) => Some (String c u, p)
        | None => None
        end
      else partition_chr ";" s
  end.

Fixpoint str_removelast (s : string) : string :=
  match s with
  | EmptyString => EmptyString
  | String c EmptyString => EmptyString
  | String c s' => String c (str_removelast s')
  end.

(** [_splitparams(url)] *)
Definition splitparams (url : string) : string * string :=
  if contains_chr "/" url then
    match split_after_last_slash url with
    | Some (u, p) => (u, p)
    | None => (url, EmptyString)
    end
  else
    match partition_chr ";" url with
    | Some (u, p) => (u, p)
    | None => (str_removelast url, url)   (* [i = -1]: [url[:-1], url[0:]] *)
    end.

Definition parse_result : Type := string * string * string * string * string * string.

(** [urlparse(url, scheme)] *)
Definition urlparse (url scheme : string) : outcome parse_result :=
  obind (urlsplit url scheme) (fun '(scheme, netloc, url, query, fragment) =>
    let '(url, params) :=
      if str_in scheme uses_params && contains_chr ";" url
      then splitparams url else (url, EmptyString) in
    Ok (scheme, netloc, url, params, query, fragment)).

(** [urlunsplit((scheme, netloc, url, query, fragment))] *)
Definition urlunsplit (c : split_result) : string :=
  let '(scheme, netloc, url, query, fragment) := c in
  let url :=
    if str_truthy netloc
       || (str_truthy scheme && str_in scheme uses_netloc
           && negb (String.prefix "//" url))
    then "//" +++ netloc +++
         (if str_truthy url && negb (String.prefix "/" url) then "/" +++ url else url)
    else url in
  let url := if str_truthy scheme then scheme +++ ":" +++ url else url in
  let url := if str_truthy query then url +++ "?" +++ query else url in
  if str_truthy fragment then url +++ "#" +++ fragment else url.

(** [urlunparse((scheme, netloc, url, params, query, fragment))] *)
Definition urlunparse (c : parse_result) : string :=
  let '(scheme, netloc, url, params, query, fragment) := c in
  let url := if str_truthy params then url +++ ";" +++ params else url in
  urlunsplit (scheme, netloc, url, query, fragment).

(** The loop of [urljoin] over the segments: [..] removes the last segment
    kept so far, if there is one, [.] is skipped. *)
Fixpoint resolve_segments (segments resolved_path : list string) : list string :=
  match segments with
  | [] => resolved_path
  | seg :: rest =>
      if String.eqb seg ".." then resolve_segments rest (removelast resolved_path)
      else if String.eqb seg "." then resolve_segments rest resolved_path
      else resolve_segments rest (resolved_path ++ [seg])
  end.

(** [segments[1:-1] = filter(None, segments[1:-1])] *)
Definition filter_middle (segments : list string) : list string :=
  match segments with
  | first :: (_ :: _) as rest =>
      first :: filter str_truthy (removelast rest) ++ [last rest EmptyString]
  | _ => segments
  end.

(** [urljoin(base, url)] *)
Definition urljoin (base url : string) : outcome string :=
  if negb (str_truthy base) then Ok url
  else if negb (str_truthy url) then Ok base
  else
    obind (urlparse base EmptyString)
      (fun '(bscheme, bnetloc, bpath, bparams, bquery, bfragment) =>
    obind (urlparse url bscheme)
      (fun '(scheme, netloc, path, params, query, fragment) =>
    if negb (String.eqb scheme bscheme) || negb (str_in scheme uses_relative)
    then Ok url
    else if str_in scheme uses_netloc && str_truthy netloc
    then Ok (urlunparse (scheme, netloc, path, params, query, fragment))
    else
      let netloc := if str_in scheme uses_netloc then bnetloc else netloc in
      if negb (str_truthy path) && negb (str_truthy params)
      then
        let query := if str_truthy query then query else bquery in
        Ok (urlunparse (scheme, netloc, bpath, bparams, query, fragment))
      else
        let base_parts := split_chr "/" bpath in
        let base_parts :=
          if str_truthy (last base_parts EmptyString)
          then removelast base_parts else base_parts in
        let segments :=
          if String.prefix "/" path then split_chr "/" path
          else filter_middle (base_parts ++ split_chr "/" path) in
        let resolved_path := resolve_segments segments [] in
        let resolved_path :=
          if str_in (last segments EmptyString) ["."; ".."]
          then resolved_path ++ [EmptyString] else resolved_path in
        let joined := join "/" resolved_path in
        Ok (urlunparse (scheme, netloc,
                        (if str_truthy joined then joined else "/"),
                        params, query, fragment)))).

End Urls.

End UrlParse.

(* ================================================================= *)
(** ** The outside world *)

(** An HTTP response, as far as the script looks at it. *)
Record response := { status_code : Z; text : string }.

(** A request: whether it went through [cloudscraper], and its URL. *)
Definition request : Type := bool * string.

(** The behaviour of the libraries and of the network.  The answer to a
    request may depend on the requests made before it. *)
Record Lib := {
  (** [requests.get(url, headers=...)] and [cloudscraper.create_scraper().get(url)] *)
  http_get : list request -> bool -> string -> outcome response;
  (** [BeautifulSoup(content, 'html.parser')] *)
  html_parser : string -> tag;
  (** [tag.select_one(selector)] and [tag.select(selector)] *)
  select_one : tag -> string -> outcome (option tag);
  select : tag -> string -> outcome (list tag);
  (** [datetime.strptime(date_string, format)] *)
  strptime : string -> string -> outcome datetime;
  (** the validation of bracketed hosts in [urllib.parse] *)
  bracketed_netloc_ok : string -> bool;
  (** [hash] on a [str] and on a tuple, from the hashes of its items *)
  hash_str : string -> Z;
  hash_tuple : list Z -> Z;
  (** [webdriver.Chrome(options=...)] and [driver.quit()] *)
  webdriver_Chrome : outcome unit;
  driver_quit : outcome unit
}.

(** What a run leaves behind: the lines printed and the requests sent, both
    in order. *)
Record World := { stdout : list string; requests : list request }.

Definition empty_world : World := {| stdout := []; requests := [] |}.

(** Code with effects: from a world to an outcome and the world after. *)
Definition M (A : Type) : Type := World -> outcome A * World.

Definition ret {A} (a : A) : M A := fun w => (Ok a, w).

Definition bind {A B} (c : M A) (k : A -> M B) : M B :=
  fun w =>
    match c w with
    | (Ok a, w') => k a w'
    | (Raise e, w') => (Raise e, w')
    | (Diverge, w') => (Diverge, w')
    end.

Notation "x <- c ;; k" := (bind c (fun x => k))
  (at level 61, c at next level, right associativity).
Notation "c ;;; k" := (bind c (fun _ => k))
  (at level 61, right associativity).

Definition raise {A} (e : exn) : M A := fun w => (Raise e, w).

(** A pure call that may raise. *)
Definition lift {A} (o : outcome A) : M A := fun w => (o, w).

(** [print(line)] *)
Definition print (line : string) : M unit :=
  fun w => (Ok tt, {| stdout := stdout w ++ [line]; requests := requests w |}).

(** [try: c  except Exception as e: handler(e)] *)
Definition try_except {A} (c : M A) (handler : exn -> M A) : M A :=
  fun w =>
    match c w with
    | (Raise e, w') => handler e w'
    | r => r
    end.

(** A function that returns either a [str] it computed or the default it
    was given returns values of the type of the default; [of_str] says how a
    [str] is such a value. *)
Class FromStr (D : Type) := of_str : string -> D.
#[export] Instance FromStr_str : FromStr string := fun s => s.
#[export] Instance FromStr_opt : FromStr (option string) := fun s => Some s.

(* ================================================================= *)
(** ** [class Article] *)

(** The published date of an article: a date, a string, or [None]. *)
Inductive date_value :=
| DDate (d : Date)
| DStr (s : string)
| DNone.

(** The tags of an article: [None], a string, or a list of strings. *)
Inductive tags_value :=
| TagsNone
| TagsStr (s : string)
| TagsList (l : list string).

Record Article := mkArticle {
  title : string;
  url : string;
  date : date_value;
  tags : tags_value;
  source : string;
  description : option string;
  image : option string;
  content : option string
}.

(** Any Python object an article may be compared with. *)
Inductive pyobject :=
| PyArticle (a : Article)
| PyNone
| PyStr (s : string).

(** [Article.__eq__] *)
Definition Article_eq (self : Article) (other : pyobject) : bool :=
  match other with
  | PyArticle o => String.eqb (title self) (title o) && String.eqb (url self) (url o)
  | _ => false
  end.

(** [Article.__hash__] *)
Definition Article_hash (L : Lib) (self : Article) : Z :=
  hash_tuple L [hash_str L (title self); hash_str L (url self)].

(** An [Article] defines neither [__bool__] nor [__len__]: it is true, and
    [if article_details:] asks whether the value is an article ([Some]) or
    [None]. *)

(* ================================================================= *)
(** ** [class BaseScraper] *)

Module BaseScraper.

Definition LF : string := String "010"%char EmptyString.

Definition attribute_error_none (attr : string) : exn :=
  Exn AttributeError ("'NoneType' object has no attribute '" +++ attr +++ "'").

(** The result of [is_article_valid]: a [bool] or [None]. *)
Inductive valid_result :=
| VBool (b : bool)
| VNone.

Definition valid_truthy (r : valid_result) : bool :=
  match r with VBool b => b | VNone => false end.

(** [re.sub(r'[^\x20-\x7E]+', '', text)] *)
Definition is_printable (c : ascii) : bool :=
  let n := N_of_ascii c in ((32 <=? n) && (n <=? 126))%N.

Definition sub_non_printable (s : string) : string :=
  UrlParse.str_filter is_printable s.

Section Methods.

Variable L : Lib.
(** [self.min_date] *)
Variable min_date : Date.

(** The request leaves the program: it is recorded, and the network
    answers. *)
Definition send (use_cloudscraper : bool) (url : string) : M response :=
  fun w =>
    (http_get L (requests w) use_cloudscraper url,
     {| stdout := stdout w; requests := requests w ++ [(use_cloudscraper, url)] |}).

Definition fetch_page_content (url : string) (use_cloudscraper : bool)
  : M (option string) :=
  response <- send use_cloudscraper url ;;
  if status_code response =? 200 then ret (Some (text response))
  else print ("Failed to retrieve " +++ url) ;;; ret None.

Definition parse_html (content : string) : tag := html_parser L content.

(** [tag.select_one(selector)] on a value that is a tag or [None]. *)
Definition call_select_one (t : option tag) (selector : string)
  : outcome (option tag) :=
  match t with
  | Some t => select_one L t selector
  | None => Raise (attribute_error_none "select_one")
  end.

Definition extract_text {D} `{FromStr D}
  (t : option tag) (selector : string) (default : D) : M D :=
  try_except
    (element <- lift (call_select_one t selector) ;;
     ret (match element with
          | Some el => of_str (get_text_strip el)
          | None => default
          end))
    (fun e =>
       print ("Failed to extract text using selector '" +++ selector +++ "': "
              +++ exn_msg e) ;;;
       ret default).

Definition extract_link {D} `{FromStr D}
  (t : option tag) (selector base_url : string) (default : D) : outcome D :=
  obind (if str_truthy selector then call_select_one t selector else Ok t)
    (fun t =>
       match t with
       | Some t =>
           match attr_get "href" (tag_attrs t) with
           | Some href =>
               obind (UrlParse.urljoin (bracketed_netloc_ok L) base_url href)
                     (fun u => Ok (of_str u))
           | None => Ok default
           end
       | None => Ok default
       end).

Definition extract_image {D} `{FromStr D}
  (t : option tag) (selector attribute : string) (default : D) : M D :=
  try_except
    (element <- lift (call_select_one t selector) ;;
     match element with
     | Some el =>
         let attrs := tag_attrs el in
         match (if negb (String.eqb attribute "src") then attr_get attribute attrs
                else None) with
         | Some v => ret (of_str v)
         | None =>
             match attr_get "src" attrs with
             | Some v => ret (of_str v)
             | None =>
                 match attr_get "data-cfsrc" attrs with
                 | Some v => ret (of_str v)
                 | None =>
                     match attr_get "data-srcset" attrs with
                     | Some v => ret (of_str v)
                     | None =>
                         (* [image] was never assigned *)
                         raise (Exn UnboundLocalError
                           "cannot access local variable 'image' where it is not associated with a value")
                     end
                 end
             end
         end
     | None => ret default
     end)
    (fun e =>
       print ("Failed to extract image using selector '" +++ selector +++ "': "
              +++ exn_msg e) ;;;
       ret default).

(** The body of the loop [for p in paragraphs] of [extract_content]. *)
Definition process_paragraph (processed_paragraphs : list string) (p : tag)
  : list string :=
  let text := get_text_strip p in
  if str_truthy text
  then processed_paragraphs ++ [replace "," " " (replace LF " " text)]
  else processed_paragraphs.

Definition extract_content (soup : tag) (content_selector : string)
  : outcome string :=
  obind (select_one L soup content_selector) (fun content_div =>
    match content_div with
    | Some content_div =>
        let paragraphs := find_all content_div ["p"; "h2"; "h3"; "li"] in
        let processed_paragraphs := fold_left process_paragraph paragraphs [] in
        let text := join " || " processed_paragraphs in
        Ok (sub_non_printable text)
    | None => Ok EmptyString
    end).

(** [date_str] is the value the caller passes: a [str], or [None] when the
    caller's default was [None]. *)
Definition parse_date (date_str : option string) (date_format : string)
  : outcome date_value :=
  match date_str with
  | None => Raise (Exn TypeError "strptime() argument 1 must be str, not None")
  | Some s =>
      match strptime L s date_format with
      | Ok dt => Ok (DDate (dt_date dt))
      | Raise e =>
          if exc_class_eqb (exn_class e) ValueError then Ok (DStr "No Date")
          else Raise e
      | Diverge => Diverge
      end
  end.

Definition is_article_valid (article_date : date_value) : valid_result :=
  match article_date with
  | DStr _ => VBool true                       (* [isinstance(article_date, str)] *)
  | DNone => VNone                             (* [None and ...] is [None] *)
  | DDate d => VBool (min_date <=? d)          (* [article_date >= self.min_date] *)
  end.

End Methods.

End BaseScraper.

(** The loops over pages have no bound of their own: [fuel] bounds the
    number of pages a model run may visit, and a run that needs more
    gives [Diverge]. *)
Definition out_of_fuel {A} : M A := fun w => (Diverge, w).

(* ================================================================= *)
(** ** [class InfoSecurityMagazineScraper] *)

Module InfoSecurityMagazineScraper.
Import BaseScraper.

Section Methods.

Variable L : Lib.
Variable base_url : string.
Variable min_date : Date.

Definition extract_article_content (article_url : string) : M (option string) :=
  page_content <- fetch_page_content L article_url false ;;
  match page_content with
  | None | Some EmptyString => ret None
  | Some page_content =>
      let soup := parse_html L page_content in
      content <- lift (extract_content L soup "div.content-module") ;;
      ret (Some content)
  end.

Definition extract_articles (soup : tag) : list tag :=
  match find_class soup "ol" "webpages-list" with
  | None => []
  | Some main_articles_container =>
      find_all_class main_articles_container "li" "webpage-item"
  end.

Definition extract_article_details (article : tag) : M (option Article) :=
  date_str <- extract_text L (Some article) "time" (@None string) ;;
  article_date <- lift (parse_date L date_str "%d %b %Y") ;;
  if negb (valid_truthy (is_article_valid min_date article_date)) then ret None
  else
    title <- extract_text L (Some article) "h2.h3.webpage-title" "No Title" ;;
    link <- lift (extract_link L (Some article) "h2.h3.webpage-title a" base_url "") ;;
    description <- extract_text L (Some article) "p.webpage-summary"
                     "No description available" ;;
    image <- extract_image L (Some article) "img.webpage-thumb" "src" "" ;;
    content <- extract_article_content link ;;
    ret (Some (mkArticle title link article_date TagsNone "InfoSecurity Magazine"
                         (Some description) (Some image) content)).

(** [for article in article_items: ...]: the articles gathered so far and
    whether [stop_scraping] was set. *)
Fixpoint process_articles (article_items : list tag) (all_articles : list Article)
  : M (list Article * bool) :=
  match article_items with
  | [] => ret (all_articles, false)
  | article :: rest =>
      article_details <- extract_article_details article ;;
      match article_details with
      | Some a => process_articles rest (all_articles ++ [a])
      | None => ret (all_articles, true)
      end
  end.

(** [while not stop_scraping: ...] *)
Fixpoint scrape_pages (fuel : nat) (page_number : Z) (all_articles : list Article)
  : M (list Article) :=
  match fuel with
  | O => out_of_fuel
  | S fuel' =>
      let current_url :=
        if 1 <? page_number
        then base_url +++ "/page-" +++ str_of_int page_number +++ "/"
        else base_url in
      page_content <- fetch_page_content L current_url false ;;
      match page_content with
      | None | Some EmptyString =>
          print ("Failed to retrieve content from " +++ current_url +++ ". Stopping.") ;;;
          ret all_articles
      | Some page_content =>
          let soup := parse_html L page_content in
          match extract_articles soup with
          | [] =>
              print ("No articles found on page " +++ str_of_int page_number
                     +++ ". Stopping.") ;;;
              ret all_articles
          | article_items =>
              r <- process_articles article_items all_articles ;;
              let '(all_articles, stop_scraping) := r in
              if stop_scraping then ret all_articles
              else scrape_pages fuel' (page_number + 1) all_articles
          end
      end
  end.

Definition scrape (fuel : nat) : M (list Article) := scrape_pages fuel 1 [].

End Methods.

End InfoSecurityMagazineScraper.

(* ================================================================= *)
(** ** [class CISAScraper] *)

Module CISAScraper.
Import BaseScraper.

Section Methods.

Variable L : Lib.
Variable base_url : string.
Variable min_date : Date.

Definition extract_articles (soup : tag) : list tag :=
  find_all_class soup "article" "is-promoted c-teaser c-teaser--horizontal".

Definition extract_article_content (article_url : string) : M (option string) :=
  page_content <- fetch_page_content L article_url true ;;
  match page_content with
  | None | Some EmptyString => ret None
  | Some page_content =>
      let soup := parse_html L page_content in
      content <- lift (extract_content L soup "div.l-page-section__content") ;;
      ret (Some content)
  end.

Definition extract_article_details (container : tag) : M (option Article) :=
  date_text <- extract_text L (Some container) "div.c-teaser__date" "" ;;
  article_date <- lift (parse_date L (Some date_text) "%b %d, %Y") ;;
  if negb (valid_truthy (is_article_valid min_date article_date)) then ret None
  else
    title <- extract_text L (Some container) "h3.c-teaser__title" "" ;;
    article_url <- lift (extract_link L (Some container) "h3.c-teaser__title a"
                                      "https://www.cisa.gov" "") ;;
    meta <- extract_text L (Some container) "div.c-teaser__meta" "" ;;
    let tags := split_chr "|" meta in
    content <- extract_article_content article_url ;;
    ret (Some (mkArticle title article_url article_date (TagsList tags) "CISA"
                         None None content)).

(** [for container in article_containers: ...] of [scrape_page] *)
Fixpoint process_containers (article_containers : list tag) (articles : list Article)
  : M (list Article) :=
  match article_containers with
  | [] => ret articles
  | container :: rest =>
      article_details <- extract_article_details container ;;
      match article_details with
      | Some a => process_containers rest (articles ++ [a])
      | None => process_containers rest articles
      end
  end.

Definition scrape_page (url : string) : M (list Article) :=
  page_content <- fetch_page_content L url true ;;
  match page_content with
  | None | Some EmptyString => ret []
  | Some page_content =>
      let soup := parse_html L page_content in
      match extract_articles soup with
      | [] => ret []
      | article_containers => process_containers article_containers []
      end
  end.

(** [while True: ...] *)
Fixpoint scrape_pages (fuel : nat) (current_page : Z) (all_articles : list Article)
  : M (list Article) :=
  match fuel with
  | O => out_of_fuel
  | S fuel' =>
      let url :=
        if 1 <? current_page
        then base_url +++ "?page=" +++ str_of_int current_page
        else base_url in
      page_articles <- scrape_page url ;;
      match page_articles with
      | [] => ret all_articles
      | _ => scrape_pages fuel' (current_page + 1) (all_articles ++ page_articles)
      end
  end.

Definition scrape (fuel : nat) : M (list Article) := scrape_pages fuel 1 [].

End Methods.

End CISAScraper.

(* ================================================================= *)
(** ** [class CyberSecurityDiveScraper] *)

Module CyberSecurityDiveScraper.
Import BaseScraper.

(** [\w] below code point 256: letters, digits, the underscore and the
    characters [str.isalnum] accepts. *)
Definition is_word_char (c : ascii) : bool :=
  let n := N_of_ascii c in
  (UrlParse.is_ascii_alpha c || isdigit c || (n =? 95)
   || (n =? 170) || (n =? 178) || (n =? 179) || (n =? 181) || (n =? 185)
   || (n =? 186) || ((188 <=? n) && (n <=? 190))
   || ((192 <=? n) && (n <=? 214)) || ((216 <=? n) && (n <=? 246))
   || (248 <=? n))%N.

(** [re.sub(r'(\b\w+\.)', lambda match: match.group(1).replace('.', ''), s)]:
    a match is a whole run of word characters and the dot after it, and it
    is replaced by the run; so a dot goes exactly when the character before
    it is a word character. *)
Fixpoint sub_word_dot (after_word : bool) (s : string) : string :=
  match s with
  | EmptyString => EmptyString
  | String c s' =>
      if Ascii.eqb c "." && after_word then sub_word_dot false s'
      else String c (sub_word_dot (is_word_char c) s')
  end.

(** An [Article] is true in [[article for article in ... if article]]. *)
Definition article_truthy (_ : Article) : bool := true.

Section Methods.

Variable L : Lib.
Variable base_url : string.
Variable min_date : Date.

Definition extract_articles (soup : tag) : list tag :=
  find_all_class soup "li" "row feed__item".

Definition extract_article_date (soup : tag) : outcome date_value :=
  let date_tag :=
    match find_class soup "div" "date date-bottom-border" with
    | Some t => Some t
    | None => find_class soup "div"
                "post-author-text-byline post-author-text-byline-date"
    end in
  match date_tag with
  | None => Ok (DStr "No Date")
  | Some date_tag =>
      let date_text :=
        strip (replace "Updated " "" (replace "Published " "" (get_text_strip date_tag))) in
      let date_text := replace "Sept." "Sep." date_text in
      let date_text := sub_word_dot false date_text in
      parse_date L (Some date_text) "%b %d, %Y"
  end.

Definition extract_article_content (article_url : string)
  : M (date_value * option string * option string) :=
  page_content <- fetch_page_content L article_url false ;;
  match page_content with
  | None | Some EmptyString => ret (DNone, None, None)
  | Some page_content =>
      let soup := parse_html L page_content in
      article_date <- lift (extract_article_date soup) ;;
      content <- lift (extract_content L soup "div.large.medium.article-body") ;;
      let image_container := find_class soup "div" "figure_content article-hero-img" in
      image <- extract_image L image_container "img" "src" "" ;;
      ret (article_date, Some content, Some image)
  end.

Definition extract_featured_article_details (article : tag) (main : bool)
  : M Article :=
  if main then
    title <- extract_text L (Some article) "h1 a" "" ;;
    link <- lift (extract_link L (Some article) "h1 a" base_url "") ;;
    description <- extract_text L (Some article) "p.hero-article__teaser" "" ;;
    r <- extract_article_content link ;;
    let '(date, content, image) := r in
    ret (mkArticle title link date TagsNone "CyberSecurity Dive"
                   (Some description) image content)
  else
    title <- extract_text L (Some article) "h3 a" "" ;;
    link <- lift (extract_link L (Some article) "h3 a" base_url "") ;;
    r <- extract_article_content link ;;
    let '(date, content, image) := r in
    ret (mkArticle title link date TagsNone "CyberSecurity Dive"
                   None image content).

(** [for story in top_stories: featured_articles.append(...)] *)
Fixpoint process_top_stories (top_stories : list tag) (featured_articles : list Article)
  : M (list Article) :=
  match top_stories with
  | [] => ret featured_articles
  | story :: rest =>
      a <- extract_featured_article_details story false ;;
      process_top_stories rest (featured_articles ++ [a])
  end.

Definition extract_featured_articles (soup : tag) : M (list Article) :=
  hero_article <- lift (select_one L soup "section.hero-article") ;;
  top_stories <- lift (select L soup "section.top-stories ol li") ;;
  featured_articles <-
    match hero_article with
    | Some hero_article =>
        a <- extract_featured_article_details hero_article true ;; ret [a]
    | None => ret []
    end ;;
  featured_articles <- process_top_stories top_stories featured_articles ;;
  ret (filter article_truthy featured_articles).

Definition extract_article_details (article : tag) : M (option Article) :=
  title <- extract_text L (Some article) "h3.feed__title" "" ;;
  link <- lift (extract_link L (Some article) "a" base_url "") ;;
  description <- extract_text L (Some article) "p.feed__description" "" ;;
  r <- extract_article_content link ;;
  let '(article_date, content, image) := r in
  if negb (valid_truthy (is_article_valid min_date article_date)) then ret None
  else ret (Some (mkArticle title link article_date TagsNone "CyberSecurity Dive"
                            (Some description) image content)).

(** [for article in articles: ...]: the articles gathered so far and
    whether [stop_scraping] was set. *)
Fixpoint process_articles (articles : list tag) (all_articles : list Article)
  : M (list Article * bool) :=
  match articles with
  | [] => ret (all_articles, false)
  | article :: rest =>
      article_details <- extract_article_details article ;;
      match article_details with
      | Some a => process_articles rest (all_articles ++ [a])
      | None => ret (all_articles, true)
      end
  end.

(** [while not stop_scraping: ...] *)
Fixpoint scrape_pages (fuel : nat) (page_number : Z) (all_articles : list Article)
  : M (list Article) :=
  match fuel with
  | O => out_of_fuel
  | S fuel' =>
      let current_url :=
        if 1 <? page_number
        then base_url +++ "?page=" +++ str_of_int page_number
        else base_url in
      page_content <- fetch_page_content L current_url false ;;
      match page_content with
      | None | Some EmptyString => ret all_articles
      | Some page_content =>
          let soup := parse_html L page_content in
          match extract_articles soup with
          | [] => ret all_articles
          | articles =>
              all_articles <-
                (if page_number =? 1 then
                   featured_articles <- extract_featured_articles soup ;;
                   ret (all_articles ++ featured_articles)
                 else ret all_articles) ;;
              r <- process_articles articles all_articles ;;
              let '(all_articles, stop_scraping) := r in
              if stop_scraping then ret all_articles
              else scrape_pages fuel' (page_number + 1) all_articles
          end
      end
  end.

Definition scrape (fuel : nat) : M (list Article) := scrape_pages fuel 1 [].

End Methods.

End CyberSecurityDiveScraper.

(* ================================================================= *)
(** ** [class SecurityWeekScraper]: the relative-time parser *)

Module SecurityWeekScraper.

Definition time_units : list string :=
  ["day"; "hour"; "minute"; "second"; "week"; "month"; "year"].

(** [(\d+)]: the longest run of digits at the start, and what follows. *)
Fixpoint span_digits (s : string) : string * string :=
  match s with
  | String c s' =>
      if isdigit c then let '(ds, r) := span_digits s' in (String c ds, r)
      else (EmptyString, s)
  | EmptyString => (EmptyString, EmptyString)
  end.

(** [(day|hour|...)]: the first alternative that starts the text. *)
Fixpoint match_unit (units : list string) (s : string) : option (string * string) :=
  match units with
  | [] => None
  | u :: rest =>
      if String.prefix u s then Some (u, drop (String.length u) s)
      else match_unit rest s
  end.

(** [\s*ago] *)
Definition match_ago (s : string) : bool := String.prefix "ago" (lstrip s).

(** The pattern [(\d+)\s*(day|hour|minute|second|week|month|year)s?\s*ago]
    tried at the start of [s]; the result is the two groups.  The digits
    and the spaces are taken greedily, which loses no match: giving one
    back would leave a digit or a space where a unit or [ago] must start,
    and no two units start the same text. *)
Definition match_here (s : string) : option (string * string) :=
  match span_digits s with
  | (EmptyString, _) => None
  | (ds, r) =>
      match match_unit time_units (lstrip r) with
      | None => None
      | Some (u, r') =>
          let with_s :=
            match r' with
            | String "s" r'' => match_ago r''
            | _ => false
            end in
          if with_s || match_ago r' then Some (ds, u) else None
      end
  end.

(** [re.search(time_pattern, s)]: the first position where the pattern
    matches. *)
Fixpoint re_search (s : string) : option (string * string) :=
  match match_here s with
  | Some m => Some m
  | None =>
      match s with
      | EmptyString => None
      | String _ s' => re_search s'
      end
  end.

(** The [if]/[elif] chain over [time_unit]; [None] is its [else] branch. *)
Definition offset_of (time_unit : string) (quantity : Z) : option (outcome timedelta) :=
  if String.eqb time_unit "day" then Some (mk_timedelta quantity 0 0 0 0)
  else if String.eqb time_unit "hour" then Some (mk_timedelta 0 0 0 quantity 0)
  else if String.eqb time_unit "minute" then Some (mk_timedelta 0 0 quantity 0 0)
  else if String.eqb time_unit "second" then Some (mk_timedelta 0 quantity 0 0 0)
  else if String.eqb time_unit "week" then Some (mk_timedelta 0 0 0 0 quantity)
  else if String.eqb time_unit "month" then Some (mk_timedelta (30 * quantity) 0 0 0 0)
  else if String.eqb time_unit "year" then Some (mk_timedelta (365 * quantity) 0 0 0 0)
  else None.

(** [calculate_article_date], with [today] the value [datetime.now()]
    returns when the method runs. *)
Definition calculate_article_date (today : datetime) (relative_time_str : string)
  : outcome (option Date) :=
  match re_search relative_time_str with
  | None => Ok None
  | Some (digits, time_unit) =>
      let quantity := int digits in
      match offset_of time_unit quantity with
      | None => Ok None
      | Some delta =>
          obind delta (fun delta =>
          obind (datetime_sub today delta) (fun article_date =>
          Ok (Some (dt_date article_date))))
      end
  end.

End SecurityWeekScraper.

(* ================================================================= *)
(** ** The run orchestrator *)

(** One row of the configuration.  [config_scraper_class c url min_date] is
    what [config['scraper_class'](config['url'], min_date, driver).scrape()]
    does: build the controller and run it. *)
Record config := {
  config_name : string;
  config_scrape_type : string;
  config_url : string;
  config_scraper_class : string -> Date -> M (list Article)
}.

Section Orchestrator.

Variable L : Lib.

(** A [set] of articles is kept as the list of its elements, in the order
    in which they were added.  An object is in the set when an element has
    its hash and compares equal to it. *)
Definition set_contains (s : list Article) (a : Article) : bool :=
  existsb (fun b => (Article_hash L b =? Article_hash L a)
                    && Article_eq b (PyArticle a)) s.

Definition set_add (s : list Article) (a : Article) : list Article :=
  if set_contains s a then s else s ++ [a].

(** [set(iterable)] and [s.update(other)] *)
Definition set_of (l : list Article) : list Article := fold_left set_add l [].
Definition set_update (s other : list Article) : list Article := fold_left set_add other s.

(** [all_articles] and [errors]. *)
Definition run_state : Type := list Article * list (string * string).

(** The body of [for config in configs]. *)
Definition scrape_site (min_date : Date) (st : run_state) (c : config) : M run_state :=
  let '(all_articles, errors) := st in
  try_except
    (scraped <- config_scraper_class c (config_url c) min_date ;;
     let articles := set_of scraped in
     let all_articles := set_update all_articles articles in
     print (BaseScraper.LF +++ "Successfully scraped "
            +++ str_of_nat (List.length articles) +++ " articles from "
            +++ config_name c) ;;;
     ret (all_articles, errors))
    (fun e =>
       print (BaseScraper.LF +++ "Error scraping " +++ config_name c +++ ": "
              +++ exn_msg e) ;;;
       ret (all_articles, errors ++ [(config_name c, exn_msg e)])).

Fixpoint scrape_sites (min_date : Date) (configs : list config) (st : run_state)
  : M run_state :=
  match configs with
  | [] => ret st
  | c :: rest => st' <- scrape_site min_date st c ;; scrape_sites min_date rest st'
  end.

Fixpoint print_errors (errors : list (string * string)) : M unit :=
  match errors with
  | [] => ret tt
  | (site, error) :: rest => print (site +++ ": " +++ error) ;;; print_errors rest
  end.

Definition scrape_selected_sites (configs : list config) (min_date : Date)
  : M (list Article) :=
  print (BaseScraper.LF +++ "Scraping in progress...") ;;;
  lift (webdriver_Chrome L) ;;;
  st <- scrape_sites min_date configs ([], []) ;;
  let '(all_articles, errors) := st in
  print (BaseScraper.LF +++ "Scraping completed.") ;;;
  (match errors with
   | [] => ret tt
   | _ => print (BaseScraper.LF
                 +++ "Errors occurred while scraping the following websites:") ;;;
          print_errors errors
   end) ;;;
  lift (driver_quit L) ;;;
  ret all_articles.

End Orchestrator.

(** The identity of an article. *)
Definition key (a : Article) : string * string := (title a, url a).

(* ================================================================= *)
(** ** A small environment for running the model

    A few pages of three sites, the trees the parser builds for them, a
    selector engine for compound selectors (a tag name and classes)
    separated by spaces, and the answers of [strptime] on the date texts
    of these pages. *)

Module Demo.

Definition compound : Type := string * list string.

Definition parse_compound (s : string) : compound :=
  match split_chr "." s with
  | n :: classes => (n, classes)
  | [] => (EmptyString, [])
  end.

Definition parse_selector (s : string) : list compound :=
  map parse_compound (filter str_truthy (split_chr " " s)).

Definition matches (c : compound) (t : tag) : bool :=
  let '(n, classes) := c in
  (negb (str_truthy n) || String.eqb (tag_name t) n)
  && forallb (fun cl => match class_tokens t with
                        | Some toks => existsb (String.eqb cl) toks
                        | None => false
                        end) classes.

Fixpoint select_chain (cs : list compound) (t : tag) : list tag :=
  match cs with
  | [] => []
  | [c] => filter (matches c) (tags_of (descendants t))
  | c :: rest => flat_map (select_chain rest) (filter (matches c) (tags_of (descendants t)))
  end.

Definition demo_select (t : tag) (selector : string) : outcome (list tag) :=
  Ok (select_chain (parse_selector selector) t).

Definition demo_select_one (t : tag) (selector : string) : outcome (option tag) :=
  Ok (hd_error (select_chain (parse_selector selector) t)).

Fixpoint lookup {A} (k : string) (table : list (string * A)) : option A :=
  match table with
  | [] => None
  | (k', v) :: rest => if String.eqb k' k then Some v else lookup k rest
  end.

Definition document (contents : list node) : tag := Tag "[document]" [] contents.

Definition el (n : string) (attrs : list (string * string)) (contents : list node) : node :=
  Element (Tag n attrs contents).

Definition txt (s : string) : node := NavigableString s.

(** [strptime] on the date texts of the pages below; on the other texts
    of these pages, none of which is a date, it raises [ValueError].  A
    format that repeats a directive does not get as far as the text: the
    regular expression built from it has two groups of one name, and
    [re.error] is raised. *)
Definition demo_dates : list (string * string * Date) :=
  [ ("Jan 01, 2020", "%b %d, %Y", ymd2ord 2020 1 1);
    ("Jan 1, 2020", "%b %d, %Y", ymd2ord 2020 1 1);
    ("Jan 10, 2025", "%b %d, %Y", ymd2ord 2025 1 10);
    ("Jan 12, 2025", "%b %d, %Y", ymd2ord 2025 1 12);
    ("10 Jan 2025", "%d %b %Y", ymd2ord 2025 1 10);
    ("01 Jan 2020", "%d %b %Y", ymd2ord 2020 1 1);
    ("2025-01-10", "%Y-%m-%d", ymd2ord 2025 1 10) ].

Fixpoint lookup_date (date_string format : string)
  (table : list (string * string * Date)) : option Date :=
  match table with
  | [] => None
  | (s, f, d) :: rest =>
      if String.eqb s date_string && String.eqb f format then Some d
      else lookup_date date_string format rest
  end.

Definition re_error : exn :=
  Exn OtherException "redefinition of group name 'Y' as group 2; was group 1 at position 22".

Definition demo_strptime (date_string format : string) : outcome datetime :=
  if String.eqb format "%Y %Y" then Raise re_error
  else
    match lookup_date date_string format demo_dates with
    | Some d => Ok {| dt_ordinal := d; dt_second := 0; dt_microsecond := 0 |}
    | None => Raise (Exn ValueError
        ("time data '" +++ date_string +++ "' does not match format '" +++ format +++ "'"))
    end.

(** A hash of strings and tuples, standing for the one of a run. *)
Fixpoint demo_hash_str (s : string) : Z :=
  match s with
  | EmptyString => 0
  | String c s' => (Z.of_N (N_of_ascii c) + 31 * demo_hash_str s') mod 1000003
  end.

Definition demo_hash_tuple (hs : list Z) : Z :=
  fold_left (fun acc h => (acc * 1000003 + h) mod 2305843009213693951) hs 3430008.

(** The library record over a table of pages (URL, status, body) and a
    table of parsed bodies. *)
Definition demo_lib (pages : list (string * (Z * string)))
                    (trees : list (string * tag)) : Lib :=
  {| http_get := fun _ _ u =>
       match lookup u pages with
       | Some (status, body) => Ok {| status_code := status; text := body |}
       | None => Ok {| status_code := 404; text := "Not Found" |}
       end;
     html_parser := fun body =>
       match lookup body trees with
       | Some t => t
       | None => document [txt body]
       end;
     select_one := demo_select_one;
     select := demo_select;
     strptime := demo_strptime;
     bracketed_netloc_ok := fun _ => false;
     hash_str := demo_hash_str;
     hash_tuple := demo_hash_tuple;
     webdriver_Chrome := Ok tt;
     driver_quit := Ok tt |}.


(** A listing of the CISA site with a stale advisory above a fresh one,
    and the pages of the two advisories. *)
Definition cisa_base : string := "https://www.cisa.gov/news-events/cybersecurity-advisories".

Definition cisa_listing_html : string :=
  "<article class='is-promoted c-teaser c-teaser--horizontal'><div class='c-teaser__date'>Jan 01, 2020</div><h3 class='c-teaser__title'><a href='/news/old'>Old advisory</a></h3><div class='c-teaser__meta'>Alert|ICS</div></article><article class='is-promoted c-teaser c-teaser--horizontal'><div class='c-teaser__date'>Jan 10, 2025</div><h3 class='c-teaser__title'><a href='/news/new'>New advisory</a></h3><div class='c-teaser__meta'>Alert</div></article>".

Definition cisa_teaser (date_text href headline meta : string) : node :=
  el "article" [("class", "is-promoted c-teaser c-teaser--horizontal")]
     [ el "div" [("class", "c-teaser__date")] [txt date_text];
       el "h3" [("class", "c-teaser__title")] [el "a" [("href", href)] [txt headline]];
       el "div" [("class", "c-teaser__meta")] [txt meta] ].

Definition cisa_listing_tree : tag :=
  document [ cisa_teaser "Jan 01, 2020" "/news/old" "Old advisory" "Alert|ICS";
             cisa_teaser "Jan 10, 2025" "/news/new" "New advisory" "Alert" ].

Definition cisa_old_html : string := "<div class='l-page-section__content'><p>Old text</p></div>".
Definition cisa_new_html : string := "<div class='l-page-section__content'><p>New text</p></div>".

Definition cisa_detail_tree (body : string) : tag :=
  document [ el "div" [("class", "l-page-section__content")] [el "p" [] [txt body]] ].

Definition cisa_lib : Lib :=
  demo_lib
    [ (cisa_base, (200, cisa_listing_html));
      ("https://www.cisa.gov/news/old", (200, cisa_old_html));
      ("https://www.cisa.gov/news/new", (200, cisa_new_html)) ]
    [ (cisa_listing_html, cisa_listing_tree);
      (cisa_old_html, cisa_detail_tree "Old text");
      (cisa_new_html, cisa_detail_tree "New text") ].

(** The cutoff date of the examples: 5 January 2025. *)
Definition cutoff : Date := ymd2ord 2025 1 5.

(** A page whose paragraph has a comma in it. *)
Definition comma_page : tag :=
  document [ el "div" [("class", "content")] [ el "p" [] [txt "a,b"] ] ].

(** A network that is down: every request raises. *)
Definition down_lib : Lib :=
  {| http_get := fun _ _ _ => Raise (Exn RequestException "Connection refused");
     html_parser := fun body => document [txt body];
     select_one := demo_select_one;
     select := demo_select;
     strptime := demo_strptime;
     bracketed_netloc_ok := fun _ => false;
     hash_str := demo_hash_str;
     hash_tuple := demo_hash_tuple;
     webdriver_Chrome := Ok tt;
     driver_quit := Ok tt |}.

(** The first page of the Cybersecurity Dive site: a hero article from
    2020 above a feed with one article from 2025; there is no second
    page. *)
Definition dive_base : string := "https://www.cybersecuritydive.com/".

Definition dive_listing_html : string :=
  "<section class='hero-article'><h1><a href='/news/old-story/'>Old story</a></h1><p class='hero-article__teaser'>Teaser</p></section><ul><li class='row feed__item'><h3 class='feed__title'><a href='/news/new-story/'>New story</a></h3><p class='feed__description'>Summary</p></li></ul>".

Definition dive_listing_tree : tag :=
  document
    [ el "section" [("class", "hero-article")]
         [ el "h1" [] [el "a" [("href", "/news/old-story/")] [txt "Old story"]];
           el "p" [("class", "hero-article__teaser")] [txt "Teaser"] ];
      el "ul" []
         [ el "li" [("class", "row feed__item")]
              [ el "h3" [("class", "feed__title")]
                   [el "a" [("href", "/news/new-story/")] [txt "New story"]];
                el "p" [("class", "feed__description")] [txt "Summary"] ] ] ].

Definition dive_old_html : string :=
  "<div class='date date-bottom-border'>Published Jan. 1, 2020</div><div class='large medium article-body'><p>Old body</p></div>".
Definition dive_new_html : string :=
  "<div class='date date-bottom-border'>Published Jan. 10, 2025</div><div class='large medium article-body'><p>New body</p></div>".

Definition dive_detail_tree (date_line body : string) : tag :=
  document [ el "div" [("class", "date date-bottom-border")] [txt date_line];
             el "div" [("class", "large medium article-body")] [el "p" [] [txt body]] ].

Definition dive_lib : Lib :=
  demo_lib
    [ (dive_base, (200, dive_listing_html));
      ("https://www.cybersecuritydive.com/news/old-story/", (200, dive_old_html));
      ("https://www.cybersecuritydive.com/news/new-story/", (200, dive_new_html)) ]
    [ (dive_listing_html, dive_listing_tree);
      (dive_old_html, dive_detail_tree "Published Jan. 1, 2020" "Old body");
      (dive_new_html, dive_detail_tree "Published Jan. 10, 2025" "New body") ].

(** A listing of the InfoSecurity Magazine site: a fresh item, a stale
    one, and a fresh one below it. *)
Definition infosec_base : string := "https://www.infosecurity-magazine.com/news".

Definition infosec_listing_html : string :=
  "<ol class='webpages-list'><li class='webpage-item'><h2 class='h3 webpage-title'><a href='/news/first/'>First</a></h2><time>10 Jan 2025</time></li><li class='webpage-item'><h2 class='h3 webpage-title'><a href='/news/second/'>Second</a></h2><time>01 Jan 2020</time></li><li class='webpage-item'><h2 class='h3 webpage-title'><a href='/news/third/'>Third</a></h2><time>10 Jan 2025</time></li></ol>".

Definition infosec_item (href headline date_text : string) : node :=
  el "li" [("class", "webpage-item")]
     [ el "h2" [("class", "h3 webpage-title")] [el "a" [("href", href)] [txt headline]];
       el "time" [] [txt date_text] ].

Definition infosec_listing_tree : tag :=
  document
    [ el "ol" [("class", "webpages-list")]
         [ infosec_item "/news/first/" "First" "10 Jan 2025";
           infosec_item "/news/second/" "Second" "01 Jan 2020";
           infosec_item "/news/third/" "Third" "10 Jan 2025" ] ].

Definition infosec_detail_html : string := "<div class='content-module'><p>Body</p></div>".

Definition infosec_lib : Lib :=
  demo_lib
    [ (infosec_base, (200, infosec_listing_html));
      ("https://www.infosecurity-magazine.com/news/first/", (200, infosec_detail_html));
      ("https://www.infosecurity-magazine.com/news/second/", (200, infosec_detail_html));
      ("https://www.infosecurity-magazine.com/news/third/", (200, infosec_detail_html)) ]
    [ (infosec_listing_html, infosec_listing_tree);
      (infosec_detail_html,
       document [ el "div" [("class", "content-module")] [el "p" [] [txt "Body"]] ]) ].

(** Three rows of a configuration: a site whose controller raises, the
    CISA site and the Cybersecurity Dive site. *)
Definition broken_config : config :=
  {| config_name := "Broken"; config_scrape_type := "html";
     config_url := "https://broken.example/";
     config_scraper_class := fun _ _ => raise (Exn AttributeError
       "'NoneType' object has no attribute 'find_all'") |}.

Definition cisa_config : config :=
  {| config_name := "CISA"; config_scrape_type := "html";
     config_url := cisa_base;
     config_scraper_class := fun u d => CISAScraper.scrape cisa_lib u d 5 |}.

Definition dive_config : config :=
  {| config_name := "CyberSecurity Dive"; config_scrape_type := "html";
     config_url := dive_base;
     config_scraper_class := fun u d => CyberSecurityDiveScraper.scrape dive_lib u d 5 |}.

End Demo.

(* ================================================================= *)
(** ** What the specification says of [extract_content] *)

Module Spec.
Import BaseScraper.

(** The texts of the paragraphs, headings and list items, the empty ones
    dropped. *)
Definition paragraph_texts (content_div : tag) : list string :=
  filter str_truthy (map get_text_strip (find_all content_div ["p"; "h2"; "h3"; "li"])).

(** As the specification words it: the non-empty texts joined with
    [" || "], and the characters outside 0x20-0x7E removed. *)
Definition extract_content_as_specified (L : Lib) (soup : tag) (selector : string)
  : outcome string :=
  obind (select_one L soup selector) (fun content_div =>
    match content_div with
    | Some content_div =>
        Ok (sub_non_printable (join " || " (paragraph_texts content_div)))
    | None => Ok EmptyString
    end).

(** The same with the step the code adds: in each text every line feed and
    every comma becomes a space before the texts are joined. *)
Definition clean_text (t : string) : string := replace "," " " (replace LF " " t).

Definition extract_content_amended (L : Lib) (soup : tag) (selector : string)
  : outcome string :=
  obind (select_one L soup selector) (fun content_div =>
    match content_div with
    | Some content_div =>
        Ok (sub_non_printable
              (join " || " (map clean_text (paragraph_texts content_div))))
    | None => Ok EmptyString
    end).

End Spec.

(* ================================================================= *)
(** ** Loops over the articles of a page *)

Module Loop.

Section Loops.

Context {T : Type}.

(** What the body of the loop makes of one element: an article, or [None]. *)
Variable details : T -> M (option Article).

(** [for x in items: d = details(x); if d: acc.append(d) else: stop = True; break]:
    the articles gathered and whether the loop was left by [break]. *)
Fixpoint for_break (items : list T) (acc : list Article) : M (list Article * bool) :=
  match items with
  | [] => ret (acc, false)
  | x :: rest =>
      d <- details x ;;
      match d with
      | Some a => for_break rest (acc ++ [a])
      | None => ret (acc, true)
      end
  end.

(** [for x in items: d = details(x); if d: acc.append(d)] *)
Fixpoint for_filter (items : list T) (acc : list Article) : M (list Article) :=
  match items with
  | [] => ret acc
  | x :: rest =>
      d <- details x ;;
      match d with
      | Some a => for_filter rest (acc ++ [a])
      | None => for_filter rest acc
      end
  end.

End Loops.

End Loop.

(** [try: c  except ValueError: handler] *)
Definition try_except_ValueError {A} (c : M A) (handler : exn -> M A) : M A :=
  fun w =>
    match c w with
    | (Raise e, w') =>
        if exc_class_eqb (exn_class e) ValueError then handler e w'
        else (Raise e, w')
    | r => r
    end.

(** [tag.find_all(name, attrs={key: value})] and [tag.find(...)] for an
    attribute with one value. *)
Definition find_all_attr (t : tag) (name key value : string) : list tag :=
  filter (fun d => String.eqb (tag_name d) name
                   && match attr_get key (tag_attrs d) with
                      | Some v => String.eqb v value
                      | None => false
                      end)
         (tags_of (descendants t)).

Definition find_attr (t : tag) (name key value : string) : option tag :=
  hd_error (find_all_attr t name key value).

(* ================================================================= *)
(** ** [class SecurityWeekScraper]: the controller *)

Module SecurityWeek.
Import BaseScraper.

(** What [extract_article_content] returns: the pair [(None, None)] when the
    page could not be fetched, or a triple. *)
Inductive content_result :=
| TwoNones
| Three (description content image_url : string).

Section Methods.

Variable L : Lib.
Variable base_url : string.
Variable min_date : Date.
(** [datetime.now()], which may depend on what has happened so far. *)
Variable now : World -> datetime.

(** [self.categories] *)
Definition categories : list string := ["ics-ot"; "iot-security"].

Definition extract_articles (soup : tag) : outcome (list tag) :=
  obind (select_one L soup "div.zox-feat-tech2-grid.left.zoxrel.zox100")
    (fun upper_section =>
  obind (select_one L soup "div.zox-main-blog.zoxrel.left.zox100")
    (fun lower_section =>
  let upper_articles :=
    match upper_section with
    | Some s => find_all_class s "section" "zox-art-wrap"
    | None => []
    end in
  let lower_articles :=
    match lower_section with
    | Some s => find_all_class s "article" "zox-art-wrap"
    | None => []
    end in
  Ok (upper_articles ++ lower_articles))).

Definition extract_article_content (article_url : string) : M content_result :=
  page_content <- fetch_page_content L article_url true ;;
  match page_content with
  | None | Some EmptyString => ret TwoNones
  | Some page_content =>
      let soup := html_parser L page_content in
      description <- extract_text L (Some soup) "span.zox-post-excerpt" "" ;;
      content <- lift (extract_content L soup "div.zox-post-body") ;;
      image_url <- extract_image L (Some soup) "div.zox-post-img-wrap img" "src" "" ;;
      ret (Three description content image_url)
  end.

(** The [try] block of [extract_article_details]: the relative-time parser
    first, then the absolute format.  ([int] refuses a number of more than
    4300 digits with a [ValueError]; the parser is modelled without that
    limit.) *)
Definition read_date (date_text : string) : M Date :=
  fun w =>
    lift (obind (SecurityWeekScraper.calculate_article_date (now w) date_text)
            (fun article_date =>
               match article_date with
               | Some d => Ok d
               | None => obind (strptime L date_text "%B %d, %Y")
                               (fun dt => Ok (dt_date dt))
               end)) w.

Definition extract_article_details (article : tag) : M (option Article) :=
  title <- extract_text L (Some article) "h2.zox-s-title2" "No title" ;;
  link <- lift (extract_link L (Some article) "a" base_url "No link") ;;
  date_text <- extract_text L (Some article) "span.zox-byline-date" "No date" ;;
  parsed <- try_except_ValueError
              (d <- read_date date_text ;; ret (Some d))
              (fun _ => print ("Error parsing date: " +++ date_text) ;;; ret None) ;;
  match parsed with
  | None => ret None
  | Some article_date =>
      if negb (valid_truthy (is_article_valid min_date (DDate article_date)))
      then ret None
      else
        category <- extract_text L (Some article) "h3.zox-s-cat" "" ;;
        r <- extract_article_content link ;;
        match r with
        | TwoNones =>
            (* [description, content, image = (None, None)] *)
            raise (Exn ValueError "not enough values to unpack (expected 3, got 2)")
        | Three description content image =>
            ret (Some (mkArticle title link (DDate article_date) (TagsStr category)
                                 "SecurityWeek" (Some description) (Some image)
                                 (Some content)))
        end
  end.

(** [while not stop_scraping: ...] of [scrape_category] *)
Fixpoint scrape_category_pages (fuel : nat) (category_url : string) (page_count : Z)
  (all_articles : list Article) : M (list Article) :=
  match fuel with
  | O => out_of_fuel
  | S fuel' =>
      let current_url :=
        if 1 <? page_count
        then category_url +++ "page/" +++ str_of_int page_count
        else category_url in
      page_content <- fetch_page_content L current_url true ;;
      match page_content with
      | None | Some EmptyString => ret all_articles
      | Some page_content =>
          let soup := parse_html L page_content in
          articles <- lift (extract_articles soup) ;;
          match articles with
          | [] => ret all_articles
          | _ =>
              r <- Loop.for_break extract_article_details articles all_articles ;;
              let '(all_articles, stop_scraping) := r in
              if stop_scraping then ret all_articles
              else scrape_category_pages fuel' category_url (page_count + 1) all_articles
          end
      end
  end.

Definition scrape_category (fuel : nat) (category_url : string) : M (list Article) :=
  scrape_category_pages fuel category_url 1 [].

(** [for category in self.categories: ...] *)
Fixpoint scrape_categories (fuel : nat) (cats : list string) (all_articles : list Article)
  : M (list Article) :=
  match cats with
  | [] => ret all_articles
  | category :: rest =>
      let category_url := base_url +++ category +++ "/" in
      category_articles <- scrape_category fuel category_url ;;
      scrape_categories fuel rest (all_articles ++ category_articles)
  end.

Definition scrape (fuel : nat) : M (list Article) := scrape_categories fuel categories [].

End Methods.

End SecurityWeek.

(* ================================================================= *)
(** ** [class SecurityAffairsScraper] *)

Module SecurityAffairsScraper.
Import BaseScraper.

Section Methods.

Variable L : Lib.
Variable base_url : string.
Variable min_date : Date.

Definition extract_articles (soup : tag) : list tag :=
  match find_class soup "div" "latest-news-block" with
  | None => []
  | Some main_articles_container =>
      find_all_class main_articles_container "div"
                     "news-card news-card-category mb-3 mb-lg-5"
  end.

Definition extract_article_content (article_url : string) : M (option string) :=
  page_content <- fetch_page_content L article_url false ;;
  match page_content with
  | None | Some EmptyString => ret None
  | Some page_content =>
      let soup := parse_html L page_content in
      content <- lift (extract_content L soup "div.article-details-block") ;;
      ret (Some content)
  end.

(** The method has no [return] for a missing container or for fewer than two
    [span] elements: it returns [None] there. *)
Definition extract_article_date (date_container : option tag) : outcome date_value :=
  match date_container with
  | Some date_container =>
      match find_all date_container ["span"] with
      | _ :: second :: _ => parse_date L (Some (get_text_strip second)) "%B %d, %Y"
      | _ => Ok DNone
      end
  | None => Ok DNone
  end.

Definition extract_article_details (article : tag) : M (option Article) :=
  let date_container := find_class article "div" "post-time mb-3" in
  article_date <- lift (extract_article_date date_container) ;;
  if negb (valid_truthy (is_article_valid min_date article_date)) then ret None
  else
    title <- extract_text L (Some article) "h5.mb-3" "No Title" ;;
    link <- lift (extract_link L (Some article) "h5.mb-3 a" base_url "") ;;
    image <- extract_image L (Some article) "div.news-card-pic a img" "src" "" ;;
    content <- extract_article_content link ;;
    ret (Some (mkArticle title link article_date TagsNone "Security Affairs"
                         None (Some image) content)).

(** [while not stop_scraping: ...] *)
Fixpoint scrape_pages (fuel : nat) (page_number : Z) (all_articles : list Article)
  : M (list Article) :=
  match fuel with
  | O => out_of_fuel
  | S fuel' =>
      let current_url :=
        if 1 <? page_number
        then base_url +++ "/page/" +++ str_of_int page_number +++ "/"
        else base_url in
      page_content <- fetch_page_content L current_url false ;;
      match page_content with
      | None | Some EmptyString =>
          print ("Failed to retrieve content from " +++ current_url +++ ". Stopping.") ;;;
          ret all_articles
      | Some page_content =>
          let soup := parse_html L page_content in
          match extract_articles soup with
          | [] =>
              print ("No articles found on page " +++ str_of_int page_number
                     +++ ". Stopping.") ;;;
              ret all_articles
          | article_items =>
              r <- Loop.for_break extract_article_details article_items all_articles ;;
              let '(all_articles, stop_scraping) := r in
              if stop_scraping then ret all_articles
              else scrape_pages fuel' (page_number + 1) all_articles
          end
      end
  end.

Definition scrape (fuel : nat) : M (list Article) := scrape_pages fuel 1 [].

End Methods.

End SecurityAffairsScraper.

(* ================================================================= *)
(** ** [class TripWireScraper] *)

Module TripWireScraper.
Import BaseScraper.

(** [\d{n}] at the start of [s]: the [n] digits and what follows. *)
Fixpoint take_digits (n : nat) (s : string) : option (string * string) :=
  match n with
  | O => Some (EmptyString, s)
  | S n' =>
      match s with
      | String c s' =>
          if isdigit c then
            match take_digits n' s' with
            | Some (ds, r) => Some (String c ds, r)
            | None => None
            end
          else None
      | EmptyString => None
      end
  end.

Definition take_slash (s : string) : option string :=
  match s with
  | String "/" s' => Some s'
  | _ => None
  end.

(** The pattern [\d{2}/\d{2}/\d{4}] tried at the start of [s]; the result is
    the text matched. *)
Definition match_here (s : string) : option string :=
  match take_digits 2 s with
  | None => None
  | Some (m, r) =>
      match take_slash r with
      | None => None
      | Some r =>
          match take_digits 2 r with
          | None => None
          | Some (d, r) =>
              match take_slash r with
              | None => None
              | Some r =>
                  match take_digits 4 r with
                  | None => None
                  | Some (y, _) => Some (m +++ "/" +++ d +++ "/" +++ y)
                  end
              end
          end
      end
  end.

(** [re.search(r'\d{2}/\d{2}/\d{4}', s)]: the first position where the
    pattern matches. *)
Fixpoint re_search (s : string) : option string :=
  match match_here s with
  | Some m => Some m
  | None =>
      match s with
      | EmptyString => None
      | String _ s' => re_search s'
      end
  end.

Section Methods.

Variable L : Lib.
Variable base_url : string.
Variable min_date : Date.

Definition extract_articles (soup : tag) : list tag :=
  find_all_class soup "article" "node node--type-blog node--view-mode-search-index".

Definition extract_article_content (article_url : string) : M (option string) :=
  page_content <- fetch_page_content L article_url false ;;
  match page_content with
  | None | Some EmptyString => ret None
  | Some page_content =>
      let soup := parse_html L page_content in
      content <- lift (extract_content L soup "div.field.field--name-body") ;;
      ret (Some content)
  end.

Definition extract_article_date (date_container : option tag) : outcome date_value :=
  match date_container with
  | Some date_container =>
      match re_search (get_text_strip date_container) with
      | None => Raise (attribute_error_none "group")
      | Some date_match => parse_date L (Some date_match) "%m/%d/%Y"
      end
  | None => Ok (DStr "No Date")
  end.

Definition extract_tags (article : tag) (selector : string) : outcome (list string) :=
  obind (select L article selector) (fun tags_container =>
    Ok (map get_text_strip tags_container)).

Definition extract_article_details (article : tag) : M (option Article) :=
  let date_container := find_class article "div" "node--submitted" in
  article_date <- lift (extract_article_date date_container) ;;
  if negb (valid_truthy (is_article_valid min_date article_date)) then ret None
  else
    title <- extract_text L (Some article) "h3.node--title" "No Title" ;;
    link <- lift (extract_link L (Some article) "a.order-2.order-md-0" base_url "") ;;
    tags <- lift (extract_tags article
              "div.field--name-field-cornerstone-relationship div.field__item") ;;
    image_url <- extract_image L (Some article) "div.field--name-field-media a img"
                   "src" "" ;;
    full_image_url <- lift (UrlParse.urljoin (bracketed_netloc_ok L) base_url image_url) ;;
    content <- extract_article_content link ;;
    ret (Some (mkArticle title link article_date (TagsList tags) "Tripwire"
                         None (Some full_image_url) content)).

(** [while not stop_scraping: ...] *)
Fixpoint scrape_pages (fuel : nat) (page_index : Z) (all_articles : list Article)
  : M (list Article) :=
  match fuel with
  | O => out_of_fuel
  | S fuel' =>
      let current_url := base_url +++ "?page=" +++ str_of_int page_index in
      page_content <- fetch_page_content L current_url false ;;
      match page_content with
      | None | Some EmptyString =>
          print ("Failed to retrieve content from " +++ current_url +++ ". Stopping.") ;;;
          ret all_articles
      | Some page_content =>
          let soup := parse_html L page_content in
          match extract_articles soup with
          | [] =>
              print ("No articles found on page " +++ str_of_int (page_index + 1)
                     +++ ". Stopping.") ;;;
              ret all_articles
          | article_items =>
              r <- Loop.for_break extract_article_details article_items all_articles ;;
              let '(all_articles, stop_scraping) := r in
              if stop_scraping then ret all_articles
              else scrape_pages fuel' (page_index + 1) all_articles
          end
      end
  end.

Definition scrape (fuel : nat) : M (list Article) := scrape_pages fuel 0 [].

End Methods.

End TripWireScraper.

(* ================================================================= *)
(** ** [class SCADAfenceScraper] *)

Module SCADAfenceScraper.
Import BaseScraper.

Section Methods.

Variable L : Lib.
Variable base_url : string.
Variable min_date : Date.

Definition extract_articles (soup : tag) : list tag :=
  find_all_class soup "div" "postbox post-box post-item".

Definition extract_article_content (article_url : string) : M (option string) :=
  page_content <- fetch_page_content L article_url false ;;
  match page_content with
  | None | Some EmptyString => ret None
  | Some page_content =>
      let soup := parse_html L page_content in
      content <- lift (extract_content L soup "div.section.post-body") ;;
      ret (Some content)
  end.

Definition extract_article_details (article : tag) : M (option Article) :=
  article_date <- lift (match find_class article "div" "date" with
                        | Some date_tag =>
                            parse_date L (Some (get_text_strip date_tag)) "%B %d, %Y"
                        | None => Raise (attribute_error_none "get_text")
                        end) ;;
  if negb (valid_truthy (is_article_valid min_date article_date)) then ret None
  else
    title <- extract_text L (Some article) "div.title h4" "No title" ;;
    article_url <- lift (extract_link L (Some article) "a.img_link" base_url "") ;;
    image <- extract_image L (Some article) "img.img-fluid" "src" "" ;;
    content <- extract_article_content article_url ;;
    ret (Some (mkArticle title article_url article_date TagsNone "SCADAfence"
                         None (Some image) content)).

Definition scrape : M (list Article) :=
  page_content <- fetch_page_content L base_url false ;;
  match page_content with
  | None | Some EmptyString => ret []
  | Some page_content =>
      let soup := parse_html L page_content in
      let article_elements := extract_articles soup in
      Loop.for_filter extract_article_details article_elements []
  end.

End Methods.

End SCADAfenceScraper.

(* ================================================================= *)
(** ** [class SectrioScraper] *)

Module SectrioScraper.
Import BaseScraper.

Definition unbound_local (name : string) : exn :=
  Exn UnboundLocalError ("cannot access local variable '" +++ name
                         +++ "' where it is not associated with a value").

Section Methods.

Variable L : Lib.
Variable base_url : string.
Variable min_date : Date.

Definition extract_articles (soup : tag) : list tag :=
  match find_class soup "div" "elementor-posts-container" with
  | Some articles_container => find_all_class articles_container "article" "elementor-post"
  | None => []
  end.

(** The result is [None] when the page could not be fetched, and the triple
    [(parsed_date, content, image)] otherwise.  [parsed_date] is assigned
    only when the page has the [meta] element with a [content] attribute. *)
Definition extract_article_content (article_url : string)
  : M (option (date_value * string * string)) :=
  page_content <- fetch_page_content L article_url false ;;
  match page_content with
  | None | Some EmptyString => ret None
  | Some page_content =>
      let soup := parse_html L page_content in
      let meta_tag := find_attr soup "meta" "property" "article:published_time" in
      parsed_date <-
        match match meta_tag with
              | Some meta_tag => attr_get "content" (tag_attrs meta_tag)
              | None => None
              end with
        | Some date_str =>
            d <- lift (parse_date L (Some date_str) "%Y-%m-%dT%H:%M:%S%z") ;;
            ret (Some d)
        | None => print "Published time not found." ;;; ret None
        end ;;
      content <- lift (extract_content L soup "div.bialty-container") ;;
      image <- extract_image L (Some soup) "figure.wp-block-image.size-large img"
                 "data-src" "" ;;
      match parsed_date with
      | Some parsed_date => ret (Some (parsed_date, content, image))
      | None => raise (unbound_local "parsed_date")
      end
  end.

Definition extract_article_details (article : tag) : M (option Article) :=
  title <- extract_text L (Some article) "h3.elementor-post__title a" "No Title" ;;
  link <- lift (extract_link L (Some article) "h3.elementor-post__title a" base_url "") ;;
  description <- extract_text L (Some article) "div.elementor-post__excerpt p"
                   "No Description" ;;
  r <- extract_article_content link ;;
  match r with
  | None =>
      (* [article_date, content, image = None] *)
      raise (Exn TypeError "cannot unpack non-iterable NoneType object")
  | Some (article_date, content, image) =>
      if negb (valid_truthy (is_article_valid min_date article_date)) then ret None
      else ret (Some (mkArticle title link article_date TagsNone "Sectrio"
                                (Some description) (Some image) (Some content)))
  end.

(** [while True: ...] *)
Fixpoint scrape_pages (fuel : nat) (current_url : string) (current_page : Z)
  (all_articles : list Article) : M (list Article) :=
  match fuel with
  | O => out_of_fuel
  | S fuel' =>
      page_content <- fetch_page_content L current_url false ;;
      match page_content with
      | None | Some EmptyString => ret all_articles
      | Some page_content =>
          let soup := parse_html L page_content in
          match extract_articles soup with
          | [] => ret all_articles
          | articles =>
              r <- Loop.for_break extract_article_details articles all_articles ;;
              let '(all_articles, returned) := r in
              if returned then ret all_articles
              else
                let current_page := current_page + 1 in
                scrape_pages fuel' (base_url +++ str_of_int current_page +++ "/")
                             current_page all_articles
          end
      end
  end.

Definition scrape (fuel : nat) : M (list Article) := scrape_pages fuel base_url 1 [].

End Methods.

End SectrioScraper.

(* ================================================================= *)
(** ** [load_configurations] *)

(** A row of the configuration file as [csv.DictReader] gives it: a
    dictionary from the column names of the header to the fields of the
    row.  Rows are taken to have a field for every column. *)
Definition csv_row : Type := list (string * string).

Fixpoint row_get (row : csv_row) (column : string) : outcome string :=
  match row with
  | [] => Raise (Exn KeyError ("'" +++ column +++ "'"))
  | (k, v) :: rest => if String.eqb k column then Ok v else row_get rest column
  end.

Section Configurations.

(** [globals().get(name)] *)
Variable globals_get : string -> option (string -> Date -> M (list Article)).

(** [for row in reader: ...] *)
Fixpoint load_rows (rows : list csv_row) (configs : list config) : M (list config) :=
  match rows with
  | [] => ret configs
  | row :: rest =>
      scraper_class_name <- lift (row_get row "scraper_class") ;;
      match globals_get scraper_class_name with
      | None =>
          print ("Scraper class '" +++ scraper_class_name
                 +++ "' not found. Skipping this configuration.") ;;;
          load_rows rest configs
      | Some scraper_class =>
          name <- lift (row_get row "name") ;;
          scrape_type <- lift (row_get row "scrape_type") ;;
          url <- lift (row_get row "url") ;;
          load_rows rest (configs ++ [ {| config_name := name;
                                          config_scrape_type := scrape_type;
                                          config_url := url;
                                          config_scraper_class := scraper_class |} ])
      end
  end.

(** [rows] is what the reader yields for the file. *)
Definition load_configurations (rows : list csv_row) : M (list config) :=
  load_rows rows [].

End Configurations.

(* ================================================================= *)
(** ** [class BleepingComputerScraper] *)

Module BleepingComputerScraper.
Import BaseScraper.

(** What [extract_article_details] returns: an article, the string
    ["pass"], or [None]. *)
Inductive details_result :=
| Details (a : Article)
| Pass
| Nothing.

(** [article_details == "pass"]: an [Article] is not equal to a string, and
    neither is [None]. *)
Definition is_pass (r : details_result) : bool :=
  match r with
  | Details a => Article_eq a (PyStr "pass")
  | Pass => true
  | Nothing => false
  end.

Section Methods.

Variable L : Lib.
Variable base_url : string.
Variable min_date : Date.

Definition extract_article_content (article_url : string)
  : M (option string * option string) :=
  page_content <- fetch_page_content L article_url true ;;
  match page_content with
  | None | Some EmptyString => ret (None, None)
  | Some page_content =>
      let soup := parse_html L page_content in
      content <- lift (extract_content L soup "div.articleBody") ;;
      image <- extract_image L (Some soup) "div.articleBody p img" "src" "" ;;
      ret (Some content, Some image)
  end.

Definition extract_articles (soup : tag) : list tag :=
  match find_attr soup "ul" "id" "bc-home-news-main-wrap" with
  | None => []
  | Some main_articles_container =>
      find_all_class main_articles_container "div" "bc_latest_news_text"
  end.

Definition extract_article_details (article : tag) : M details_result :=
  date_str <- extract_text L (Some article) "li.bc_news_date" "No Date" ;;
  article_date <- lift (parse_date L (Some date_str) "%B %d, %Y") ;;
  if negb (valid_truthy (is_article_valid min_date article_date)) then ret Nothing
  else
    title <- extract_text L (Some article) "h4 a" "No Title" ;;
    link <- lift (extract_link L (Some article) "h4 a" base_url "") ;;
    tag_text <- extract_text L (Some article) "div.bc_latest_news_category span a"
                  "No Tag" ;;
    let tags := [tag_text] in
    if existsb (String.eqb "Deals") tags then ret Pass
    else
      description <- extract_text L (Some article) "p" "No description available" ;;
      r <- extract_article_content link ;;
      let '(content, image) := r in
      ret (Details (mkArticle title link article_date (TagsList tags) "BleepingComputer"
                              (Some description) image content)).

(** [for article in article_items: ...]: the articles gathered so far and
    whether [stop_scraping] was set. *)
Fixpoint process_articles (article_items : list tag) (all_articles : list Article)
  : M (list Article * bool) :=
  match article_items with
  | [] => ret (all_articles, false)
  | article :: rest =>
      article_details <- extract_article_details article ;;
      if is_pass article_details then process_articles rest all_articles
      else
        match article_details with
        | Details a => process_articles rest (all_articles ++ [a])
        | _ => ret (all_articles, true)
        end
  end.

(** [build_page_url], from the value of [self.page_number] *)
Definition build_page_url (page_number : Z) : string :=
  if 1 <? page_number then base_url +++ "page/" +++ str_of_int page_number +++ "/"
  else base_url.

(** [while not stop_scraping: ...]: the articles, and the value
    [self.page_number] is left with. *)
Fixpoint scrape_pages (fuel : nat) (page_number : Z) (all_articles : list Article)
  : M (list Article * Z) :=
  match fuel with
  | O => out_of_fuel
  | S fuel' =>
      let current_url := build_page_url page_number in
      page_content <- fetch_page_content L current_url true ;;
      match page_content with
      | None | Some EmptyString =>
          print ("Failed to retrieve content from " +++ current_url +++ ". Stopping.") ;;;
          ret (all_articles, page_number)
      | Some page_content =>
          let soup := parse_html L page_content in
          match extract_articles soup with
          | [] =>
              print ("No articles found on page " +++ str_of_int page_number
                     +++ ". Stopping.") ;;;
              ret (all_articles, page_number)
          | article_items =>
              r <- process_articles article_items all_articles ;;
              let '(all_articles, stop_scraping) := r in
              if stop_scraping then ret (all_articles, page_number + 1)
              else scrape_pages fuel' (page_number + 1) all_articles
          end
      end
  end.

(** [scrape] on an object that was just made: [self.page_number] is 1. *)
Definition scrape (fuel : nat) : M (list Article) :=
  r <- scrape_pages fuel 1 [] ;; ret (fst r).

End Methods.

End BleepingComputerScraper.

(* ================================================================= *)
(** ** [class Intel471Scraper] *)

Module Intel471Scraper.
Import BaseScraper.

(** [s.split(sep)] for a non-empty [sep]: the occurrences of [sep] are
    found from the left and do not overlap.  [cur] is the piece being read
    and [skip] counts the characters of an occurrence that is being
    stepped over. *)
Fixpoint split_from (sep : string) (skip : nat) (cur : string) (s : string)
  : list string :=
  match s with
  | EmptyString => [cur]
  | String c s' =>
      match skip with
      | S k => split_from sep k cur s'
      | O =>
          if String.prefix sep s
          then cur :: split_from sep (Nat.pred (String.length sep)) EmptyString s'
          else split_from sep O (cur +++ String c EmptyString) s'
      end
  end.

Definition split (sep s : string) : list string := split_from sep O EmptyString s.

Section Methods.

Variable L : Lib.
Variable base_url : string.
Variable min_date : Date.

(** [soup] is what [find] returned: a tag or [None]. *)
Definition extract_articles (soup : option tag) : outcome (list tag) :=
  match soup with
  | Some soup => Ok (find_all_attr soup "a" "target" "_self")
  | None => Raise (attribute_error_none "find_all")
  end.

Definition extract_article_content (article_url : string) : M (option string) :=
  page_content <- fetch_page_content L article_url false ;;
  match page_content with
  | None | Some EmptyString => ret None
  | Some page_content =>
      let soup := parse_html L page_content in
      content <- lift (extract_content L soup "div.rich-text") ;;
      ret (Some content)
  end.

Definition extract_article_details (article : tag) : M (option Article) :=
  title <- extract_text L (Some article) "h3.h4.mb-3" "No Title" ;;
  link <- lift (extract_link L (Some article) "" base_url "") ;;
  description <- extract_text L (Some article) "p" "No Description" ;;
  date_text <- extract_text L (Some article) "div.body-overline-small.text-neutral-500" "" ;;
  let date_str := strip (last (split "//" date_text) EmptyString) in
  let tags := removelast (split "//" date_text) in
  article_date <- lift (parse_date L (Some date_str) "%b %d, %Y") ;;
  if negb (valid_truthy (is_article_valid min_date article_date)) then ret None
  else
    content <- extract_article_content link ;;
    ret (Some (mkArticle title link article_date (TagsList tags) "Intel471"
                         (Some description) None content)).

(** [while next_page_url: ...] *)
Fixpoint scrape_pages (fuel : nat) (next_page_url : string) (current_page : Z)
  (all_articles : list Article) : M (list Article) :=
  match fuel with
  | O => out_of_fuel
  | S fuel' =>
      if negb (str_truthy next_page_url) then ret all_articles
      else
        page_content <- fetch_page_content L next_page_url false ;;
        match page_content with
        | None | Some EmptyString => ret all_articles
        | Some page_content =>
            let soup := parse_html L page_content in
            let article_div := find_attr soup "div" "id" "listing-results" in
            articles <- lift (extract_articles article_div) ;;
            r <- Loop.for_break extract_article_details articles all_articles ;;
            let '(all_articles, returned) := r in
            if returned then ret all_articles
            else
              let current_page := current_page + 1 in
              scrape_pages fuel' (base_url +++ "?page=" +++ str_of_int current_page)
                           current_page all_articles
        end
  end.

Definition scrape (fuel : nat) : M (list Article) := scrape_pages fuel base_url 1 [].

End Methods.

End Intel471Scraper.

(* ================================================================= *)
(** ** [get_user_input] *)

Module UserInput.

(** The terminal: the lines the user is going to type, and the characters
    written so far. *)
Record Console := { typed : list string; shown : string }.

(** [print(text, end=end)] *)
Definition print_end (text end_ : string) (c : Console) : Console :=
  {| typed := typed c; shown := shown c +++ text +++ end_ |}.

Definition println (text : string) (c : Console) : Console :=
  print_end text BaseScraper.LF c.

(** [input(prompt)] *)
Definition input (prompt : string) (c : Console) : outcome string * Console :=
  match typed c with
  | line :: rest => (Ok line, {| typed := rest; shown := shown c +++ prompt |})
  | [] => (Raise (Exn OtherException "EOF when reading a line"),
           {| typed := []; shown := shown c +++ prompt |})
  end.

Fixpoint spaces (n : nat) : string :=
  match n with
  | O => EmptyString
  | S n' => String " " (spaces n')
  end.

(** The format specifications [:2] on an [int] and [:<30] on a [str]. *)
Definition rjust (width : nat) (s : string) : string :=
  spaces (width - String.length s) +++ s.

Definition ljust (width : nat) (s : string) : string :=
  s +++ spaces (width - String.length s).

(** [str.isdigit] below code point 256: the ASCII digits and the
    superscripts one, two and three; the string must not be empty. *)
Definition isdigit_chr (c : ascii) : bool :=
  let n := N_of_ascii c in
  (isdigit c || (n =? 178) || (n =? 179) || (n =? 185))%N.

Definition str_isdigit (s : string) : bool :=
  str_truthy s && UrlParse.str_forallb isdigit_chr s.

(** [int(s)] on a string for which [isdigit] holds: a superscript digit is
    not a decimal digit, and more than 4300 digits are refused. *)
Definition int_of (s : string) : outcome Z :=
  if negb (UrlParse.str_forallb isdigit s)
  then Raise (Exn ValueError ("invalid literal for int() with base 10: '" +++ s +++ "'"))
  else if (4300 <? String.length s)%nat
  then Raise (Exn ValueError
         ("Exceeds the limit (4300 digits) for integer string conversion: value has "
          +++ str_of_nat (String.length s)
          +++ " digits; use sys.set_int_max_str_digits() to increase the limit"))
  else Ok (int s).

(** [MIN_DATE], the date 5 January 2025, and [MIN_DATE.strftime('%d-%m-%Y')] *)
Definition MIN_DATE : Date := ymd2ord 2025 1 5.
Definition MIN_DATE_text : string := "05-01-2025".

Section GetUserInput.

Variable L : Lib.
(** The order in which a [set] of integers gives its elements, from the
    integers in the order in which they were added. *)
Variable set_iter : list Z -> list Z.

(** [for index, site in enumerate(available_sites, start=1): ...] *)
Fixpoint print_sites (index : Z) (sites : list string) (c : Console) : Console :=
  match sites with
  | [] => c
  | site :: rest =>
      let cell := rjust 2 (str_of_int index) +++ ". " +++ ljust 30 site in
      print_sites (index + 1) rest
        (if index mod 2 =? 1 then print_end cell EmptyString c else println cell c)
  end.

(** The set comprehension: the integers in the order in which they are
    added, or the first [ValueError]. *)
Fixpoint read_indices (selected_sites : list string) : outcome (list Z) :=
  match selected_sites with
  | [] => Ok []
  | site :: rest =>
      if str_isdigit (strip site)
      then obind (int_of (strip site)) (fun i =>
           obind (read_indices rest) (fun l => Ok (i :: l)))
      else read_indices rest
  end.

(** [[configs[index - 1] for index in selected_indices
      if 1 <= index <= len(configs)]] *)
Definition pick (configs : list config) (selected_indices : list Z) : list config :=
  flat_map (fun index =>
              if (1 <=? index) && (index <=? Z.of_nat (List.length configs))
              then match nth_error configs (Z.to_nat (index - 1)) with
                   | Some c => [c]
                   | None => []
                   end
              else [])
           selected_indices.

Definition get_user_input (configs : list config) (c : Console)
  : outcome (option (list config * Date)) * Console :=
  let available_sites := map config_name configs in
  let c := println "Available websites to scrape:" c in
  let c := print_sites 1 available_sites c in
  let c := if Z.of_nat (List.length available_sites) mod 2 =? 1
           then println EmptyString c else c in
  match input (BaseScraper.LF +++ "Enter the number(s) of website(s) to scrape (comma-separated or '0' for all websites): ") c with
  | (Raise e, c) => (Raise e, c)
  | (Diverge, c) => (Diverge, c)
  | (Ok line, c) =>
      let selected_input := strip line in
      let selected_sites := split_chr "," selected_input in
      let selection :=
        if existsb (String.eqb "0") selected_sites then Ok configs
        else obind (read_indices selected_sites) (fun added =>
               Ok (pick configs (set_iter added))) in
      match selection with
      | Raise e =>
          if exc_class_eqb (exn_class e) ValueError
          then (Ok None, println "Invalid input. Please enter numbers only." c)
          else (Raise e, c)
      | Diverge => (Diverge, c)
      | Ok [] => (Ok None, println "No valid websites selected. Exiting..." c)
      | Ok selected_configs =>
          match input "Enter the minimum date to consider for articles (format: DD-MM-YY): " c with
          | (Raise e, c) => (Raise e, c)
          | (Diverge, c) => (Diverge, c)
          | (Ok line, c) =>
              let min_date_str := strip line in
              match strptime L min_date_str "%d-%m-%y" with
              | Ok dt => (Ok (Some (selected_configs, dt_date dt)), c)
              | Raise e =>
                  if exc_class_eqb (exn_class e) ValueError
                  then (Ok (Some (selected_configs, MIN_DATE)),
                        println ("Invalid date format. Using default date: '"
                                 +++ MIN_DATE_text +++ "'.") c)
                  else (Raise e, c)
              | Diverge => (Diverge, c)
              end
          end
      end
  end.

End GetUserInput.

End UserInput.

(* ================================================================= *)
(** ** Pages of further sites for running the model *)

Module Examples.
Import Demo.

(** [strptime] on the date texts of the pages below. *)
Definition more_dates : list (string * string * Date) :=
  [ ("January 1, 2020", "%B %d, %Y", ymd2ord 2020 1 1);
    ("January 8, 2025", "%B %d, %Y", ymd2ord 2025 1 8);
    ("01/08/2025", "%m/%d/%Y", ymd2ord 2025 1 8);
    ("01/01/2020", "%m/%d/%Y", ymd2ord 2020 1 1);
    ("2025-01-08T10:00:00+00:00", "%Y-%m-%dT%H:%M:%S%z", ymd2ord 2025 1 8);
    ("2020-01-01T10:00:00+00:00", "%Y-%m-%dT%H:%M:%S%z", ymd2ord 2020 1 1) ].

Definition examples_strptime (date_string format : string) : outcome datetime :=
  match lookup_date date_string format more_dates with
  | Some d => Ok {| dt_ordinal := d; dt_second := 0; dt_microsecond := 0 |}
  | None => demo_strptime date_string format
  end.

Definition examples_lib (pages : list (string * (Z * string)))
                        (trees : list (string * tag)) : Lib :=
  let L := demo_lib pages trees in
  {| http_get := http_get L;
     html_parser := html_parser L;
     select_one := select_one L;
     select := select L;
     strptime := examples_strptime;
     bracketed_netloc_ok := bracketed_netloc_ok L;
     hash_str := hash_str L;
     hash_tuple := hash_tuple L;
     webdriver_Chrome := webdriver_Chrome L;
     driver_quit := driver_quit L |}.

(** The clock of the examples: noon on 10 January 2025, whatever has
    happened. *)
Definition noon_10_jan_2025 : World -> datetime :=
  fun _ => {| dt_ordinal := ymd2ord 2025 1 10; dt_second := 43200; dt_microsecond := 0 |}.

(** The SecurityWeek site: a category page with four items, the page of
    the first of them, and no other page. *)
Definition securityweek_base : string := "https://www.securityweek.com/".

Definition securityweek_item (href headline date_text category : string) : node :=
  el "article" [("class", "zox-art-wrap")]
     [ el "h3" [("class", "zox-s-cat")] [txt category];
       el "a" [("href", href)] [el "h2" [("class", "zox-s-title2")] [txt headline]];
       el "span" [("class", "zox-byline-date")] [txt date_text] ].

Definition securityweek_fresh : node :=
  securityweek_item "/fresh/" "Fresh" "3 days ago" "ICS/OT".
Definition securityweek_old : node :=
  securityweek_item "/old/" "Old" "January 1, 2020" "ICS/OT".
Definition securityweek_undated : node :=
  securityweek_item "/undated/" "Undated" "yesterday" "ICS/OT".
Definition securityweek_gone : node :=
  securityweek_item "/gone/" "Gone" "2 hours ago" "ICS/OT".

Definition node_tag (n : node) : tag :=
  match n with
  | Element t => t
  | NavigableString s => Tag "" [] [NavigableString s]
  end.

Definition securityweek_listing_html : string :=
  "<div class='zox-main-blog zoxrel left zox100'>fresh, old</div>".

Definition securityweek_listing_tree : tag :=
  document [ el "div" [("class", "zox-main-blog zoxrel left zox100")]
                [ securityweek_fresh; securityweek_old ] ].

Definition securityweek_detail_html : string :=
  "<span class='zox-post-excerpt'>Excerpt</span><div class='zox-post-body'><p>Body</p></div>".

Definition securityweek_detail_tree : tag :=
  document [ el "span" [("class", "zox-post-excerpt")] [txt "Excerpt"];
             el "div" [("class", "zox-post-body")] [el "p" [] [txt "Body"]] ].

Definition securityweek_lib : Lib :=
  examples_lib
    [ ("https://www.securityweek.com/ics-ot/", (200, securityweek_listing_html));
      ("https://www.securityweek.com/fresh/", (200, securityweek_detail_html)) ]
    [ (securityweek_listing_html, securityweek_listing_tree);
      (securityweek_detail_html, securityweek_detail_tree) ].

(** The Security Affairs site: a page with a fresh card, a card whose date
    line has one [span] only, and a fresh card below it. *)
Definition securityaffairs_base : string := "https://securityaffairs.com".

Definition securityaffairs_card (href headline : string) (date_line : list node) : node :=
  el "div" [("class", "news-card news-card-category mb-3 mb-lg-5")]
     [ el "div" [("class", "post-time mb-3")] date_line;
       el "h5" [("class", "mb-3")] [el "a" [("href", href)] [txt headline]] ].

Definition securityaffairs_fresh : node :=
  securityaffairs_card "/1/first.html" "First"
    [el "span" [] [txt "Pierluigi"]; el "span" [] [txt "January 8, 2025"]].
Definition securityaffairs_undated : node :=
  securityaffairs_card "/2/second.html" "Second" [el "span" [] [txt "Pierluigi"]].
Definition securityaffairs_third : node :=
  securityaffairs_card "/3/third.html" "Third"
    [el "span" [] [txt "Pierluigi"]; el "span" [] [txt "January 8, 2025"]].

Definition securityaffairs_listing_html : string :=
  "<div class='latest-news-block'>first, second, third</div>".

Definition securityaffairs_listing_tree : tag :=
  document [ el "div" [("class", "latest-news-block")]
                [ securityaffairs_fresh; securityaffairs_undated; securityaffairs_third ] ].

Definition securityaffairs_detail_html : string :=
  "<div class='article-details-block'><p>Body</p></div>".

Definition securityaffairs_lib : Lib :=
  examples_lib
    [ (securityaffairs_base, (200, securityaffairs_listing_html));
      ("https://securityaffairs.com/1/first.html", (200, securityaffairs_detail_html));
      ("https://securityaffairs.com/3/third.html", (200, securityaffairs_detail_html)) ]
    [ (securityaffairs_listing_html, securityaffairs_listing_tree);
      (securityaffairs_detail_html,
       document [ el "div" [("class", "article-details-block")] [el "p" [] [txt "Body"]] ]) ].

(** The Tripwire site: items with a date line, with a date line that has
    no date in it, and with no date line. *)
Definition tripwire_base : string := "https://www.tripwire.com/state-of-security".

Definition tripwire_item (href headline : string) (date_line : list node) : node :=
  el "article" [("class", "node node--type-blog node--view-mode-search-index")]
     (date_line ++
      [ el "h3" [("class", "node--title")] [txt headline];
        el "a" [("class", "order-2 order-md-0"); ("href", href)] [txt "Read more"] ]).

Definition tripwire_fresh : node :=
  tripwire_item "/state-of-security/first" "First"
    [el "div" [("class", "node--submitted")] [txt "Posted on 01/08/2025 by Ann"]].
Definition tripwire_recent : node :=
  tripwire_item "/state-of-security/second" "Second"
    [el "div" [("class", "node--submitted")] [txt "Posted recently"]].
Definition tripwire_bare : node :=
  tripwire_item "/state-of-security/third" "Third" [].

Definition tripwire_listing_html : string :=
  "<article class='node node--type-blog node--view-mode-search-index'>first</article>".

Definition tripwire_detail_html : string :=
  "<div class='field field--name-body'><p>Body</p></div>".

Definition tripwire_lib : Lib :=
  examples_lib
    [ ("https://www.tripwire.com/state-of-security?page=0", (200, tripwire_listing_html));
      ("https://www.tripwire.com/state-of-security/first", (200, tripwire_detail_html));
      ("https://www.tripwire.com/state-of-security/third", (200, tripwire_detail_html)) ]
    [ (tripwire_listing_html, document [tripwire_fresh; tripwire_bare]);
      (tripwire_detail_html,
       document [ el "div" [("class", "field field--name-body")] [el "p" [] [txt "Body"]] ]) ].

(** The SCADAfence site: a stale post above a fresh one, and a post with no
    date. *)
Definition scadafence_base : string := "https://www.scadafence.com/blog".

Definition scadafence_post (href headline : string) (date_line : list node) : node :=
  el "div" [("class", "postbox post-box post-item")]
     (date_line ++
      [ el "div" [("class", "title")] [el "h4" [] [txt headline]];
        el "a" [("class", "img_link"); ("href", href)]
           [el "img" [("class", "img-fluid"); ("src", "/img/post.png")] []] ]).

Definition scadafence_stale : node :=
  scadafence_post "/blog/old" "Old" [el "div" [("class", "date")] [txt "January 1, 2020"]].
Definition scadafence_fresh : node :=
  scadafence_post "/blog/new" "New" [el "div" [("class", "date")] [txt "January 8, 2025"]].
Definition scadafence_undated : node := scadafence_post "/blog/undated" "Undated" [].

Definition scadafence_listing_html : string :=
  "<div class='postbox post-box post-item'>old</div><div class='postbox post-box post-item'>new</div>".

Definition scadafence_detail_html : string :=
  "<div class='section post-body'><p>Body</p></div>".

Definition scadafence_lib : Lib :=
  examples_lib
    [ (scadafence_base, (200, scadafence_listing_html));
      ("https://www.scadafence.com/blog/new", (200, scadafence_detail_html)) ]
    [ (scadafence_listing_html, document [scadafence_stale; scadafence_fresh]);
      (scadafence_detail_html,
       document [ el "div" [("class", "section post-body")] [el "p" [] [txt "Body"]] ]) ].

(** The Sectrio site: a post whose page gives its time of publication, a
    post whose page does not, and a post whose page is missing. *)
Definition sectrio_base : string := "https://sectrio.com/blog/".

Definition sectrio_post (href headline : string) : node :=
  el "article" [("class", "elementor-post")]
     [ el "h3" [("class", "elementor-post__title")] [el "a" [("href", href)] [txt headline]];
       el "div" [("class", "elementor-post__excerpt")] [el "p" [] [txt "Excerpt"]] ].

Definition sectrio_timed : node := sectrio_post "/blog/timed/" "Timed".
Definition sectrio_untimed : node := sectrio_post "/blog/untimed/" "Untimed".
Definition sectrio_gone : node := sectrio_post "/blog/gone/" "Gone".

Definition sectrio_listing_html : string :=
  "<div class='elementor-posts-container'>timed</div>".

Definition sectrio_timed_html : string :=
  "<meta property='article:published_time' content='2025-01-08T10:00:00+00:00'><div class='bialty-container'><p>Body</p></div>".
Definition sectrio_untimed_html : string :=
  "<div class='bialty-container'><p>Body</p></div>".

Definition sectrio_lib : Lib :=
  examples_lib
    [ (sectrio_base, (200, sectrio_listing_html));
      ("https://sectrio.com/blog/timed/", (200, sectrio_timed_html));
      ("https://sectrio.com/blog/untimed/", (200, sectrio_untimed_html)) ]
    [ (sectrio_listing_html,
       document [ el "div" [("class", "elementor-posts-container")] [sectrio_timed] ]);
      (sectrio_timed_html,
       document [ el "meta" [("property", "article:published_time");
                             ("content", "2025-01-08T10:00:00+00:00")] [];
                  el "div" [("class", "bialty-container")] [el "p" [] [txt "Body"]] ]);
      (sectrio_untimed_html,
       document [ el "div" [("class", "bialty-container")] [el "p" [] [txt "Body"]] ]) ].

(** An item of the Cybersecurity Dive feed whose page is missing, and a
    first page with a hero article and an empty feed. *)
Definition dive_gone : node :=
  el "li" [("class", "row feed__item")]
     [ el "h3" [("class", "feed__title")] [el "a" [("href", "/news/gone/")] [txt "Gone"]];
       el "p" [("class", "feed__description")] [txt "Summary"] ].

Definition dive_hero_only_html : string :=
  "<section class='hero-article'><h1><a href='/news/old-story/'>Old story</a></h1></section>".

Definition dive_hero_only_lib : Lib :=
  examples_lib
    [ (dive_base, (200, dive_hero_only_html));
      ("https://www.cybersecuritydive.com/news/old-story/", (200, dive_old_html)) ]
    [ (dive_hero_only_html,
       document [ el "section" [("class", "hero-article")]
                     [ el "h1" [] [el "a" [("href", "/news/old-story/")] [txt "Old story"]] ] ]);
      (dive_old_html, dive_detail_tree "Published Jan. 1, 2020" "Old body") ].

(** A listing of the InfoSecurity Magazine site with a fresh item above an
    item that has no [time] element. *)
Definition infosec_timeless : node :=
  el "li" [("class", "webpage-item")]
     [ el "h2" [("class", "h3 webpage-title")]
          [el "a" [("href", "/news/timeless/")] [txt "Timeless"]] ].

Definition infosec_timeless_html : string :=
  "<ol class='webpages-list'><li class='webpage-item'>first</li><li class='webpage-item'>timeless</li></ol>".

Definition infosec_timeless_lib : Lib :=
  examples_lib
    [ (infosec_base, (200, infosec_timeless_html));
      ("https://www.infosecurity-magazine.com/news/first/", (200, infosec_detail_html)) ]
    [ (infosec_timeless_html,
       document [ el "ol" [("class", "webpages-list")]
                     [ infosec_item "/news/first/" "First" "10 Jan 2025";
                       infosec_timeless ] ]);
      (infosec_detail_html,
       document [ el "div" [("class", "content-module")] [el "p" [] [txt "Body"]] ]) ].

Definition infosec_timeless_config : config :=
  {| config_name := "InfoSecurity Magazine"; config_scrape_type := "html";
     config_url := infosec_base;
     config_scraper_class :=
       fun u d => InfoSecurityMagazineScraper.scrape infosec_timeless_lib u d 5 |}.

(** The rows of a configuration file, and the classes the script defines
    for them. *)
Definition example_rows : list csv_row :=
  [ [("name", "CISA"); ("scrape_type", "html"); ("url", cisa_base);
     ("scraper_class", "CISAScraper")];
    [("name", "Unknown"); ("scrape_type", "html"); ("url", "https://unknown.example/");
     ("scraper_class", "UnknownScraper")];
    [("name", "CyberSecurity Dive"); ("scrape_type", "html"); ("url", dive_base);
     ("scraper_class", "CyberSecurityDiveScraper")] ].

Definition example_globals (name : string)
  : option (string -> Date -> M (list Article)) :=
  if String.eqb name "CISAScraper"
  then Some (fun u d => CISAScraper.scrape cisa_lib u d 5)
  else if String.eqb name "CyberSecurityDiveScraper"
  then Some (fun u d => CyberSecurityDiveScraper.scrape dive_lib u d 5)
  else None.

(** The BleepingComputer site: a news item, an item tagged [Deals], a news
    item, and a stale item. *)
Definition bleeping_base : string := "https://www.bleepingcomputer.com/".

Definition bleeping_item (href headline date_text category : string) : node :=
  el "div" [("class", "bc_latest_news_text")]
     [ el "div" [("class", "bc_latest_news_category")]
          [el "span" [] [el "a" [] [txt category]]];
       el "h4" [] [el "a" [("href", href)] [txt headline]];
       el "p" [] [txt "Summary"];
       el "ul" [] [el "li" [("class", "bc_news_date")] [txt date_text]] ].

Definition bleeping_deal : node :=
  bleeping_item "/offer/deals/sale/" "Sale" "January 8, 2025" "Deals".

Definition bleeping_listing_html : string :=
  "<ul id='bc-home-news-main-wrap'>first, sale, third, old</ul>".

Definition bleeping_listing_tree : tag :=
  document [ el "ul" [("id", "bc-home-news-main-wrap")]
                [ bleeping_item "/news/security/first/" "First" "January 8, 2025" "Security";
                  bleeping_deal;
                  bleeping_item "/news/security/third/" "Third" "January 8, 2025" "Security";
                  bleeping_item "/news/security/old/" "Old" "January 1, 2020" "Security" ] ].

Definition bleeping_detail_html : string := "<div class='articleBody'><p>Body</p></div>".

Definition bleeping_lib : Lib :=
  examples_lib
    [ (bleeping_base, (200, bleeping_listing_html));
      ("https://www.bleepingcomputer.com/news/security/first/", (200, bleeping_detail_html));
      ("https://www.bleepingcomputer.com/news/security/third/", (200, bleeping_detail_html));
      ("https://www.bleepingcomputer.com/offer/deals/sale/", (200, bleeping_detail_html)) ]
    [ (bleeping_listing_html, bleeping_listing_tree);
      (bleeping_detail_html,
       document [ el "div" [("class", "articleBody")] [el "p" [] [txt "Body"]] ]) ].

(** A site that answers every request with the same page: a listing that
    has its [div] and no article in it. *)
Definition intel471_base : string := "https://intel471.com/blog".

Definition intel471_empty_html : string := "<div id='listing-results'></div>".

Definition intel471_empty_tree : tag :=
  document [ el "div" [("id", "listing-results")] [] ].

Definition intel471_empty_lib : Lib :=
  {| http_get := fun _ _ _ => Ok {| status_code := 200; text := intel471_empty_html |};
     html_parser := fun _ => intel471_empty_tree;
     select_one := demo_select_one;
     select := demo_select;
     strptime := examples_strptime;
     bracketed_netloc_ok := fun _ => false;
     hash_str := demo_hash_str;
     hash_tuple := demo_hash_tuple;
     webdriver_Chrome := Ok tt;
     driver_quit := Ok tt |}.

(** A machine on which the browser does not start. *)
Definition no_browser : exn :=
  Exn WebDriverException "Message: unknown error: cannot find Chrome binary".

Definition no_browser_lib : Lib :=
  {| http_get := http_get cisa_lib;
     html_parser := html_parser cisa_lib;
     select_one := demo_select_one;
     select := demo_select;
     strptime := demo_strptime;
     bracketed_netloc_ok := fun _ => false;
     hash_str := demo_hash_str;
     hash_tuple := demo_hash_tuple;
     webdriver_Chrome := Raise no_browser;
     driver_quit := Ok tt |}.

(** Sites whose controller finds nothing. *)
Definition quiet_config (name url : string) : config :=
  {| config_name := name; config_scrape_type := "html"; config_url := url;
     config_scraper_class := fun _ _ => ret [] |}.

Definition three_sites : list config :=
  [ quiet_config "CISA" cisa_base;
    quiet_config "CyberSecurity Dive" dive_base;
    quiet_config "InfoSecurity Magazine" infosec_base ].

(** A [set] that gives its integers in the order in which they were first
    added, and the dates a user may type. *)
Definition first_added (l : list Z) : list Z := nodup Z.eq_dec l.

Definition typed_dates_lib : Lib :=
  {| http_get := http_get cisa_lib;
     html_parser := html_parser cisa_lib;
     select_one := demo_select_one;
     select := demo_select;
     strptime := fun date_string format =>
       if String.eqb date_string "10-01-25" && String.eqb format "%d-%m-%y"
       then Ok {| dt_ordinal := ymd2ord 2025 1 10; dt_second := 0; dt_microsecond := 0 |}
       else Raise (Exn ValueError
              ("time data '" +++ date_string +++ "' does not match format '"
               +++ format +++ "'"));
     bracketed_netloc_ok := fun _ => false;
     hash_str := demo_hash_str;
     hash_tuple := demo_hash_tuple;
     webdriver_Chrome := Ok tt;
     driver_quit := Ok tt |}.

(** An item of the Cybersecurity Dive feed whose page carries an old date. *)
Definition dive_stale_item : node :=
  el "li" [("class", "row feed__item")]
     [ el "h3" [("class", "feed__title")]
          [el "a" [("href", "/news/old-story/")] [txt "Old story"]];
       el "p" [("class", "feed__description")] [txt "Summary"] ].

End Examples.

(* ================================================================= *)
(** ** Notions used in the statements *)

Import BaseScraper.

(** The world after a request, and after a line was printed. *)
Definition sent (w : World) (use_cloudscraper : bool) (u : string) : World :=
  {| stdout := stdout w; requests := requests w ++ [(use_cloudscraper, u)] |}.

Definition printed (w : World) (line : string) : World :=
  {| stdout := stdout w ++ [line]; requests := requests w |}.

(** The element [extract_link] looks at: the one the selector finds, or
    the tag itself when no selector is given. *)
Definition link_element (L : Lib) (t : option tag) (selector : string)
  : outcome (option tag) :=
  if str_truthy selector then call_select_one L t selector else Ok t.

(** The published date the specification allows in the output: a string,
    or a date that is not before the cutoff. *)
Definition date_allowed (min_date : Date) (d : date_value) : Prop :=
  match d with
  | DStr _ => True
  | DDate x => min_date <= x
  | DNone => False
  end.

(** A unit name has no space in it, and a letter is not a digit. *)
Definition no_space (u : string) : bool :=
  UrlParse.str_forallb (fun c => negb (isspace c)) u.

Definition not_digit (c : ascii) : bool := negb (isdigit c).

(** A word that could stand where the unit stands: letters only. *)
Definition is_word (w : string) : bool :=
  UrlParse.str_forallb UrlParse.is_ascii_alpha w.

(** No time unit starts the word. *)
Definition no_unit_prefix (w : string) : bool :=
  forallb (fun u => negb (String.prefix u w)) SecurityWeekScraper.time_units.

(** Noon on 5 January 2025. *)
Definition noon_5_jan_2025 : datetime :=
  {| dt_ordinal := ymd2ord 2025 1 5; dt_second := 43200; dt_microsecond := 0 |}.

(** The characters a field of the output may hold without ending the field
    or the line: printable ASCII other than the comma. *)
Definition field_char (c : ascii) : bool := is_printable c && negb (Ascii.eqb c ",").

(** The seconds between the start of 0001-01-01 and a [datetime], counting
    the day before as day 0. *)
Definition instant (dt : datetime) : Z := dt_ordinal dt * 86400 + dt_second dt.

(** The published date is a date (not a string, not [None]) that is not
    before the cutoff. *)
Definition dated_from (min_date : Date) (a : Article) : Prop :=
  exists d, date a = DDate d /\ min_date <= d.

(** A text of [n] digits, and a text of the shape [dd/dd/dddd]. *)
Definition digits (n : nat) (s : string) : Prop :=
  String.length s = n /\ UrlParse.str_forallb isdigit s = true.

Definition date_shape (m : string) : Prop :=
  exists mm dd yyyy,
    digits 2 mm /\ digits 2 dd /\ digits 4 yyyy /\ m = mm +++ "/" +++ dd +++ "/" +++ yyyy.

(** A field of a row that has the column, and whether the class a row
    names is known. *)
Definition row_field (row : csv_row) (column : string) : string :=
  match row_get row column with
  | Ok v => v
  | _ => EmptyString
  end.

Definition class_known (globals_get : string -> option (string -> Date -> M (list Article)))
  (row : csv_row) : bool :=
  match globals_get (row_field row "scraper_class") with
  | Some _ => true
  | None => false
  end.

Definition has_columns (row : csv_row) : Prop :=
  forall column, In column ["name"; "scrape_type"; "url"; "scraper_class"] ->
                 exists v, row_get row column = Ok v.

(** The line printed for a row whose class is not known, and what the
    configuration built from a row says of the site. *)
Definition skipped_line (row : csv_row) : string :=
  "Scraper class '" +++ row_field row "scraper_class"
  +++ "' not found. Skipping this configuration.".

Definition site_of_row (row : csv_row) : string * string * string :=
  (row_field row "name", row_field row "scrape_type", row_field row "url").

Definition site_of_config (c : config) : string * string * string :=
  (config_name c, config_scrape_type c, config_url c).

(** A configuration built from a row: it has the name, the type and the
    URL of the row, and its class is what the class name of the row
    denotes. *)
Definition built_from
  (globals_get : string -> option (string -> Date -> M (list Article)))
  (row : csv_row) (c : config) : Prop :=
  site_of_config c = site_of_row row
  /\ globals_get (row_field row "scraper_class") = Some (config_scraper_class c).

(** What the first line a user types selects: the numbers of its items,
    separated by commas, that are made of digits. *)
Definition typed_number (line : string) (i : Z) : Prop :=
  exists item, In item (split_chr "," (strip line))
               /\ UserInput.str_isdigit (strip item) = true
               /\ int (strip item) = i.

(** A [set] gives each of its elements once. *)
Definition gives_each_once (set_iter : list Z -> list Z) : Prop :=
  forall l, NoDup (set_iter l) /\ forall i, In i (set_iter l) <-> In i l.

(** Characters below code point 128. *)
Definition is_ascii (c : ascii) : bool := (N_of_ascii c <? 128)%N.

(** The line [print] writes for an entry of [errors]. *)
Definition error_line (x : string * string) : string := fst x +++ ": " +++ snd x.

(** The pattern [(\d+)\s*(day|hour|minute|second|week|month|year)s?\s*ago]
    said without a matcher: somewhere in the text stand one or more digits,
    white space or none, the name of a unit, an [s] or none, white space or
    none, and [ago]. *)
Definition matches_time_pattern (s : string) : Prop :=
  exists before number space1 unit plural space2 rest,
    s = before +++ number +++ space1 +++ unit +++ plural +++ space2 +++ "ago" +++ rest
    /\ number <> EmptyString
    /\ UrlParse.str_forallb isdigit number = true
    /\ UrlParse.str_forallb isspace space1 = true
    /\ In unit ["day"; "hour"; "minute"; "second"; "week"; "month"; "year"]
    /\ (plural = EmptyString \/ plural = "s")
    /\ UrlParse.str_forallb isspace space2 = true.

(** ** An article whose date fails the validation

    For each controller, what its [extract_article_details] does with an
    article up to the validation of the date, when the date fails it:
    [w] is the world before and [w'] the world after. *)

Module Stale.

Definition infosec (L : Lib) (min_date : Date) (article : tag) (w w' : World) : Prop :=
  exists date_str d,
    extract_text L (Some article) "time" (@None string) w = (Ok date_str, w')
    /\ parse_date L date_str "%d %b %Y" = Ok d
    /\ valid_truthy (is_article_valid min_date d) = false.

Definition cisa (L : Lib) (min_date : Date) (container : tag) (w w' : World) : Prop :=
  exists date_text d,
    extract_text L (Some container) "div.c-teaser__date" "" w = (Ok date_text, w')
    /\ parse_date L (Some date_text) "%b %d, %Y" = Ok d
    /\ valid_truthy (is_article_valid min_date d) = false.

(** The date is read on the page of the article; when that page cannot be
    had the date is [None], which fails the validation too. *)
Definition dive (L : Lib) (base_url : string) (min_date : Date) (article : tag)
  (w w' : World) : Prop :=
  exists title link description wa wb article_date content image,
    extract_text L (Some article) "h3.feed__title" "" w = (Ok title, wa)
    /\ extract_link L (Some article) "a" base_url "" = Ok link
    /\ extract_text L (Some article) "p.feed__description" "" wa = (Ok description, wb)
    /\ CyberSecurityDiveScraper.extract_article_content L link wb
       = (Ok (article_date, content, image), w')
    /\ valid_truthy (is_article_valid min_date article_date) = false.

Definition securityweek (L : Lib) (base_url : string) (min_date : Date)
  (now : World -> datetime) (article : tag) (w w' : World) : Prop :=
  exists title link date_text wa article_date,
    extract_text L (Some article) "h2.zox-s-title2" "No title" w = (Ok title, wa)
    /\ extract_link L (Some article) "a" base_url "No link" = Ok link
    /\ extract_text L (Some article) "span.zox-byline-date" "No date" wa
       = (Ok date_text, w')
    /\ SecurityWeek.read_date L now date_text w' = (Ok article_date, w')
    /\ valid_truthy (is_article_valid min_date (DDate article_date)) = false.

Definition securityaffairs (L : Lib) (min_date : Date) (article : tag)
  (w w' : World) : Prop :=
  w' = w
  /\ exists article_date,
       SecurityAffairsScraper.extract_article_date L
         (find_class article "div" "post-time mb-3") = Ok article_date
       /\ valid_truthy (is_article_valid min_date article_date) = false.

Definition tripwire (L : Lib) (min_date : Date) (article : tag) (w w' : World) : Prop :=
  w' = w
  /\ exists article_date,
       TripWireScraper.extract_article_date L
         (find_class article "div" "node--submitted") = Ok article_date
       /\ valid_truthy (is_article_valid min_date article_date) = false.

Definition scadafence (L : Lib) (min_date : Date) (article : tag) (w w' : World) : Prop :=
  w' = w
  /\ exists date_tag article_date,
       find_class article "div" "date" = Some date_tag
       /\ parse_date L (Some (get_text_strip date_tag)) "%B %d, %Y" = Ok article_date
       /\ valid_truthy (is_article_valid min_date article_date) = false.

Definition sectrio (L : Lib) (base_url : string) (min_date : Date) (article : tag)
  (w w' : World) : Prop :=
  exists title link description wa wb article_date content image,
    extract_text L (Some article) "h3.elementor-post__title a" "No Title" w = (Ok title, wa)
    /\ extract_link L (Some article) "h3.elementor-post__title a" base_url "" = Ok link
    /\ extract_text L (Some article) "div.elementor-post__excerpt p" "No Description" wa
       = (Ok description, wb)
    /\ SectrioScraper.extract_article_content L link wb
       = (Ok (Some (article_date, content, image)), w')
    /\ valid_truthy (is_article_valid min_date article_date) = false.

Definition bleepingcomputer (L : Lib) (min_date : Date) (article : tag)
  (w w' : World) : Prop :=
  exists date_str article_date,
    extract_text L (Some article) "li.bc_news_date" "No Date" w = (Ok date_str, w')
    /\ parse_date L (Some date_str) "%B %d, %Y" = Ok article_date
    /\ valid_truthy (is_article_valid min_date article_date) = false.

Definition intel471 (L : Lib) (base_url : string) (min_date : Date) (article : tag)
  (w w' : World) : Prop :=
  exists title link description date_text wa wb article_date,
    extract_text L (Some article) "h3.h4.mb-3" "No Title" w = (Ok title, wa)
    /\ extract_link L (Some article) "" base_url "" = Ok link
    /\ extract_text L (Some article) "p" "No Description" wa = (Ok description, wb)
    /\ extract_text L (Some article) "div.body-overline-small.text-neutral-500" "" wb
       = (Ok date_text, w')
    /\ parse_date L
         (Some (strip (last (Intel471Scraper.split "//" date_text) EmptyString)))
         "%b %d, %Y" = Ok article_date
    /\ valid_truthy (is_article_valid min_date article_date) = false.

End Stale.

(** A loop over the articles of a page stops at a stale article: whatever
    stands after it in the list, the loop returns the articles gathered
    before it, with [stop_scraping] set, in the world the reading of its date
    left. *)
Definition stops_at_stale (loop : list tag -> list Article -> M (list Article * bool))
  (stale : tag -> World -> World -> Prop) : Prop :=
  forall pre article post acc acc1 w w1 w2,
    loop pre acc w = (Ok (acc1, false), w1) ->
    stale article w1 w2 ->
    loop (pre ++ article :: post) acc w = (Ok (acc1, true), w2).

(** A loop skips a stale article: it goes on with the articles after it,
    with the articles gathered before it. *)
Definition skips_stale (loop : list tag -> list Article -> M (list Article))
  (stale : tag -> World -> World -> Prop) : Prop :=
  forall pre article post acc acc1 w w1 w2,
    loop pre acc w = (Ok acc1, w1) ->
    stale article w1 w2 ->
    loop (pre ++ article :: post) acc w = loop post acc1 w2.

(* ================================================================= *)
(** * Properties of the model *)

(** ** Runs that return *)

Lemma bind_ok {A B} (c : M A) (k : A -> M B) (w w' : World) (b : B) :
  bind c k w = (Ok b, w') ->
  exists a w1, c w = (Ok a, w1) /\ k a w1 = (Ok b, w').
Proof.
  unfold bind. destruct (c w) as [[a|e|] w1]; try discriminate. eauto.
Qed.

Lemma bind_step {A B} (c : M A) (k : A -> M B) (w w1 : World) (a : A) :
  c w = (Ok a, w1) -> bind c k w = k a w1.
Proof. unfold bind. now intros ->. Qed.

(** Opens the first [bind] of a hypothesis that says a run returned. *)
Ltac open_bind H :=
  let a := fresh "v" in
  let w1 := fresh "w" in
  let H1 := fresh "Hrun" in
  apply bind_ok in H as (a & w1 & H1 & H).


(** ** Dates: parsing and validation *)

Lemma exc_class_eqb_eq a b : exc_class_eqb a b = true <-> a = b.
Proof.
  split.
  - destruct a, b; simpl; intros H; try reflexivity; discriminate H.
  - intros ->. destruct b; reflexivity.
Qed.

Lemma exc_class_eqb_neq a b : exc_class_eqb a b = false <-> a <> b.
Proof.
  split.
  - intros H E. apply exc_class_eqb_eq in E. congruence.
  - intros H. destruct (exc_class_eqb a b) eqn:E; [|reflexivity].
    apply exc_class_eqb_eq in E. contradiction.
Qed.

(** No value of [parse_date] is [None]: it is a date or the marker. *)
Lemma parse_date_value (L : Lib) (date_str : option string) (format : string) v :
  parse_date L date_str format = Ok v ->
  v = DStr "No Date" \/ exists d, v = DDate d.
Proof.
  unfold parse_date. destruct date_str as [s|]; [|discriminate].
  destruct (strptime L s format) as [dt|e|]; try discriminate.
  - intros [= <-]. right. eauto.
  - destruct (exc_class_eqb (exn_class e) ValueError); [|discriminate].
    intros [= <-]. now left.
Qed.

(** When [strptime] raises [ValueError] the marker is returned. *)
Lemma parse_date_on_value_error (L : Lib) (text format : string) (e : exn) :
  strptime L text format = Raise e -> exn_class e = ValueError ->
  parse_date L (Some text) format = Ok (DStr "No Date").
Proof.
  unfold parse_date. intros -> Hc. apply exc_class_eqb_eq in Hc. now rewrite Hc.
Qed.

(** C5, as amended: for a text that is a [str], [parse_date] returns the
    date of what [strptime] parses and returns ['No Date'] when [strptime]
    raises [ValueError]; an exception of another class raised by
    [strptime], and the [TypeError] raised when the text is [None], are not
    caught and reach the caller. *)
Theorem parse_date_catches_value_error_only (L : Lib) (text format : string) :
  (forall dt, strptime L text format = Ok dt ->
     parse_date L (Some text) format = Ok (DDate (dt_date dt)))
  /\ (forall e, strptime L text format = Raise e -> exn_class e = ValueError ->
        parse_date L (Some text) format = Ok (DStr "No Date"))
  /\ (forall e, strptime L text format = Raise e -> exn_class e <> ValueError ->
        parse_date L (Some text) format = Raise e)
  /\ parse_date L None format
     = Raise (Exn TypeError "strptime() argument 1 must be str, not None").
Proof.
  unfold parse_date. repeat split.
  - intros dt ->. reflexivity.
  - apply parse_date_on_value_error.
  - intros e -> Hc. apply exc_class_eqb_neq in Hc. now rewrite Hc.
Qed.

(** C5, as stated, fails: a format that repeats a directive makes
    [strptime] raise [re.error], and a text that is [None] (what
    [InfoSecurityMagazineScraper] passes when an item has no [time]
    element) makes it raise [TypeError]; [parse_date] lets both through. *)
Lemma parse_date_raises :
  parse_date Demo.infosec_lib (Some "2020 2020") "%Y %Y" = Raise Demo.re_error
  /\ parse_date Demo.infosec_lib None "%d %b %Y"
     = Raise (Exn TypeError "strptime() argument 1 must be str, not None").
Proof. split; reflexivity. Qed.

Lemma parse_date_catches_value_error_only_witness :
  parse_date Demo.infosec_lib (Some "10 Jan 2025") "%d %b %Y"
    = Ok (DDate (ymd2ord 2025 1 10))
  /\ parse_date Demo.infosec_lib (Some "yesterday") "%d %b %Y" = Ok (DStr "No Date").
Proof.
  destruct (parse_date_catches_value_error_only Demo.infosec_lib "10 Jan 2025" "%d %b %Y")
    as (H1 & _).
  destruct (parse_date_catches_value_error_only Demo.infosec_lib "yesterday" "%d %b %Y")
    as (_ & H2 & _).
  split.
  - exact (H1 _ eq_refl).
  - exact (H2 _ eq_refl eq_refl).
Defined.

(** A date passes the validation exactly when it is not before the
    cutoff. *)
Lemma is_article_valid_date (min_date d : Date) :
  valid_truthy (is_article_valid min_date (DDate d)) = true <-> min_date <= d.
Proof. simpl. apply Z.leb_le. Qed.

(** ** The page fetcher *)

(** C6, as stated, fails on a transport error: the exception is the
    outcome of the call, not [None], and nothing is printed. *)
Lemma fetch_page_content_transport_error :
  fetch_page_content Demo.down_lib "https://www.cisa.gov/" false empty_world
  = (Raise (Exn RequestException "Connection refused"),
     {| stdout := []; requests := [(false, "https://www.cisa.gov/")] |})
  /\ fst (fetch_page_content Demo.down_lib "https://www.cisa.gov/" false empty_world)
     <> Ok None.
Proof. split; [reflexivity | discriminate]. Qed.

(** ** The selector-based extractors *)

(** C8: when the element has an [href], [extract_link] returns what
    [urljoin] makes of the base URL and the [href]; with the base
    [https://x.com/a/] and the [href] [b] that is [https://x.com/a/b];
    when there is no element, or the element has no [href], it returns the
    default of the caller. *)
Theorem extract_link_resolves_against_base
  (L : Lib) (D : Type) (F : FromStr D) (t : option tag)
  (selector base_url : string) (default : D) :
  (forall el href,
     link_element L t selector = Ok (Some el) ->
     attr_get "href" (tag_attrs el) = Some href ->
     extract_link L t selector base_url default
     = obind (UrlParse.urljoin (bracketed_netloc_ok L) base_url href)
             (fun u => Ok (of_str u)))
  /\ (forall el,
        link_element L t selector = Ok (Some el) ->
        attr_get "href" (tag_attrs el) = Some "b" ->
        extract_link L t selector "https://x.com/a/" default
        = Ok (of_str "https://x.com/a/b"))
  /\ (link_element L t selector = Ok None ->
      extract_link L t selector base_url default = Ok default)
  /\ (forall el,
        link_element L t selector = Ok (Some el) ->
        attr_get "href" (tag_attrs el) = None ->
        extract_link L t selector base_url default = Ok default).
Proof.
  unfold extract_link, link_element. repeat split.
  - intros el href -> Hh. simpl. now rewrite Hh.
  - intros el -> Hh. simpl. now rewrite Hh.
  - intros ->. reflexivity.
  - intros el -> Hh. simpl. now rewrite Hh.
Qed.

Lemma extract_link_resolves_against_base_witness :
  extract_link Demo.cisa_lib
    (Some (Tag "h3" [] [Demo.el "a" [("href", "b")] [Demo.txt "B"]]))
    "a" "https://x.com/a/" ""
  = Ok "https://x.com/a/b"
  /\ extract_link Demo.cisa_lib (Some (Tag "h3" [] [Demo.txt "B"]))
       "a" "https://x.com/a/" "none"
     = Ok "none".
Proof.
  pose proof (extract_link_resolves_against_base Demo.cisa_lib string _
                (Some (Tag "h3" [] [Demo.el "a" [("href", "b")] [Demo.txt "B"]]))
                "a" "https://x.com/a/" "") as (_ & H2 & _).
  pose proof (extract_link_resolves_against_base Demo.cisa_lib string _
                (Some (Tag "h3" [] [Demo.txt "B"]))
                "a" "https://x.com/a/" "none") as (_ & _ & H3 & _).
  split.
  - exact (H2 _ eq_refl eq_refl).
  - exact (H3 eq_refl).
Defined.

(** The loop of [extract_content] gathers the cleaned non-empty texts. *)
Lemma fold_process_paragraph (paragraphs : list tag) (acc : list string) :
  fold_left process_paragraph paragraphs acc
  = acc ++ map Spec.clean_text (filter str_truthy (map get_text_strip paragraphs)).
Proof.
  revert acc. induction paragraphs as [|p ps IH]; intros acc; simpl.
  - now rewrite app_nil_r.
  - rewrite IH. unfold process_paragraph.
    destruct (str_truthy (get_text_strip p)); simpl.
    + now rewrite <- app_assoc.
    + reflexivity.
Qed.

Lemma str_filter_forallb (p : ascii -> bool) (s : string) :
  UrlParse.str_forallb p (UrlParse.str_filter p s) = true.
Proof.
  induction s as [|c s IH]; simpl; [reflexivity|].
  destruct (p c) eqn:E; simpl; [now rewrite E|assumption].
Qed.

(** C9, as amended: [extract_content] takes the texts of the [p], [h2],
    [h3] and [li] elements below the selected element, drops the empty
    ones, turns every line feed and every comma of a text into a space,
    joins the texts with [" || "] and removes the characters outside
    0x20-0x7E, so that every character of the result is printable ASCII;
    when the selector finds nothing the result is the empty string. *)
Theorem extract_content_joins_cleaned_texts (L : Lib) (soup : tag) (selector : string) :
  extract_content L soup selector = Spec.extract_content_amended L soup selector
  /\ (forall result, extract_content L soup selector = Ok result ->
        UrlParse.str_forallb is_printable result = true)
  /\ (select_one L soup selector = Ok None ->
      extract_content L soup selector = Ok EmptyString).
Proof.
  unfold extract_content, Spec.extract_content_amended, Spec.paragraph_texts.
  repeat split.
  - destruct (select_one L soup selector) as [[d|]| |]; simpl; try reflexivity.
    now rewrite fold_process_paragraph.
  - intros result.
    destruct (select_one L soup selector) as [[d|]| |]; simpl; try discriminate.
    + intros [= <-]. apply str_filter_forallb.
    + intros [= <-]. reflexivity.
  - intros ->. reflexivity.
Qed.

(** C9, as stated, fails on a paragraph with a comma: the code returns
    [a b] where joining the texts as they are gives [a,b]. *)
Lemma extract_content_replaces_commas :
  extract_content Demo.cisa_lib Demo.comma_page "div.content" = Ok "a b"
  /\ Spec.extract_content_as_specified Demo.cisa_lib Demo.comma_page "div.content"
     = Ok "a,b"
  /\ extract_content Demo.cisa_lib Demo.comma_page "div.content"
     <> Spec.extract_content_as_specified Demo.cisa_lib Demo.comma_page "div.content".
Proof. split; [reflexivity | split; [reflexivity | discriminate]]. Qed.

Lemma extract_content_joins_cleaned_texts_witness :
  extract_content Demo.cisa_lib Demo.comma_page "div.content" = Ok "a b"
  /\ extract_content Demo.cisa_lib Demo.comma_page "div.missing" = Ok EmptyString.
Proof.
  pose proof (extract_content_joins_cleaned_texts Demo.cisa_lib Demo.comma_page
                "div.content") as (H1 & _).
  pose proof (extract_content_joins_cleaned_texts Demo.cisa_lib Demo.comma_page
                "div.missing") as (_ & _ & H3).
  split.
  - rewrite H1. reflexivity.
  - exact (H3 eq_refl).
Defined.

(** ** The relative-time parser *)

Import SecurityWeekScraper.

Lemma string_of_uint_digits (d : Decimal.uint) :
  UrlParse.str_forallb isdigit (NilEmpty.string_of_uint d) = true.
Proof. induction d; simpl; auto. Qed.

Lemma str_of_nat_digits (n : nat) :
  UrlParse.str_forallb isdigit (str_of_nat n) = true.
Proof.
  unfold str_of_nat, NilZero.string_of_uint.
  destruct (Nat.to_uint n) eqn:E; try reflexivity;
    rewrite <- E; apply string_of_uint_digits.
Qed.

Lemma str_of_nat_not_empty (n : nat) : str_of_nat n <> EmptyString.
Proof.
  unfold str_of_nat, NilZero.string_of_uint.
  destruct (Nat.to_uint n); simpl; discriminate.
Qed.

Lemma int_of_digits_acc_uint (d : Decimal.uint) (acc : nat) :
  int_of_digits_acc (NilEmpty.string_of_uint d) (Z.of_nat acc)
  = Z.of_nat (Nat.of_uint_acc d acc).
Proof.
  revert acc.
  induction d as [|d IH|d IH|d IH|d IH|d IH|d IH|d IH|d IH|d IH|d IH];
    intros acc; cbn [int_of_digits_acc NilEmpty.string_of_uint Nat.of_uint_acc];
    [reflexivity|..];
    rewrite <- IH; f_equal; rewrite Nat.tail_mul_spec;
    match goal with
    | |- context [digit_value ?c] =>
        let v := eval vm_compute in (digit_value c) in
        change (digit_value c) with v
    end; lia.
Qed.

(** [int(str(n)) == n] *)
Lemma int_str_of_nat (n : nat) : int (str_of_nat n) = Z.of_nat n.
Proof.
  unfold int, str_of_nat, NilZero.string_of_uint.
  rewrite <- (DecimalNat.Unsigned.of_to n) at 2.
  unfold Nat.of_uint.
  destruct (Nat.to_uint n) eqn:E; try reflexivity;
    rewrite <- E; apply (int_of_digits_acc_uint (Nat.to_uint n) 0).
Qed.

Lemma span_digits_app (ds r : string) :
  UrlParse.str_forallb isdigit ds = true ->
  match r with String c _ => isdigit c = false | EmptyString => True end ->
  span_digits (ds +++ r) = (ds, r).
Proof.
  intros Hds Hr. induction ds as [|c ds IH]; simpl.
  - destruct r as [|c r]; [reflexivity|]. simpl. now rewrite Hr.
  - simpl in Hds. apply andb_prop in Hds as [Hc Hds].
    rewrite Hc, (IH Hds). reflexivity.
Qed.

Lemma re_search_here (s : string) m :
  match_here s = Some m -> re_search s = Some m.
Proof. intros H. destruct s; cbn [re_search]; now rewrite H. Qed.

(** The pattern finds the number and the unit of [<n> <unit>s ago]. *)
Lemma re_search_quantity (n : nat) (u tail : string) :
  match_here ("0" +++ " " +++ tail) = Some ("0", u) ->
  (forall ds, ds <> EmptyString ->
     span_digits (ds +++ " " +++ tail) = (ds, " " +++ tail) ->
     match_here (ds +++ " " +++ tail) = Some (ds, u)) ->
  re_search (str_of_nat n +++ " " +++ tail) = Some (str_of_nat n, u).
Proof.
  intros _ H. apply re_search_here, H.
  - apply str_of_nat_not_empty.
  - apply span_digits_app; [apply str_of_nat_digits | reflexivity].
Qed.

Ltac solve_match_here :=
  let ds := fresh "ds" in
  let Hne := fresh in
  let Hspan := fresh in
  intros ds Hne Hspan; unfold match_here; rewrite Hspan;
  destruct ds; [contradiction|reflexivity].

Lemma re_search_days (n : nat) :
  re_search (str_of_nat n +++ " days ago") = Some (str_of_nat n, "day").
Proof. apply (re_search_quantity n "day" "days ago"); [reflexivity | solve_match_here]. Qed.

Lemma re_search_weeks (n : nat) :
  re_search (str_of_nat n +++ " weeks ago") = Some (str_of_nat n, "week").
Proof. apply (re_search_quantity n "week" "weeks ago"); [reflexivity | solve_match_here]. Qed.

Lemma re_search_months (n : nat) :
  re_search (str_of_nat n +++ " months ago") = Some (str_of_nat n, "month").
Proof. apply (re_search_quantity n "month" "months ago"); [reflexivity | solve_match_here]. Qed.

Lemma re_search_years (n : nat) :
  re_search (str_of_nat n +++ " years ago") = Some (str_of_nat n, "year").
Proof. apply (re_search_quantity n "year" "years ago"); [reflexivity | solve_match_here]. Qed.

(** *** A word that is not a unit *)

Lemma prefix_before_space (u w t : string) :
  no_space u = true ->
  String.prefix u (w +++ String " " t) = true -> String.prefix u w = true.
Proof.
  revert w. induction u as [|c u IH]; intros w Hu H; [now destruct w|].
  simpl in Hu. apply andb_prop in Hu as [Hc Hu].
  destruct w as [|c' w]; simpl in *.
  - destruct (Ascii.ascii_dec c " ") as [->|Hn]; [discriminate Hc|].
    now destruct (Ascii.ascii_dec c " ").
  - destruct (Ascii.ascii_dec c c'); [auto|discriminate].
Qed.

Lemma match_unit_none (units : list string) (w t : string) :
  forallb no_space units = true ->
  forallb (fun u => negb (String.prefix u w)) units = true ->
  match_unit units (w +++ String " " t) = None.
Proof.
  induction units as [|u units IH]; simpl; [reflexivity|].
  intros Hs Hp. apply andb_prop in Hs as [Hu Hs]. apply andb_prop in Hp as [Hw Hp].
  destruct (String.prefix u (w +++ String " " t)) eqn:E.
  - apply prefix_before_space in E; [|assumption]. now rewrite E in Hw.
  - auto.
Qed.

Lemma match_here_not_digit (c : ascii) (s : string) :
  isdigit c = false -> match_here (String c s) = None.
Proof. intros H. unfold match_here. cbn [span_digits]. now rewrite H. Qed.

(** The pattern needs a digit to start. *)
Lemma re_search_no_digit (s : string) :
  UrlParse.str_forallb not_digit s = true -> re_search s = None.
Proof.
  induction s as [|c s IH]; [reflexivity|].
  cbn [UrlParse.str_forallb]. intros H. apply andb_prop in H as [Hc Hs].
  cbn [re_search]. rewrite match_here_not_digit; auto.
  unfold not_digit in Hc. now destruct (isdigit c).
Qed.

Lemma str_forallb_app (p : ascii -> bool) (a b : string) :
  UrlParse.str_forallb p (a +++ b)
  = UrlParse.str_forallb p a && UrlParse.str_forallb p b.
Proof. induction a as [|c a IH]; simpl; [reflexivity|]. now rewrite IH, andb_assoc. Qed.

Lemma letter_facts (c : ascii) :
  UrlParse.is_ascii_alpha c = true -> isdigit c = false /\ isspace c = false.
Proof.
  unfold UrlParse.is_ascii_alpha, isdigit, isspace. intros H.
  assert (Hn : (65 <= N_of_ascii c <= 122)%N).
  { apply orb_prop in H as [H|H]; apply andb_prop in H as [H1 H2];
      apply N.leb_le in H1, H2; lia. }
  cbv zeta.
  repeat match goal with
  | |- context [(?a <=? ?b)%N] => destruct (N.leb_spec a b); try lia
  | |- context [(?a =? ?b)%N] => destruct (N.eqb_spec a b); try lia
  end; split; reflexivity.
Qed.

Lemma word_not_digits (w : string) :
  is_word w = true -> UrlParse.str_forallb not_digit w = true.
Proof.
  unfold is_word. induction w as [|c w IH]; [reflexivity|]. simpl.
  intros H. apply andb_prop in H as [Hc Hw]. rewrite (IH Hw), andb_true_r.
  unfold not_digit. now rewrite (proj1 (letter_facts c Hc)).
Qed.

(** After the number, a word that no unit starts does not match. *)
Lemma match_here_unknown_unit (ds w : string) :
  UrlParse.str_forallb isdigit ds = true ->
  is_word w = true -> no_unit_prefix w = true ->
  match_here (ds +++ " " +++ w +++ " ago") = None.
Proof.
  intros Hds Hw Hu. unfold match_here.
  rewrite span_digits_app; [|assumption|reflexivity].
  destruct ds as [|d ds]; [reflexivity|].
  replace (lstrip (" " +++ w +++ " ago")) with (lstrip (w +++ " ago")) by reflexivity.
  destruct w as [|c w]; [reflexivity|].
  unfold is_word in Hw. simpl in Hw. apply andb_prop in Hw as [Hc Hw].
  cbn [String.append lstrip]. rewrite (proj2 (letter_facts c Hc)).
  change (String c (w +++ " ago")) with (String c w +++ String " " "ago").
  now rewrite match_unit_none.
Qed.

Lemma re_search_unknown_unit (ds w : string) :
  UrlParse.str_forallb isdigit ds = true ->
  is_word w = true -> no_unit_prefix w = true ->
  re_search (ds +++ " " +++ w +++ " ago") = None.
Proof.
  intros Hds Hw Hu. induction ds as [|d ds IH].
  - apply re_search_no_digit. cbn [String.append UrlParse.str_forallb].
    rewrite str_forallb_app, (word_not_digits w Hw). reflexivity.
  - simpl in Hds. apply andb_prop in Hds as [Hd Hds].
    change (String d ds +++ " " +++ w +++ " ago")
      with (String d (ds +++ " " +++ w +++ " ago")).
    cbn [re_search].
    change (String d (ds +++ " " +++ w +++ " ago"))
      with (String d ds +++ " " +++ w +++ " ago").
    rewrite match_here_unknown_unit; auto.
    simpl. now rewrite Hd, Hds.
Qed.

(** Going back [q] whole days from [today] gives the date [q] days before,
    as long as that date exists. *)
Lemma back_whole_days (today : datetime) (q : Z) :
  datetime_ok today -> 0 <= q < dt_ordinal today ->
  obind (mk_timedelta q 0 0 0 0) (fun delta =>
    obind (datetime_sub today delta) (fun article_date =>
      Ok (Some (dt_date article_date))))
  = Ok (Some (dt_date today - q)).
Proof.
  intros [[Hlo Hhi] Hsec] Hq. unfold MINORDINAL, MAXORDINAL in *.
  unfold mk_timedelta.
  replace (0 + 60 * 0 + 3600 * 0) with 0 by reflexivity.
  replace (q + 7 * 0 + 0 / 86400) with q by (cbn; lia).
  destruct (Z.leb_spec (Z.abs q) 999999999) as [_|Habs]; [|lia].
  cbn [obind]. unfold datetime_sub. cbn [td_days td_seconds].
  replace (0 mod 86400) with 0 by reflexivity.
  assert (Hdiv : (dt_ordinal today * 86400 + dt_second today - (q * 86400 + 0)) / 86400
                 = dt_ordinal today - q).
  { symmetry. apply Z.div_unique with (r := dt_second today); lia. }
  rewrite Hdiv. unfold MINORDINAL, MAXORDINAL.
  destruct (Z.leb_spec 1 (dt_ordinal today - q)); [|lia].
  destruct (Z.leb_spec (dt_ordinal today - q) 3652059); [|lia].
  reflexivity.
Qed.

Lemma back_whole_weeks (today : datetime) (q : Z) :
  datetime_ok today -> 0 <= 7 * q < dt_ordinal today ->
  obind (mk_timedelta 0 0 0 0 q) (fun delta =>
    obind (datetime_sub today delta) (fun article_date =>
      Ok (Some (dt_date article_date))))
  = Ok (Some (dt_date today - 7 * q)).
Proof.
  intros Hok Hq. rewrite <- (back_whole_days today (7 * q) Hok Hq).
  assert (E : 0 + 7 * q + (0 + 60 * 0 + 3600 * 0) / 86400
              = 7 * q + 7 * 0 + (0 + 60 * 0 + 3600 * 0) / 86400) by lia.
  unfold mk_timedelta. rewrite E. reflexivity.
Qed.

(** C4, as stated, fails for a number of years that leads to before the
    first day of year 1: there is no such date, and the subtraction raises
    [OverflowError]. *)
Lemma calculate_article_date_before_year_one :
  calculate_article_date noon_5_jan_2025 "3000 years ago"
  = Raise (overflow "date value out of range").
Proof. reflexivity. Qed.

(** ** Article identity and the run orchestrator *)

Lemma Article_eq_key (a b : Article) :
  Article_eq a (PyArticle b) = true <-> key a = key b.
Proof.
  unfold Article_eq, key. rewrite andb_true_iff, !String.eqb_eq.
  split; [intros [-> ->]; reflexivity | intros [= -> ->]; auto].
Qed.

Lemma Article_hash_key (L : Lib) (a b : Article) :
  key a = key b -> Article_hash L a = Article_hash L b.
Proof. unfold key, Article_hash. now intros [= -> ->]. Qed.

Lemma set_contains_key (L : Lib) (s : list Article) (a : Article) :
  set_contains L s a = true <-> In (key a) (map key s).
Proof.
  unfold set_contains. rewrite existsb_exists, in_map_iff. split.
  - intros (b & Hb & H). apply andb_prop in H as [_ H].
    apply Article_eq_key in H. eauto.
  - intros (b & Hk & Hb). exists b. split; [assumption|].
    rewrite (proj2 (Article_eq_key b a) Hk), (Article_hash_key L b a Hk), Z.eqb_refl.
    reflexivity.
Qed.

Lemma set_add_NoDup (L : Lib) (s : list Article) (a : Article) :
  NoDup (map key s) -> NoDup (map key (set_add L s a)).
Proof.
  intros Hs. unfold set_add. destruct (set_contains L s a) eqn:E; [assumption|].
  rewrite map_app. apply NoDup_app; [assumption | repeat constructor; intros [] | ].
  intros k Hk [<-|[]]. apply (proj2 (set_contains_key L s a)) in Hk. congruence.
Qed.

Lemma set_add_keeps (L : Lib) (s : list Article) (a b : Article) :
  In b s -> In b (set_add L s a).
Proof.
  intros Hb. unfold set_add. destruct (set_contains L s a); [assumption|].
  apply in_or_app. now left.
Qed.

Lemma set_add_has_key (L : Lib) (s : list Article) (a : Article) :
  In (key a) (map key (set_add L s a)).
Proof.
  unfold set_add. destruct (set_contains L s a) eqn:E.
  - now apply (proj1 (set_contains_key L s a)).
  - rewrite map_app. apply in_or_app. right. now left.
Qed.

Lemma set_add_keeps_key (L : Lib) (s : list Article) (a : Article) k :
  In k (map key s) -> In k (map key (set_add L s a)).
Proof.
  rewrite !in_map_iff. intros (b & Hk & Hb). exists b. auto using set_add_keeps.
Qed.

Lemma set_update_NoDup (L : Lib) (other s : list Article) :
  NoDup (map key s) -> NoDup (map key (set_update L s other)).
Proof.
  unfold set_update. revert s.
  induction other as [|a other IH]; intros s Hs; simpl; auto using set_add_NoDup.
Qed.

Lemma set_update_keeps (L : Lib) (other s : list Article) (b : Article) :
  In b s -> In b (set_update L s other).
Proof.
  unfold set_update. revert s.
  induction other as [|a other IH]; intros s Hs; simpl; auto using set_add_keeps.
Qed.

Lemma set_update_keeps_key (L : Lib) (other s : list Article) k :
  In k (map key s) -> In k (map key (set_update L s other)).
Proof.
  unfold set_update. revert s.
  induction other as [|a other IH]; intros s Hs; simpl; auto using set_add_keeps_key.
Qed.

Lemma set_update_has_keys (L : Lib) (other s : list Article) (a : Article) :
  In a other -> In (key a) (map key (set_update L s other)).
Proof.
  unfold set_update. revert s.
  induction other as [|x other IH]; intros s; simpl; [intros []|].
  intros [->|Ha]; [|auto].
  apply (set_update_keeps_key L other). apply set_add_has_key.
Qed.

Lemma set_of_has_keys (L : Lib) (l : list Article) (a : Article) :
  In a l -> In (key a) (map key (set_of L l)).
Proof. apply set_update_has_keys. Qed.

(** What one turn of the loop over the sites does, by the outcome of the
    controller. *)
Lemma scrape_site_cases (L : Lib) (min_date : Date) (all_articles : list Article)
  (errors : list (string * string)) (c : config) (w : World) :
  scrape_site L min_date (all_articles, errors) c w =
  match config_scraper_class c (config_url c) min_date w with
  | (Ok scraped, w1) =>
      (Ok (set_update L all_articles (set_of L scraped), errors),
       printed w1 (LF +++ "Successfully scraped "
                   +++ str_of_nat (List.length (set_of L scraped))
                   +++ " articles from " +++ config_name c))
  | (Raise e, w1) =>
      (Ok (all_articles, errors ++ [(config_name c, exn_msg e)]),
       printed w1 (LF +++ "Error scraping " +++ config_name c +++ ": " +++ exn_msg e))
  | (Diverge, w1) => (Diverge, w1)
  end.
Proof.
  unfold scrape_site, try_except, bind, print, ret, printed.
  destruct (config_scraper_class c (config_url c) min_date w) as [[scraped|e|] w1];
    reflexivity.
Qed.

Lemma scrape_sites_app (L : Lib) (min_date : Date) (pre post : list config)
  (st : run_state) (w : World) :
  scrape_sites L min_date (pre ++ post) st w =
  match scrape_sites L min_date pre st w with
  | (Ok st1, w1) => scrape_sites L min_date post st1 w1
  | (Raise e, w1) => (Raise e, w1)
  | (Diverge, w1) => (Diverge, w1)
  end.
Proof.
  revert st w. induction pre as [|c pre IH]; intros st w; simpl.
  - destruct (scrape_sites L min_date post st w) as [[st1|e|] w1]; reflexivity.
  - unfold bind.
    destruct (scrape_site L min_date st c w) as [[st1|e|] w1]; auto.
Qed.

(** The loop keeps the identities apart and loses no article. *)
Lemma scrape_sites_invariant (L : Lib) (min_date : Date) (configs : list config)
  (st st' : run_state) (w w' : World) :
  scrape_sites L min_date configs st w = (Ok st', w') ->
  (NoDup (map key (fst st)) -> NoDup (map key (fst st')))
  /\ (forall k, In k (map key (fst st)) -> In k (map key (fst st'))).
Proof.
  revert st w. induction configs as [|c configs IH]; intros [all errors] w;
    cbn [scrape_sites].
  - unfold ret. intros [= <- <-]. auto.
  - unfold bind. rewrite scrape_site_cases.
    destruct (config_scraper_class c (config_url c) min_date w) as [[scraped|e|] w1];
      try discriminate.
    + intros H. apply IH in H as [H1 H2]. simpl in *. split.
      * intros Hnd. apply H1. now apply set_update_NoDup.
      * intros k Hk. apply H2. now apply set_update_keeps_key.
    + intros H. apply IH in H as [H1 H2]. simpl in *. auto.
Qed.

(** The articles of a site whose controller returns are in the result set,
    whatever happened at the sites before it. *)
Lemma scrape_sites_aggregates (L : Lib) (min_date : Date) (pre post : list config)
  (c : config) (st st1 st' : run_state) (w w1 w2 w' : World) (scraped : list Article) :
  scrape_sites L min_date pre st w = (Ok st1, w1) ->
  config_scraper_class c (config_url c) min_date w1 = (Ok scraped, w2) ->
  scrape_sites L min_date (pre ++ c :: post) st w = (Ok st', w') ->
  forall a, In a scraped -> In (key a) (map key (fst st')).
Proof.
  intros Hpre Hc Hall a Ha. rewrite scrape_sites_app, Hpre in Hall.
  cbn [scrape_sites] in Hall. unfold bind in Hall. destruct st1 as [all errors].
  rewrite scrape_site_cases, Hc in Hall.
  apply scrape_sites_invariant in Hall as [_ H]. apply H. simpl.
  (* the element of the set of the site that stands for [a] has its key *)
  pose proof (set_of_has_keys L scraped a Ha) as Hk.
  apply in_map_iff in Hk as (b & Hb & Hin). rewrite <- Hb.
  now apply set_update_has_keys.
Qed.

Lemma scrape_sites_keeps_errors (L : Lib) (min_date : Date) (configs : list config)
  (st st' : run_state) (w w' : World) :
  scrape_sites L min_date configs st w = (Ok st', w') ->
  forall x, In x (snd st) -> In x (snd st').
Proof.
  revert st w. induction configs as [|c configs IH]; intros [all errors] w;
    cbn [scrape_sites].
  - unfold ret. intros [= <- <-]. auto.
  - unfold bind. rewrite scrape_site_cases.
    destruct (config_scraper_class c (config_url c) min_date w) as [[scraped|e|] w1];
      try discriminate; intros H x Hx; apply (IH _ _ H); simpl in *; auto.
    apply in_or_app. now left.
Qed.

(** The loop over the sites returns as soon as every controller does: an
    exception of a controller does not end it. *)
Lemma scrape_sites_returns (L : Lib) (min_date : Date) (configs : list config) :
  (forall c, In c configs ->
     forall w, fst (config_scraper_class c (config_url c) min_date w) <> Diverge) ->
  forall st w, exists st' w', scrape_sites L min_date configs st w = (Ok st', w').
Proof.
  induction configs as [|c configs IH]; intros Hret [all errors] w; cbn [scrape_sites].
  - unfold ret. eauto.
  - unfold bind. rewrite scrape_site_cases.
    pose proof (Hret c (or_introl eq_refl) w) as Hc.
    destruct (config_scraper_class c (config_url c) min_date w) as [[scraped|e|] w1];
      [ | |now elim Hc]; apply IH; intros c' Hc'; apply Hret; now right.
Qed.

(** What [scrape_selected_sites] returns is the set its loop ends with. *)
Lemma scrape_selected_sites_result (L : Lib) (configs : list config) (min_date : Date)
  (w w' : World) (result : list Article) :
  scrape_selected_sites L configs min_date w = (Ok result, w') ->
  exists errors w1,
    scrape_sites L min_date configs ([], [])
      (printed w (LF +++ "Scraping in progress...")) = (Ok (result, errors), w1).
Proof.
  unfold scrape_selected_sites, bind at 1, print at 1, bind at 1, lift at 1.
  fold (printed w (LF +++ "Scraping in progress...")).
  destruct (webdriver_Chrome L) as [[]|e|]; try discriminate.
  unfold bind at 1.
  destruct (scrape_sites L min_date configs ([], []) _) as [[[all errors]|e|] w1];
    try discriminate.
  intros H. exists errors, w1.
  assert (all = result); [|now subst].
  revert H. unfold bind, print, lift, ret.
  destruct errors as [|x errors].
  - destruct (driver_quit L); intros [= ]; congruence.
  - destruct (print_errors (x :: errors) _) as [[[]|?|] ?]; try discriminate.
    destruct (driver_quit L); intros [= ]; congruence.
Qed.

Lemma print_errors_returns (errors : list (string * string)) (w : World) :
  exists w', print_errors errors w = (Ok tt, w').
Proof.
  revert w. induction errors as [|[site error] errors IH]; intros w;
    cbn [print_errors].
  - unfold ret. eauto.
  - unfold bind, print. apply IH.
Qed.

(** With a browser session that starts and quits, the whole run returns a
    set as soon as every controller returns or raises. *)
Lemma scrape_selected_sites_returns (L : Lib) (configs : list config) (min_date : Date) :
  webdriver_Chrome L = Ok tt -> driver_quit L = Ok tt ->
  (forall c, In c configs ->
     forall w, fst (config_scraper_class c (config_url c) min_date w) <> Diverge) ->
  forall w, exists result w',
    scrape_selected_sites L configs min_date w = (Ok result, w').
Proof.
  intros Hstart Hquit Hret w. unfold scrape_selected_sites.
  unfold bind at 1, print at 1, bind at 1, lift at 1. rewrite Hstart.
  destruct (scrape_sites_returns L min_date configs Hret ([], [])
              {| stdout := stdout w ++ [LF +++ "Scraping in progress..."];
                 requests := requests w |}) as ([all errors] & w1 & H).
  rewrite (bind_step _ _ _ _ _ H).
  unfold bind at 1, print at 1. unfold bind at 1.
  destruct errors as [|x errors].
  - unfold ret at 1. unfold bind, lift, ret. rewrite Hquit. eauto.
  - unfold bind at 1, print at 1.
    match goal with
    | |- context [print_errors ?l ?w0] =>
        destruct (print_errors_returns l w0) as (w2 & Hp); rewrite Hp
    end.
    unfold bind, lift, ret. rewrite Hquit. eauto.
Qed.

Lemma NoDup_map_same {A B} (f : A -> B) (l : list A) (x y : A) :
  NoDup (map f l) -> In x l -> In y l -> f x = f y -> x = y.
Proof.
  induction l as [|a l IH]; simpl; [intros _ []|].
  intros Hnd Hx Hy Hf. apply NoDup_cons_iff in Hnd as [Hna Hnd].
  destruct Hx as [->|Hx], Hy as [->|Hy]; auto.
  - elim Hna. rewrite Hf. now apply in_map.
  - elim Hna. rewrite <- Hf. now apply in_map.
Qed.

(** C2: two articles with the same title and the same URL compare equal and
    have the same hash, whatever their other fields; in the set
    [scrape_selected_sites] returns no two articles have the same title
    and URL, and every article a site returned has exactly one
    representative there, also when several sites returned it. *)
Theorem article_identity_is_title_and_url (L : Lib) :
  (forall a b, title a = title b -> url a = url b ->
     Article_eq a (PyArticle b) = true /\ Article_hash L a = Article_hash L b)
  /\ (forall configs min_date w result w',
        scrape_selected_sites L configs min_date w = (Ok result, w') ->
        NoDup (map key result))
  /\ (forall min_date pre c post w st1 w1 scraped w2 result w',
        scrape_sites L min_date pre ([], [])
          (printed w (LF +++ "Scraping in progress...")) = (Ok st1, w1) ->
        config_scraper_class c (config_url c) min_date w1 = (Ok scraped, w2) ->
        scrape_selected_sites L (pre ++ c :: post) min_date w = (Ok result, w') ->
        forall a, In a scraped ->
          exists b, In b result /\ key b = key a
                    /\ forall b', In b' result -> key b' = key a -> b' = b).
Proof.
  split; [|split].
  - intros a b Ht Hu. assert (Hk : key a = key b) by (unfold key; congruence).
    split; [now apply Article_eq_key | now apply Article_hash_key].
  - intros configs min_date w result w' H.
    apply scrape_selected_sites_result in H as (errors & w1 & H).
    apply scrape_sites_invariant in H as [H _]. apply H. constructor.
  - intros min_date pre c post w st1 w1 scraped w2 result w' Hpre Hc H a Ha.
    apply scrape_selected_sites_result in H as (errors & w3 & H).
    assert (Hk : In (key a) (map key result)).
    { change result with (fst (result, errors)).
      eapply (scrape_sites_aggregates L min_date pre post c);
        [exact Hpre | exact Hc | exact H | exact Ha]. }
    apply scrape_sites_invariant in H as [Hnd _]. simpl in *.
    apply in_map_iff in Hk as (b & Hb & Hin).
    exists b. repeat split; auto.
    intros b' Hb' Hk'. apply (NoDup_map_same key result); auto.
    + apply Hnd. constructor.
    + congruence.
Qed.

Lemma article_identity_is_title_and_url_witness :
  exists result w',
    scrape_selected_sites Demo.cisa_lib
      [Demo.broken_config; Demo.cisa_config; Demo.dive_config; Demo.cisa_config]
      Demo.cutoff empty_world = (Ok result, w')
    /\ List.length result = 3%nat
    /\ NoDup (map key result).
Proof.
  eexists. eexists. split; [vm_compute; reflexivity|]. split; [reflexivity|].
  eapply (proj1 (proj2 (article_identity_is_title_and_url Demo.cisa_lib))
            [Demo.broken_config; Demo.cisa_config; Demo.dive_config; Demo.cisa_config]
            Demo.cutoff empty_world).
  vm_compute. reflexivity.
Defined.

(** ** The site controllers *)

Lemma valid_truthy_allowed (min_date : Date) (d : date_value) :
  valid_truthy (is_article_valid min_date d) = true <-> date_allowed min_date d.
Proof.
  destruct d; simpl.
  - apply Z.leb_le.
  - tauto.
  - split; [discriminate | tauto].
Qed.

(** An article [InfoSecurityMagazineScraper.extract_article_details]
    returns has passed the validation. *)
Lemma infosec_details_allowed (L : Lib) (base_url : string) (min_date : Date)
  (article : tag) (w w' : World) (a : Article) :
  InfoSecurityMagazineScraper.extract_article_details L base_url min_date article w
  = (Ok (Some a), w') ->
  date_allowed min_date (date a).
Proof.
  unfold InfoSecurityMagazineScraper.extract_article_details. intros H.
  open_bind H. open_bind H.
  destruct (valid_truthy (is_article_valid min_date v0)) eqn:Hv; simpl in H;
    [|discriminate].
  do 5 open_bind H. unfold ret in H. injection H as <- _.
  now apply valid_truthy_allowed.
Qed.

(** ... and when it returns [None], the date it read has failed the
    validation. *)
Lemma infosec_details_none (L : Lib) (base_url : string) (min_date : Date)
  (article : tag) (w w' : World) :
  InfoSecurityMagazineScraper.extract_article_details L base_url min_date article w
  = (Ok None, w') <->
  exists date_str d,
    extract_text L (Some article) "time" (@None string) w = (Ok date_str, w')
    /\ parse_date L date_str "%d %b %Y" = Ok d
    /\ valid_truthy (is_article_valid min_date d) = false.
Proof.
  unfold InfoSecurityMagazineScraper.extract_article_details. split.
  - intros H. open_bind H. open_bind H.
    unfold lift in Hrun0. injection Hrun0 as Hp <-.
    destruct (valid_truthy (is_article_valid min_date v0)) eqn:Hv; simpl in H.
    + do 5 open_bind H. discriminate H.
    + unfold ret in H. injection H as <-. eauto.
  - intros (date_str & d & Ht & Hp & Hv).
    rewrite (bind_step _ _ _ _ _ Ht). unfold bind at 1, lift at 1.
    rewrite Hp, Hv. reflexivity.
Qed.

Lemma infosec_process_articles_app (L : Lib) (base_url : string) (min_date : Date)
  (pre post : list tag) (acc : list Article) (w : World) :
  InfoSecurityMagazineScraper.process_articles L base_url min_date (pre ++ post) acc w =
  match InfoSecurityMagazineScraper.process_articles L base_url min_date pre acc w with
  | (Ok (acc1, false), w1) =>
      InfoSecurityMagazineScraper.process_articles L base_url min_date post acc1 w1
  | r => r
  end.
Proof.
  revert acc w. induction pre as [|article pre IH]; intros acc w;
    cbn [app InfoSecurityMagazineScraper.process_articles].
  - reflexivity.
  - unfold bind.
    destruct (InfoSecurityMagazineScraper.extract_article_details
                L base_url min_date article w) as [[[a|]|e|] w1]; auto.
Qed.

(** The articles the loop over a page adds have all passed the
    validation. *)
Lemma infosec_process_articles_allowed (L : Lib) (base_url : string) (min_date : Date)
  (items : list tag) (acc acc' : list Article) (stop : bool) (w w' : World) :
  InfoSecurityMagazineScraper.process_articles L base_url min_date items acc w
  = (Ok (acc', stop), w') ->
  Forall (fun a => date_allowed min_date (date a)) acc ->
  Forall (fun a => date_allowed min_date (date a)) acc'.
Proof.
  revert acc w. induction items as [|article items IH]; intros acc w;
    cbn [InfoSecurityMagazineScraper.process_articles].
  - unfold ret. now intros [= <- _ _].
  - intros H Hacc. open_bind H. destruct v as [a|].
    + apply (IH _ _ H). apply Forall_app. split; [assumption|].
      constructor; [|constructor]. eapply infosec_details_allowed; eassumption.
    + unfold ret in H. now injection H as <- _ _.
Qed.

(** Every article [InfoSecurityMagazineScraper.scrape] returns has a
    published date that is a string or is not before the cutoff. *)
Lemma infosec_scrape_pages_allowed (L : Lib) (base_url : string) (min_date : Date)
  (fuel : nat) (page_number : Z) (acc result : list Article) (w w' : World) :
  InfoSecurityMagazineScraper.scrape_pages L base_url min_date fuel page_number acc w
  = (Ok result, w') ->
  Forall (fun a => date_allowed min_date (date a)) acc ->
  Forall (fun a => date_allowed min_date (date a)) result.
Proof.
  revert page_number acc w. induction fuel as [|fuel IH]; intros page_number acc w;
    cbn [InfoSecurityMagazineScraper.scrape_pages]; [discriminate|].
  intros H Hacc. open_bind H.
  destruct v as [[|c page_content]|].
  - open_bind H. unfold ret in H. now injection H as <- _.
  - destruct (InfoSecurityMagazineScraper.extract_articles _) as [|item items] eqn:Hitems.
    + open_bind H. unfold ret in H. now injection H as <- _.
    + open_bind H. destruct v as [acc1 stop].
      pose proof (infosec_process_articles_allowed _ _ _ _ _ _ _ _ _ Hrun0 Hacc) as Hacc1.
      destruct stop.
      * unfold ret in H. now injection H as <- _.
      * eapply IH; eassumption.
  - open_bind H. unfold ret in H. now injection H as <- _.
Qed.

Lemma infosec_scrape_allowed (L : Lib) (base_url : string) (min_date : Date)
  (fuel : nat) (result : list Article) (w w' : World) :
  InfoSecurityMagazineScraper.scrape L base_url min_date fuel w = (Ok result, w') ->
  Forall (fun a => date_allowed min_date (date a)) result.
Proof.
  intros H. eapply infosec_scrape_pages_allowed; [exact H|constructor].
Qed.

(** More fuel does not change what a run returns. *)
Lemma infosec_scrape_pages_fuel (L : Lib) (base_url : string) (min_date : Date)
  (fuel extra : nat) (page_number : Z) (acc result : list Article) (w w' : World) :
  InfoSecurityMagazineScraper.scrape_pages L base_url min_date fuel page_number acc w
  = (Ok result, w') ->
  InfoSecurityMagazineScraper.scrape_pages L base_url min_date (fuel + extra)
    page_number acc w = (Ok result, w').
Proof.
  revert page_number acc w. induction fuel as [|fuel IH]; intros page_number acc w;
    cbn [InfoSecurityMagazineScraper.scrape_pages Nat.add]; [discriminate|].
  intros H. open_bind H. rewrite (bind_step _ _ _ _ _ Hrun).
  destruct v as [[|c page_content]|]; try exact H.
  destruct (InfoSecurityMagazineScraper.extract_articles _) as [|item items];
    try exact H.
  open_bind H. rewrite (bind_step _ _ _ _ _ Hrun0).
  destruct v as [acc1 [|]]; [exact H | now apply IH].
Qed.

(** An article [CISAScraper.extract_article_details] returns has passed
    the validation, and so has every article of [CISAScraper.scrape]. *)
Lemma cisa_details_allowed (L : Lib) (min_date : Date)
  (container : tag) (w w' : World) (a : Article) :
  CISAScraper.extract_article_details L min_date container w = (Ok (Some a), w') ->
  date_allowed min_date (date a).
Proof.
  unfold CISAScraper.extract_article_details. intros H.
  open_bind H. open_bind H.
  destruct (valid_truthy (is_article_valid min_date v0)) eqn:Hv; simpl in H;
    [|discriminate].
  do 4 open_bind H. unfold ret in H. injection H as <- _.
  now apply valid_truthy_allowed.
Qed.

Lemma cisa_process_containers_allowed (L : Lib) (min_date : Date)
  (containers : list tag) (acc acc' : list Article) (w w' : World) :
  CISAScraper.process_containers L min_date containers acc w = (Ok acc', w') ->
  Forall (fun a => date_allowed min_date (date a)) acc ->
  Forall (fun a => date_allowed min_date (date a)) acc'.
Proof.
  revert acc w. induction containers as [|container containers IH]; intros acc w;
    cbn [CISAScraper.process_containers].
  - unfold ret. now intros [= <- _].
  - intros H Hacc. open_bind H. destruct v as [a|].
    + apply (IH _ _ H). apply Forall_app. split; [assumption|].
      constructor; [|constructor]. eapply cisa_details_allowed; eassumption.
    + now apply (IH _ _ H).
Qed.

Lemma cisa_scrape_page_allowed (L : Lib) (min_date : Date) (u : string)
  (result : list Article) (w w' : World) :
  CISAScraper.scrape_page L min_date u w = (Ok result, w') ->
  Forall (fun a => date_allowed min_date (date a)) result.
Proof.
  unfold CISAScraper.scrape_page. intros H. open_bind H.
  destruct v as [[|c page_content]|]; try (unfold ret in H; injection H as <- _; constructor).
  destruct (CISAScraper.extract_articles _) as [|container containers].
  - unfold ret in H. injection H as <- _. constructor.
  - eapply cisa_process_containers_allowed; [exact H|constructor].
Qed.

Lemma cisa_scrape_pages_allowed (L : Lib) (base_url : string) (min_date : Date)
  (fuel : nat) (current_page : Z) (acc result : list Article) (w w' : World) :
  CISAScraper.scrape_pages L base_url min_date fuel current_page acc w
  = (Ok result, w') ->
  Forall (fun a => date_allowed min_date (date a)) acc ->
  Forall (fun a => date_allowed min_date (date a)) result.
Proof.
  revert current_page acc w. induction fuel as [|fuel IH]; intros current_page acc w;
    cbn [CISAScraper.scrape_pages]; [discriminate|].
  intros H Hacc. open_bind H.
  pose proof (cisa_scrape_page_allowed _ _ _ _ _ _ Hrun) as Hpage.
  destruct v as [|a page_articles].
  - unfold ret in H. now injection H as <- _.
  - apply (IH _ _ _ H). apply Forall_app. auto.
Qed.

Lemma cisa_details_none (L : Lib) (min_date : Date) (container : tag) (w w' : World) :
  CISAScraper.extract_article_details L min_date container w = (Ok None, w') <->
  exists date_text d,
    extract_text L (Some container) "div.c-teaser__date" "" w = (Ok date_text, w')
    /\ parse_date L (Some date_text) "%b %d, %Y" = Ok d
    /\ valid_truthy (is_article_valid min_date d) = false.
Proof.
  unfold CISAScraper.extract_article_details. split.
  - intros H. open_bind H. open_bind H.
    unfold lift in Hrun0. injection Hrun0 as Hp <-.
    destruct (valid_truthy (is_article_valid min_date v0)) eqn:Hv; simpl in H.
    + do 4 open_bind H. discriminate H.
    + unfold ret in H. injection H as <-. eauto.
  - intros (date_text & d & Ht & Hp & Hv).
    rewrite (bind_step _ _ _ _ _ Ht). unfold bind at 1, lift at 1.
    rewrite Hp, Hv. reflexivity.
Qed.

Lemma cisa_process_containers_app (L : Lib) (min_date : Date)
  (pre post : list tag) (acc : list Article) (w : World) :
  CISAScraper.process_containers L min_date (pre ++ post) acc w =
  match CISAScraper.process_containers L min_date pre acc w with
  | (Ok acc1, w1) => CISAScraper.process_containers L min_date post acc1 w1
  | r => r
  end.
Proof.
  revert acc w. induction pre as [|container pre IH]; intros acc w;
    cbn [app CISAScraper.process_containers].
  - reflexivity.
  - unfold bind.
    destruct (CISAScraper.extract_article_details L min_date container w)
      as [[[a|]|e|] w1]; auto.
Qed.

(** An article [CyberSecurityDiveScraper.extract_article_details] returns
    has passed the validation, and [None] means that the date read on the
    page of the article has failed it. *)
Lemma dive_details_allowed (L : Lib) (base_url : string) (min_date : Date)
  (article : tag) (w w' : World) (a : Article) :
  CyberSecurityDiveScraper.extract_article_details L base_url min_date article w
  = (Ok (Some a), w') ->
  date_allowed min_date (date a).
Proof.
  unfold CyberSecurityDiveScraper.extract_article_details. intros H.
  do 4 open_bind H. destruct v2 as [[article_date content] image].
  destruct (valid_truthy (is_article_valid min_date article_date)) eqn:Hv; simpl in H;
    unfold ret in H; [|discriminate].
  injection H as <- _. now apply valid_truthy_allowed.
Qed.

Lemma dive_details_none (L : Lib) (base_url : string) (min_date : Date)
  (article : tag) (w w' : World) :
  CyberSecurityDiveScraper.extract_article_details L base_url min_date article w
  = (Ok None, w') ->
  exists link w1 article_date content image,
    CyberSecurityDiveScraper.extract_article_content L link w1
      = (Ok (article_date, content, image), w')
    /\ valid_truthy (is_article_valid min_date article_date) = false.
Proof.
  unfold CyberSecurityDiveScraper.extract_article_details. intros H.
  do 4 open_bind H. destruct v2 as [[article_date content] image].
  destruct (valid_truthy (is_article_valid min_date article_date)) eqn:Hv; simpl in H;
    unfold ret in H; [discriminate|].
  injection H as <-. exists v0, w2, article_date, content, image. auto.
Qed.

Lemma dive_process_articles_app (L : Lib) (base_url : string) (min_date : Date)
  (pre post : list tag) (acc : list Article) (w : World) :
  CyberSecurityDiveScraper.process_articles L base_url min_date (pre ++ post) acc w =
  match CyberSecurityDiveScraper.process_articles L base_url min_date pre acc w with
  | (Ok (acc1, false), w1) =>
      CyberSecurityDiveScraper.process_articles L base_url min_date post acc1 w1
  | r => r
  end.
Proof.
  revert acc w. induction pre as [|article pre IH]; intros acc w;
    cbn [app CyberSecurityDiveScraper.process_articles].
  - reflexivity.
  - unfold bind.
    destruct (CyberSecurityDiveScraper.extract_article_details
                L base_url min_date article w) as [[[a|]|e|] w1]; auto.
Qed.

(** C3, as stated, fails for [CISAScraper]: on a page with a stale
    advisory above a fresh one, the stale one fails the validation and the
    fresh one below it is still processed (its page is requested) and
    added. *)
Lemma cisa_scans_past_stale_article :
  let after_listing := {| stdout := []; requests := [(true, Demo.cisa_base)] |} in
  let run := CISAScraper.scrape_page Demo.cisa_lib Demo.cutoff Demo.cisa_base empty_world in
  (exists stale fresh,
     CISAScraper.extract_articles Demo.cisa_listing_tree = [stale; fresh]
     /\ CISAScraper.extract_article_details Demo.cisa_lib Demo.cutoff stale after_listing
        = (Ok None, after_listing))
  /\ (exists a, fst run = Ok [a] /\ title a = "New advisory"
                /\ date a = DDate (ymd2ord 2025 1 10))
  /\ requests (snd run) = [(true, Demo.cisa_base); (true, "https://www.cisa.gov/news/new")].
Proof.
  split; [|split].
  - do 2 eexists. split; vm_compute; reflexivity.
  - eexists. split; [vm_compute; reflexivity|]. split; reflexivity.
  - vm_compute. reflexivity.
Qed.

(** ** The published dates in the output *)

(** C1 at the failing input: on the first page of the Cybersecurity Dive
    site of the examples, [CyberSecurityDiveScraper.scrape] returns the
    hero article, dated 1 January 2020, although the cutoff is 5 January
    2025: [extract_featured_article_details] never validates the date. *)
Theorem dive_scrape_returns_stale_featured_article :
  exists result w',
    CyberSecurityDiveScraper.scrape Demo.dive_lib Demo.dive_base Demo.cutoff 5 empty_world
    = (Ok result, w')
    /\ exists a d, In a result /\ title a = "Old story"
                   /\ date a = DDate d /\ d < Demo.cutoff
                   /\ ~ date_allowed Demo.cutoff (date a).
Proof.
  eexists. eexists. split; [vm_compute; reflexivity|].
  eexists. eexists. split; [left; reflexivity|].
  split; [reflexivity|]. split; [reflexivity|]. split.
  - reflexivity.
  - simpl. vm_compute. intros H. now apply H.
Qed.

(** C10: [is_article_valid] is [True] on every string, whatever the string
    and the cutoff, and [None] (a false value) on [None]; so a date text
    that [strptime] rejects with [ValueError] becomes a value that passes
    the validation, and [InfoSecurityMagazineScraper] does not drop the
    article that carries it. *)
Theorem is_article_valid_accepts_every_string
  (L : Lib) (min_date : Date) (s text format : string) (e : exn)
  (Hfail : strptime L text format = Raise e)
  (Hclass : exn_class e = ValueError) :
  is_article_valid min_date (DStr s) = VBool true
  /\ is_article_valid min_date DNone = VNone
  /\ valid_truthy (is_article_valid min_date DNone) = false
  /\ (exists v, parse_date L (Some text) format = Ok v
                /\ is_article_valid min_date v = VBool true)
  /\ (forall base_url article w w1 w',
        format = "%d %b %Y" ->
        extract_text L (Some article) "time" (@None string) w = (Ok (Some text), w1) ->
        InfoSecurityMagazineScraper.extract_article_details L base_url min_date article w
        <> (Ok None, w')).
Proof.
  pose proof (parse_date_on_value_error L text format e Hfail Hclass) as Hmarker.
  split; [reflexivity|]. split; [reflexivity|]. split; [reflexivity|]. split.
  - exists (DStr "No Date"). split; [assumption|reflexivity].
  - intros base_url article w w1 w' -> Htext Hnone.
    apply infosec_details_none in Hnone as (date_str & d & Ht & Hp & Hv).
    rewrite Htext in Ht. injection Ht as <- _.
    rewrite Hmarker in Hp. injection Hp as <-. discriminate Hv.
Qed.

Lemma is_article_valid_accepts_every_string_witness :
  is_article_valid Demo.cutoff (DStr "3 days ago") = VBool true
  /\ is_article_valid Demo.cutoff DNone = VNone
  /\ exists v, parse_date Demo.infosec_lib (Some "yesterday") "%d %b %Y" = Ok v
               /\ is_article_valid Demo.cutoff v = VBool true.
Proof.
  pose proof (is_article_valid_accepts_every_string Demo.infosec_lib Demo.cutoff
                "3 days ago" "yesterday" "%d %b %Y" _ eq_refl eq_refl)
    as (H1 & H2 & _ & H4 & _).
  split; [exact H1 | split; [exact H2 | exact H4]].
Defined.

(* ================================================================= *)
(** * Further properties of the code *)

(** ** Loops over the articles of a page *)

Lemma for_break_app {T} (details : T -> M (option Article))
  (pre post : list T) (acc : list Article) (w : World) :
  Loop.for_break details (pre ++ post) acc w =
  match Loop.for_break details pre acc w with
  | (Ok (acc1, false), w1) => Loop.for_break details post acc1 w1
  | r => r
  end.
Proof.
  revert acc w. induction pre as [|x pre IH]; intros acc w; cbn [app Loop.for_break].
  - reflexivity.
  - unfold bind. destruct (details x w) as [[[a|]|e|] w1]; auto.
Qed.

(** What holds of every article the body returns holds of every article
    the loop gathers. *)
Lemma for_break_invariant {T} (details : T -> M (option Article)) (P : Article -> Prop) :
  (forall x w a w', details x w = (Ok (Some a), w') -> P a) ->
  forall items acc acc' stop w w',
    Loop.for_break details items acc w = (Ok (acc', stop), w') ->
    Forall P acc -> Forall P acc'.
Proof.
  intros Hd items. induction items as [|x items IH]; intros acc acc' stop w w';
    cbn [Loop.for_break].
  - unfold ret. now intros [= <- _ _].
  - intros H Hacc. open_bind H. destruct v as [a|].
    + apply (IH _ _ _ _ _ H). apply Forall_app. split; [assumption|].
      constructor; [|constructor]. eapply Hd; eassumption.
    + unfold ret in H. now injection H as <- _ _.
Qed.

Lemma for_filter_invariant {T} (details : T -> M (option Article)) (P : Article -> Prop) :
  (forall x w a w', details x w = (Ok (Some a), w') -> P a) ->
  forall items acc acc' w w',
    Loop.for_filter details items acc w = (Ok acc', w') ->
    Forall P acc -> Forall P acc'.
Proof.
  intros Hd items. induction items as [|x items IH]; intros acc acc' w w';
    cbn [Loop.for_filter].
  - unfold ret. now intros [= <- _].
  - intros H Hacc. open_bind H. destruct v as [a|].
    + apply (IH _ _ _ _ H). apply Forall_app. split; [assumption|].
      constructor; [|constructor]. eapply Hd; eassumption.
    + now apply (IH _ _ _ _ H).
Qed.

(** The loop stops at the first element for which the body returns [None]
    and raises what the body raises. *)
Lemma for_break_stops {T} (details : T -> M (option Article))
  (pre post : list T) (x : T) (acc acc1 : list Article) (w w1 w2 : World) :
  Loop.for_break details pre acc w = (Ok (acc1, false), w1) ->
  details x w1 = (Ok None, w2) ->
  Loop.for_break details (pre ++ x :: post) acc w = (Ok (acc1, true), w2).
Proof.
  intros Hpre Hx. rewrite for_break_app, Hpre. cbn [Loop.for_break].
  now rewrite (bind_step _ _ _ _ _ Hx).
Qed.

Lemma for_break_raises {T} (details : T -> M (option Article))
  (pre post : list T) (x : T) (acc acc1 : list Article) (w w1 w2 : World) (e : exn) :
  Loop.for_break details pre acc w = (Ok (acc1, false), w1) ->
  details x w1 = (Raise e, w2) ->
  Loop.for_break details (pre ++ x :: post) acc w = (Raise e, w2).
Proof.
  intros Hpre Hx. rewrite for_break_app, Hpre. cbn [Loop.for_break].
  unfold bind. now rewrite Hx.
Qed.

(** ** The text of an article as a field of the output *)

Lemma replace_comma_no_comma (skip : nat) (s : string) :
  UrlParse.str_forallb (fun c => negb (Ascii.eqb c ","))
    (replace_from "," " " skip s) = true.
Proof.
  revert skip. induction s as [|c s IH]; intros skip; [reflexivity|].
  cbn [replace_from]. destruct skip as [|k]; [|apply IH].
  destruct (String.prefix "," (String c s)) eqn:E.
  - change (Nat.pred (String.length ",")) with O.
    change (" " +++ replace_from "," " " 0 s)
      with (String " " (replace_from "," " " 0 s)).
    cbn [UrlParse.str_forallb]. now rewrite IH.
  - cbn [UrlParse.str_forallb]. rewrite IH, andb_true_r.
    destruct (Ascii.eqb_spec c ",") as [->|]; [|reflexivity].
    simpl in E. destruct s; discriminate E.
Qed.

Lemma join_forallb (p : ascii -> bool) (sep : string) (parts : list string) :
  UrlParse.str_forallb p sep = true ->
  Forall (fun t => UrlParse.str_forallb p t = true) parts ->
  UrlParse.str_forallb p (join sep parts) = true.
Proof.
  intros Hsep. induction 1 as [|t parts Ht Hparts IH]; [reflexivity|].
  cbn [join]. destruct parts as [|t' parts]; [assumption|].
  rewrite !str_forallb_app, Ht, Hsep, IH. reflexivity.
Qed.

Lemma str_filter_keeps_forallb (p q : ascii -> bool) (s : string) :
  UrlParse.str_forallb q s = true ->
  UrlParse.str_forallb q (UrlParse.str_filter p s) = true.
Proof.
  induction s as [|c s IH]; simpl; [reflexivity|].
  intros H. apply andb_prop in H as [Hc Hs].
  destruct (p c); simpl; [rewrite Hc|]; auto.
Qed.

Lemma str_forallb_and (p q : ascii -> bool) (s : string) :
  UrlParse.str_forallb p s = true -> UrlParse.str_forallb q s = true ->
  UrlParse.str_forallb (fun c => p c && q c) s = true.
Proof.
  induction s as [|c s IH]; simpl; [reflexivity|].
  intros Hp Hq. apply andb_prop in Hp as [-> Hp]. apply andb_prop in Hq as [-> Hq].
  simpl. auto.
Qed.

(** X1: the text [extract_content] returns holds printable ASCII
    characters only and no comma, whatever the page: neither a comma nor a
    line break of the page reaches the output through it. *)
Theorem extract_content_has_no_comma (L : Lib) (soup : tag) (selector result : string)
  (Hrun : extract_content L soup selector = Ok result) :
  UrlParse.str_forallb field_char result = true
  /\ contains_chr "," result = false
  /\ contains_chr "010" result = false.
Proof.
  assert (Hfield : UrlParse.str_forallb field_char result = true).
  { unfold field_char. apply str_forallb_and.
    - unfold extract_content in Hrun.
      destruct (select_one L soup selector) as [[d|]| |]; simpl in Hrun;
        try discriminate; injection Hrun as <-; [apply str_filter_forallb|reflexivity].
    - unfold extract_content in Hrun.
      destruct (select_one L soup selector) as [[d|]| |]; simpl in Hrun;
        try discriminate; injection Hrun as <-; [|reflexivity].
      apply str_filter_keeps_forallb, join_forallb; [reflexivity|].
      rewrite fold_process_paragraph. cbn [app]. apply Forall_forall.
      intros t Ht. apply in_map_iff in Ht as (t0 & <- & _).
      apply replace_comma_no_comma. }
  split; [exact Hfield|].
  clear Hrun. induction result as [|c result IH]; [split; reflexivity|].
  cbn [UrlParse.str_forallb] in Hfield. apply andb_prop in Hfield as [Hc Hr].
  destruct (IH Hr) as [IH1 IH2]. cbn [contains_chr]. rewrite IH1, IH2.
  unfold field_char, is_printable in Hc. apply andb_prop in Hc as [Hp Hn].
  split.
  - now destruct (Ascii.eqb c ",").
  - destruct (Ascii.eqb_spec c "010") as [->|]; [discriminate Hp|reflexivity].
Qed.

Lemma extract_content_has_no_comma_witness :
  UrlParse.str_forallb field_char "a b" = true
  /\ contains_chr "," "a b" = false
  /\ contains_chr "010" "a b" = false.
Proof.
  apply (extract_content_has_no_comma Demo.cisa_lib Demo.comma_page "div.content").
  reflexivity.
Defined.

(** ** The helpers that catch every exception *)

(** Looking into a tag sends no request. *)
Lemma selector_helpers_requests (L : Lib) (D : Type) (F : FromStr D) (t : option tag)
  (selector : string) (default : D) (w : World) :
  requests (snd (extract_text L t selector default w)) = requests w.
Proof.
  unfold extract_text, try_except, bind, lift, ret, print.
  destruct (call_select_one L t selector) as [[el|]|e|]; reflexivity.
Qed.

(** X2: [extract_text] and [extract_image] never raise and send no
    request; when the lookup raises (as it does on a tag that is [None])
    they print one line and return the default; and [extract_image] also
    returns the default, with a line printed, when the element it finds has
    none of the attributes it looks for, although no branch of its code
    says so: the unassigned variable raises and the handler catches it. *)
Theorem selector_helpers_never_raise (L : Lib) (D : Type) (F : FromStr D)
  (t : option tag) (selector attribute : string) (default : D) (w : World) :
  (forall e, fst (extract_text L t selector default w) <> Raise e)
  /\ (forall e, fst (extract_image L t selector attribute default w) <> Raise e)
  /\ requests (snd (extract_text L t selector default w)) = requests w
  /\ requests (snd (extract_image L t selector attribute default w)) = requests w
  /\ (forall e, call_select_one L t selector = Raise e ->
        extract_text L t selector default w
        = (Ok default, printed w ("Failed to extract text using selector '" +++ selector
                                  +++ "': " +++ exn_msg e))
        /\ extract_image L t selector attribute default w
           = (Ok default, printed w ("Failed to extract image using selector '"
                                     +++ selector +++ "': " +++ exn_msg e)))
  /\ (forall el,
        call_select_one L t selector = Ok (Some el) ->
        attribute = "src" \/ attr_get attribute (tag_attrs el) = None ->
        attr_get "src" (tag_attrs el) = None ->
        attr_get "data-cfsrc" (tag_attrs el) = None ->
        attr_get "data-srcset" (tag_attrs el) = None ->
        extract_image L t selector attribute default w
        = (Ok default,
           printed w ("Failed to extract image using selector '" +++ selector
                      +++ "': cannot access local variable 'image' where it is not associated with a value"))).
Proof.
  unfold extract_text, extract_image, try_except, bind, lift, ret, print, raise, printed.
  repeat match goal with |- _ /\ _ => split end.
  - intros e. destruct (call_select_one L t selector) as [[el|]|e'|]; discriminate.
  - intros e. destruct (call_select_one L t selector) as [[el|]|e'|]; try discriminate.
    destruct (if negb (attribute =? "src")%string then _ else _); [discriminate|].
    destruct (attr_get "src" _); [discriminate|].
    destruct (attr_get "data-cfsrc" _); [discriminate|].
    destruct (attr_get "data-srcset" _); discriminate.
  - destruct (call_select_one L t selector) as [[el|]|e'|]; reflexivity.
  - destruct (call_select_one L t selector) as [[el|]|e'|]; try reflexivity.
    destruct (if negb (attribute =? "src")%string then _ else _); [reflexivity|].
    destruct (attr_get "src" _); [reflexivity|].
    destruct (attr_get "data-cfsrc" _); [reflexivity|].
    destruct (attr_get "data-srcset" _); reflexivity.
  - intros e ->. split; reflexivity.
  - intros el -> Hattr -> -> ->.
    destruct Hattr as [->| ->]; [reflexivity|].
    destruct (negb (attribute =? "src")%string); reflexivity.
Qed.

Lemma selector_helpers_never_raise_witness :
  extract_image Demo.cisa_lib
    (Some (Demo.document [Demo.el "img" [("alt", "logo")] []])) "img" "src" "none"
    empty_world
  = (Ok "none",
     printed empty_world
       "Failed to extract image using selector 'img': cannot access local variable 'image' where it is not associated with a value").
Proof.
  refine (proj2 (proj2 (proj2 (proj2 (proj2
            (selector_helpers_never_raise Demo.cisa_lib string _
               (Some (Demo.document [Demo.el "img" [("alt", "logo")] []]))
               "img" "src" "none" empty_world)))))
            (Tag "img" [("alt", "logo")] []) eq_refl (or_introl eq_refl)
            eq_refl eq_refl eq_refl).
Defined.

(** ** [calculate_article_date] on every text *)

Lemma span_digits_digits (s ds r : string) :
  span_digits s = (ds, r) -> UrlParse.str_forallb isdigit ds = true.
Proof.
  revert ds r. induction s as [|c s IH]; intros ds r; cbn [span_digits].
  - now intros [= <- _].
  - destruct (isdigit c) eqn:Hc.
    + destruct (span_digits s) as [ds' r']. intros [= <- _].
      cbn [UrlParse.str_forallb]. rewrite Hc. now apply (IH ds' r').
    + now intros [= <- _].
Qed.

Lemma match_unit_in (units : list string) (s u r : string) :
  match_unit units s = Some (u, r) -> In u units.
Proof.
  induction units as [|u' units IH]; cbn [match_unit]; [discriminate|].
  destruct (String.prefix u' s).
  - intros [= <- _]. now left.
  - intros H. right. auto.
Qed.

Lemma match_here_groups (s ds u : string) :
  match_here s = Some (ds, u) ->
  UrlParse.str_forallb isdigit ds = true /\ In u time_units.
Proof.
  unfold match_here. destruct (span_digits s) as [ds' r] eqn:Hspan.
  apply span_digits_digits in Hspan.
  destruct ds' as [|c ds']; [discriminate|].
  destruct (match_unit time_units (lstrip r)) as [[u' r']|] eqn:Hunit; [|discriminate].
  apply match_unit_in in Hunit.
  destruct (_ || _); [|discriminate]. intros [= <- <-]. auto.
Qed.

(** The groups of a match: digits, and one of the seven units. *)
Lemma re_search_groups (s ds u : string) :
  re_search s = Some (ds, u) ->
  UrlParse.str_forallb isdigit ds = true /\ In u time_units.
Proof.
  induction s as [|c s IH]; cbn [re_search].
  - destruct (match_here "") as [[ds' u']|] eqn:E; [|discriminate].
    intros [= -> ->]. now apply match_here_groups in E.
  - destruct (match_here (String c s)) as [[ds' u']|] eqn:E; [|exact IH].
    intros [= -> ->]. now apply match_here_groups in E.
Qed.

Lemma int_of_digits_acc_nonneg (ds : string) (acc : Z) :
  UrlParse.str_forallb isdigit ds = true -> 0 <= acc -> 0 <= int_of_digits_acc ds acc.
Proof.
  revert acc. induction ds as [|c ds IH]; intros acc; cbn [int_of_digits_acc]; [auto|].
  cbn [UrlParse.str_forallb]. intros H Hacc. apply andb_prop in H as [Hc Hds].
  apply IH; [assumption|]. unfold isdigit in Hc. cbv zeta in Hc.
  apply andb_prop in Hc as [Hlo _]. apply N.leb_le in Hlo.
  unfold digit_value. lia.
Qed.

(** A duration built from non-negative quantities is not negative, and
    building a duration raises nothing but [OverflowError]. *)
Lemma mk_timedelta_nonneg (days seconds minutes hours weeks : Z) (td : timedelta) :
  0 <= days -> 0 <= seconds -> 0 <= minutes -> 0 <= hours -> 0 <= weeks ->
  mk_timedelta days seconds minutes hours weeks = Ok td ->
  0 <= td_days td /\ 0 <= td_seconds td < 86400.
Proof.
  intros Hd Hs Hm Hh Hw. unfold mk_timedelta. cbv zeta.
  set (s := seconds + 60 * minutes + 3600 * hours).
  set (d := days + 7 * weeks + s / 86400).
  assert (Hdiv : 0 <= s / 86400) by (apply Z.div_pos; unfold s; lia).
  destruct (Z.abs d <=? 999999999).
  - intros [= <-]. cbv beta iota delta [td_days td_seconds].
    split; [unfold d; lia | apply Z.mod_pos_bound; lia].
  - destruct (_ && _); discriminate.
Qed.

Lemma mk_timedelta_raises (days seconds minutes hours weeks : Z) (e : exn) :
  mk_timedelta days seconds minutes hours weeks = Raise e ->
  exn_class e = OverflowError.
Proof.
  unfold mk_timedelta. cbv zeta.
  destruct (Z.abs _ <=? 999999999); [discriminate|].
  destruct (_ && _); intros [= <-]; reflexivity.
Qed.

Lemma mk_timedelta_returns (days seconds minutes hours weeks : Z) :
  mk_timedelta days seconds minutes hours weeks <> Diverge.
Proof.
  unfold mk_timedelta. cbv zeta.
  destruct (Z.abs _ <=? 999999999); [discriminate|].
  destruct (_ && _); discriminate.
Qed.

Lemma some_eq {A} (a b : A) : Some a = Some b -> a = b.
Proof. now intros [= ->]. Qed.

Ltac open_offset_of u :=
  unfold offset_of;
  repeat match goal with
  | |- context [String.eqb u ?x] => destruct (String.eqb u x)
  end.

Lemma offset_of_nonneg (u : string) (q : Z) (td : timedelta) :
  0 <= q -> offset_of u q = Some (Ok td) ->
  0 <= td_days td /\ 0 <= td_seconds td < 86400.
Proof.
  intros Hq. open_offset_of u; try discriminate;
    intros H; apply some_eq, mk_timedelta_nonneg in H; auto; lia.
Qed.

Lemma offset_of_raises (u : string) (q : Z) (e : exn) :
  offset_of u q = Some (Raise e) -> exn_class e = OverflowError.
Proof.
  open_offset_of u; try discriminate;
    intros H; now apply some_eq, mk_timedelta_raises in H.
Qed.

Lemma offset_of_returns (u : string) (q : Z) :
  offset_of u q <> Some Diverge.
Proof.
  open_offset_of u; try discriminate;
    intros H; now apply some_eq, mk_timedelta_returns in H.
Qed.

(** Going back by a duration that is not negative does not lead forward. *)
Lemma datetime_sub_not_later (today dt : datetime) (td : timedelta) :
  datetime_ok today -> 0 <= td_days td -> 0 <= td_seconds td ->
  datetime_sub today td = Ok dt ->
  MINORDINAL <= dt_date dt <= dt_date today.
Proof.
  intros [_ Hsec] Hd Hs. unfold datetime_sub. cbv zeta.
  set (total := dt_ordinal today * 86400 + dt_second today
                - (td_days td * 86400 + td_seconds td)).
  destruct (Z.leb_spec MINORDINAL (total / 86400)) as [Hlo|]; [|discriminate].
  destruct (total / 86400 <=? MAXORDINAL); [|discriminate].
  cbn [andb]. intros [= <-]. unfold dt_date. cbn [dt_ordinal].
  split; [assumption|].
  assert (total / 86400 < dt_ordinal today + 1); [|lia].
  apply Z.div_lt_upper_bound; [lia|]. unfold total. nia.
Qed.

(** X3: whatever the text, a date [calculate_article_date] returns is a
    date that exists and is not after today's, and the method always
    returns or raises.  On a text of at most 4300 characters (from 4301
    digits on [int] refuses a number, which the model leaves out) it raises
    nothing but [OverflowError], so that the handler of
    [extract_article_details], which catches [ValueError], catches no
    exception of this method. *)
Theorem calculate_article_date_not_in_future (today : datetime) (text : string)
  (Htoday : datetime_ok today) :
  (forall d, calculate_article_date today text = Ok (Some d) ->
     MINORDINAL <= d <= dt_date today)
  /\ ((String.length text <= 4300)%nat ->
      forall e, calculate_article_date today text = Raise e ->
                exn_class e = OverflowError)
  /\ calculate_article_date today text <> Diverge.
Proof.
  unfold calculate_article_date.
  destruct (re_search text) as [[ds u]|] eqn:Hre;
    [|split; [discriminate | split; [intros _ e He|]; discriminate]].
  apply re_search_groups in Hre as [Hds _].
  assert (Hq : 0 <= int ds) by (apply int_of_digits_acc_nonneg; [assumption|lia]).
  destruct (offset_of u (int ds)) as [[td|e'|]|] eqn:Hoff;
    cbn [obind]; try (split; [discriminate | split; [intros _ e He|]; discriminate]).
  - apply offset_of_nonneg in Hoff as [Hd [Hs _]]; [|assumption].
    destruct (datetime_sub today td) as [dt|e'|] eqn:Hsub; cbn [obind].
    + split; [|split; [intros _ e He|]; discriminate]. intros d [= <-].
      eapply datetime_sub_not_later; eassumption.
    + split; [discriminate|]. split; [|discriminate].
      intros _ e [= <-]. unfold datetime_sub in Hsub. cbv zeta in Hsub.
      destruct (_ && _); [discriminate|]. now injection Hsub as <-.
    + unfold datetime_sub in Hsub. cbv zeta in Hsub.
      destruct (_ && _); discriminate.
  - split; [discriminate|]. split; [|discriminate].
    intros _ e [= <-]. eapply offset_of_raises; eassumption.
  - now apply offset_of_returns in Hoff.
Qed.

Lemma calculate_article_date_not_in_future_witness :
  MINORDINAL <= ymd2ord 2025 1 4 <= dt_date noon_5_jan_2025.
Proof.
  assert (Hok : datetime_ok noon_5_jan_2025)
    by (unfold datetime_ok, MINORDINAL, MAXORDINAL; vm_compute; intuition discriminate).
  apply (proj1 (calculate_article_date_not_in_future noon_5_jan_2025
                  "Posted 14 hours ago" Hok)).
  reflexivity.
Defined.

(** ** Hours, minutes and seconds ago *)

Lemma re_search_hours (n : nat) :
  re_search (str_of_nat n +++ " hours ago") = Some (str_of_nat n, "hour").
Proof. apply (re_search_quantity n "hour" "hours ago"); [reflexivity | solve_match_here]. Qed.

Lemma re_search_minutes (n : nat) :
  re_search (str_of_nat n +++ " minutes ago") = Some (str_of_nat n, "minute").
Proof.
  apply (re_search_quantity n "minute" "minutes ago"); [reflexivity | solve_match_here].
Qed.

Lemma re_search_seconds (n : nat) :
  re_search (str_of_nat n +++ " seconds ago") = Some (str_of_nat n, "second").
Proof.
  apply (re_search_quantity n "second" "seconds ago"); [reflexivity | solve_match_here].
Qed.

(** Going back [s] seconds leads to the day in which the instant [s]
    seconds before lies, as long as that day exists. *)
Lemma back_seconds (today : datetime) (seconds minutes hours : Z) :
  datetime_ok today ->
  0 <= seconds -> 0 <= minutes -> 0 <= hours ->
  86400 <= instant today - (seconds + 60 * minutes + 3600 * hours) ->
  obind (mk_timedelta 0 seconds minutes hours 0) (fun delta =>
    obind (datetime_sub today delta) (fun article_date =>
      Ok (Some (dt_date article_date))))
  = Ok (Some ((instant today - (seconds + 60 * minutes + 3600 * hours)) / 86400)).
Proof.
  intros [[Hlo Hhi] Hsec] Hs Hm Hh. unfold instant, MINORDINAL, MAXORDINAL in *.
  unfold mk_timedelta. cbv zeta.
  set (s := seconds + 60 * minutes + 3600 * hours).
  intros Hback.
  assert (Hs0 : 0 <= s) by (unfold s; lia).
  assert (Hdiv : 0 <= s / 86400) by (apply Z.div_pos; lia).
  assert (Hdiv' : s / 86400 < 3652060) by (apply Z.div_lt_upper_bound; lia).
  replace (0 + 7 * 0 + s / 86400) with (s / 86400) by lia.
  destruct (Z.leb_spec (Z.abs (s / 86400)) 999999999) as [_|Habs]; [|lia].
  cbn [obind]. unfold datetime_sub. cbv beta iota zeta delta [td_days td_seconds].
  replace (s / 86400 * 86400 + s mod 86400) with s
    by (rewrite (Z.div_mod s 86400) at 1; lia).
  set (total := dt_ordinal today * 86400 + dt_second today - s) in *.
  assert (H1 : 1 <= total / 86400) by (apply Z.div_le_lower_bound; lia).
  assert (H2 : total / 86400 < 3652060) by (apply Z.div_lt_upper_bound; lia).
  unfold MINORDINAL, MAXORDINAL.
  destruct (Z.leb_spec 1 (total / 86400)); [|lia].
  destruct (Z.leb_spec (total / 86400) 3652059); [|lia].
  reflexivity.
Qed.

(** X4: [<n> hours ago], [<n> minutes ago] and [<n> seconds ago] give the
    date of the instant that lies that long before now: today's date when
    the time gone since midnight covers it, and an earlier date otherwise,
    so that the same text read at another time of day gives another
    date. *)
Theorem calculate_article_date_clock_units (today : datetime) (n : nat)
  (Htoday : datetime_ok today)
  (Hback : 86400 <= instant today - 3600 * Z.of_nat n) :
  calculate_article_date today (str_of_nat n +++ " hours ago")
    = Ok (Some ((instant today - 3600 * Z.of_nat n) / 86400))
  /\ calculate_article_date today (str_of_nat n +++ " minutes ago")
     = Ok (Some ((instant today - 60 * Z.of_nat n) / 86400))
  /\ calculate_article_date today (str_of_nat n +++ " seconds ago")
     = Ok (Some ((instant today - Z.of_nat n) / 86400))
  /\ (3600 * Z.of_nat n <= dt_second today ->
      calculate_article_date today (str_of_nat n +++ " hours ago")
      = Ok (Some (dt_date today)))
  /\ (dt_second today < 3600 * Z.of_nat n <= dt_second today + 86400 ->
      calculate_article_date today (str_of_nat n +++ " hours ago")
      = Ok (Some (dt_date today - 1))).
Proof.
  assert (Hhours : calculate_article_date today (str_of_nat n +++ " hours ago")
                   = Ok (Some ((instant today - 3600 * Z.of_nat n) / 86400))).
  { unfold calculate_article_date. rewrite re_search_hours, int_str_of_nat.
    cbn [offset_of String.eqb Ascii.eqb Bool.eqb].
    rewrite back_seconds; [|assumption|lia..].
    apply (f_equal (fun z => Ok (Some (z / 86400)))). lia. }
  destruct Htoday as [Hord Hsec].
  split; [exact Hhours|]. split; [|split; [|split]].
  - unfold calculate_article_date. rewrite re_search_minutes, int_str_of_nat.
    cbn [offset_of String.eqb Ascii.eqb Bool.eqb].
    rewrite back_seconds; [|split; assumption|lia..].
    apply (f_equal (fun z => Ok (Some (z / 86400)))). lia.
  - unfold calculate_article_date. rewrite re_search_seconds, int_str_of_nat.
    cbn [offset_of String.eqb Ascii.eqb Bool.eqb].
    rewrite back_seconds; [|split; assumption|lia..].
    apply (f_equal (fun z => Ok (Some (z / 86400)))). lia.
  - intros Hn. rewrite Hhours. do 2 f_equal. unfold instant, dt_date.
    symmetry. apply Z.div_unique with (r := dt_second today - 3600 * Z.of_nat n); lia.
  - intros Hn. rewrite Hhours. do 2 f_equal. unfold instant, dt_date.
    symmetry.
    apply Z.div_unique with (r := dt_second today + 86400 - 3600 * Z.of_nat n); lia.
Qed.

Lemma calculate_article_date_clock_units_witness :
  calculate_article_date noon_5_jan_2025 "12 hours ago" = Ok (Some (ymd2ord 2025 1 5))
  /\ calculate_article_date noon_5_jan_2025 "13 hours ago" = Ok (Some (ymd2ord 2025 1 4)).
Proof.
  assert (Hok : datetime_ok noon_5_jan_2025)
    by (unfold datetime_ok, MINORDINAL, MAXORDINAL; vm_compute; intuition discriminate).
  split.
  - apply (calculate_article_date_clock_units noon_5_jan_2025 12 Hok);
      vm_compute; discriminate.
  - apply (calculate_article_date_clock_units noon_5_jan_2025 13 Hok);
      vm_compute; try discriminate. split; [reflexivity|discriminate].
Defined.

(** ** [SecurityWeekScraper]: the controller *)

Lemma bind_lift_ok {A B} (o : outcome A) (k : A -> M B) (a : A) (w : World) :
  o = Ok a -> bind (lift o) k w = k a w.
Proof. now intros ->. Qed.

Lemma bind_raise {A B} (c : M A) (k : A -> M B) (w w1 : World) (e : exn) :
  c w = (Raise e, w1) -> bind c k w = (Raise e, w1).
Proof. unfold bind. now intros ->. Qed.

(** An article [SecurityWeekScraper.extract_article_details] returns has a
    date that is not before the cutoff. *)
Lemma securityweek_details_dated (L : Lib) (base_url : string) (min_date : Date)
  (now : World -> datetime) (article : tag) (w w' : World) (a : Article) :
  SecurityWeek.extract_article_details L base_url min_date now article w
  = (Ok (Some a), w') ->
  dated_from min_date a /\ source a = "SecurityWeek".
Proof.
  unfold SecurityWeek.extract_article_details. intros H.
  do 4 open_bind H. destruct v2 as [d|]; [|discriminate H].
  destruct (valid_truthy (is_article_valid min_date (DDate d))) eqn:Hv; simpl in H;
    [|discriminate H].
  do 2 open_bind H. destruct v3 as [|description content image]; [discriminate H|].
  unfold ret in H. injection H as <- _. split; [|reflexivity].
  exists d. split; [reflexivity|]. now apply Z.leb_le.
Qed.

Lemma securityweek_category_dated (L : Lib) (base_url : string) (min_date : Date)
  (now : World -> datetime) (P : Article -> Prop) (fuel : nat) :
  (forall article w a w',
     SecurityWeek.extract_article_details L base_url min_date now article w
     = (Ok (Some a), w') -> P a) ->
  forall category_url page_count acc result w w',
    SecurityWeek.scrape_category_pages L base_url min_date now fuel category_url
      page_count acc w = (Ok result, w') ->
    Forall P acc -> Forall P result.
Proof.
  intros Hd. induction fuel as [|fuel IH]; intros category_url page_count acc result w w';
    cbn [SecurityWeek.scrape_category_pages]; [discriminate|].
  intros H Hacc. open_bind H.
  destruct v as [[|c page_content]|]; try (unfold ret in H; now injection H as <- _).
  open_bind H. destruct v as [|item items]; [unfold ret in H; now injection H as <- _|].
  open_bind H. destruct v as [acc1 stop].
  pose proof (for_break_invariant _ P Hd _ _ _ _ _ _ Hrun1 Hacc) as Hacc1.
  destruct stop.
  - unfold ret in H. now injection H as <- _.
  - eapply IH; eassumption.
Qed.

Lemma securityweek_categories_dated (L : Lib) (base_url : string) (min_date : Date)
  (now : World -> datetime) (P : Article -> Prop) (fuel : nat) :
  (forall article w a w',
     SecurityWeek.extract_article_details L base_url min_date now article w
     = (Ok (Some a), w') -> P a) ->
  forall cats acc result w w',
    SecurityWeek.scrape_categories L base_url min_date now fuel cats acc w
    = (Ok result, w') ->
    Forall P acc -> Forall P result.
Proof.
  intros Hd cats. induction cats as [|category cats IH]; intros acc result w w';
    cbn [SecurityWeek.scrape_categories].
  - unfold ret. now intros [= <- _].
  - intros H Hacc. open_bind H. apply (IH _ _ _ _ H). apply Forall_app.
    split; [assumption|].
    eapply securityweek_category_dated; [exact Hd | exact Hrun | constructor].
Qed.

(** X5: every article [SecurityWeekScraper.scrape] returns carries a date
    (never the marker ['No Date'] and never [None]) that is not before the
    cutoff, and the source name of the site. *)
Theorem securityweek_scrape_dated (L : Lib) (base_url : string) (min_date : Date)
  (now : World -> datetime) (fuel : nat) (result : list Article) (w w' : World)
  (Hrun : SecurityWeek.scrape L base_url min_date now fuel w = (Ok result, w')) :
  Forall (fun a => dated_from min_date a /\ source a = "SecurityWeek") result.
Proof.
  eapply securityweek_categories_dated; [|exact Hrun|constructor].
  intros article w0 a w0'. apply securityweek_details_dated.
Qed.

Lemma securityweek_scrape_dated_witness :
  Forall (fun a => dated_from Demo.cutoff a /\ source a = "SecurityWeek")
    [ mkArticle "Fresh" "https://www.securityweek.com/fresh/" (DDate (ymd2ord 2025 1 7))
        (TagsStr "ICS/OT") "SecurityWeek" (Some "Excerpt") (Some "") (Some "Body") ].
Proof.
  eapply (securityweek_scrape_dated Examples.securityweek_lib Examples.securityweek_base
            Demo.cutoff Examples.noon_10_jan_2025 3 _ empty_world).
  vm_compute. reflexivity.
Defined.

Lemma securityweek_read_date_fails (L : Lib) (now : World -> datetime)
  (date_text : string) (e : exn) (w : World) :
  re_search date_text = None ->
  strptime L date_text "%B %d, %Y" = Raise e ->
  SecurityWeek.read_date L now date_text w = (Raise e, w).
Proof.
  intros Hre Hstr. unfold SecurityWeek.read_date, lift, calculate_article_date.
  rewrite Hre. cbn [obind]. now rewrite Hstr.
Qed.

(** X6: an item whose date text is neither a relative time nor a date in
    the format [%B %d, %Y] is not kept by [SecurityWeekScraper]: one line
    is printed, [extract_article_details] returns [None] without a
    request, and the loop over the page stops there as it does at a stale
    article; an exception of [strptime] that is not a [ValueError] is
    raised to the caller. *)
Theorem securityweek_drops_unparsable_date (L : Lib) (base_url : string)
  (min_date : Date) (now : World -> datetime) (article : tag)
  (title link date_text : string) (e : exn) (w w1 w2 : World)
  (Htitle : extract_text L (Some article) "h2.zox-s-title2" "No title" w = (Ok title, w1))
  (Hlink : extract_link L (Some article) "a" base_url "No link" = Ok link)
  (Hdate : extract_text L (Some article) "span.zox-byline-date" "No date" w1
           = (Ok date_text, w2))
  (Hrelative : re_search date_text = None)
  (Hstrptime : strptime L date_text "%B %d, %Y" = Raise e) :
  (exn_class e = ValueError ->
   SecurityWeek.extract_article_details L base_url min_date now article w
   = (Ok None, printed w2 ("Error parsing date: " +++ date_text))
   /\ forall pre post acc acc1 w0,
        Loop.for_break (SecurityWeek.extract_article_details L base_url min_date now)
          pre acc w0 = (Ok (acc1, false), w) ->
        Loop.for_break (SecurityWeek.extract_article_details L base_url min_date now)
          (pre ++ article :: post) acc w0
        = (Ok (acc1, true), printed w2 ("Error parsing date: " +++ date_text)))
  /\ (exn_class e <> ValueError ->
      SecurityWeek.extract_article_details L base_url min_date now article w
      = (Raise e, w2)).
Proof.
  pose proof (securityweek_read_date_fails L now date_text e w2 Hrelative Hstrptime)
    as Hread.
  split.
  - intros Hclass.
    assert (Hnone : SecurityWeek.extract_article_details L base_url min_date now article w
                    = (Ok None, printed w2 ("Error parsing date: " +++ date_text))).
    { unfold SecurityWeek.extract_article_details.
      rewrite (bind_step _ _ _ _ _ Htitle), (bind_lift_ok _ _ _ _ Hlink),
        (bind_step _ _ _ _ _ Hdate).
      unfold bind at 1, try_except_ValueError. unfold bind at 1. rewrite Hread, Hclass.
      reflexivity. }
    split; [exact Hnone|].
    intros pre post acc acc1 w0 Hpre. eapply for_break_stops; eassumption.
  - intros Hclass. apply exc_class_eqb_neq in Hclass.
    unfold SecurityWeek.extract_article_details.
    rewrite (bind_step _ _ _ _ _ Htitle), (bind_lift_ok _ _ _ _ Hlink),
      (bind_step _ _ _ _ _ Hdate).
    unfold bind at 1, try_except_ValueError. unfold bind at 1. rewrite Hread, Hclass.
    reflexivity.
Qed.

Lemma securityweek_drops_unparsable_date_witness :
  SecurityWeek.extract_article_details Examples.securityweek_lib
    Examples.securityweek_base Demo.cutoff Examples.noon_10_jan_2025
    (Examples.node_tag Examples.securityweek_undated) empty_world
  = (Ok None, printed empty_world "Error parsing date: yesterday").
Proof.
  eapply (proj1 (securityweek_drops_unparsable_date Examples.securityweek_lib
                   Examples.securityweek_base Demo.cutoff Examples.noon_10_jan_2025
                   (Examples.node_tag Examples.securityweek_undated)
                   "Undated" "https://www.securityweek.com/undated/" "yesterday"
                   _ empty_world empty_world empty_world
                   eq_refl eq_refl eq_refl eq_refl eq_refl)).
  reflexivity.
Defined.

(** X7: when the server answers the request for the page of an article
    with a status other than 200, [SecurityWeekScraper] does not return the
    article without its content: [extract_article_content] returns a pair
    where three values are unpacked, and the [ValueError] that follows is
    raised out of [extract_article_details] and out of the loop over the
    page. *)
Theorem securityweek_failed_fetch_raises (L : Lib) (base_url : string)
  (min_date : Date) (now : World -> datetime) (article : tag)
  (title link date_text category : string) (d : Date) (r : response)
  (w w1 w2 w3 : World)
  (Htitle : extract_text L (Some article) "h2.zox-s-title2" "No title" w = (Ok title, w1))
  (Hlink : extract_link L (Some article) "a" base_url "No link" = Ok link)
  (Hdate : extract_text L (Some article) "span.zox-byline-date" "No date" w1
           = (Ok date_text, w2))
  (Hread : SecurityWeek.read_date L now date_text w2 = (Ok d, w2))
  (Hfresh : min_date <= d)
  (Hcategory : extract_text L (Some article) "h3.zox-s-cat" "" w2 = (Ok category, w3))
  (Hanswer : http_get L (requests w3) true link = Ok r)
  (Hstatus : status_code r <> 200) :
  let unpack := Exn ValueError "not enough values to unpack (expected 3, got 2)" in
  let w4 := printed (sent w3 true link) ("Failed to retrieve " +++ link) in
  SecurityWeek.extract_article_details L base_url min_date now article w
  = (Raise unpack, w4)
  /\ forall pre post acc acc1 w0,
       Loop.for_break (SecurityWeek.extract_article_details L base_url min_date now)
         pre acc w0 = (Ok (acc1, false), w) ->
       Loop.for_break (SecurityWeek.extract_article_details L base_url min_date now)
         (pre ++ article :: post) acc w0 = (Raise unpack, w4).
Proof.
  intros unpack w4.
  assert (Hraise : SecurityWeek.extract_article_details L base_url min_date now article w
                   = (Raise unpack, w4)).
  { unfold SecurityWeek.extract_article_details.
    rewrite (bind_step _ _ _ _ _ Htitle), (bind_lift_ok _ _ _ _ Hlink),
      (bind_step _ _ _ _ _ Hdate).
    unfold bind at 1, try_except_ValueError. unfold bind at 1. rewrite Hread.
    unfold ret at 1. cbn [is_article_valid valid_truthy].
    apply Z.leb_le in Hfresh. rewrite Hfresh. cbn [negb].
    rewrite (bind_step _ _ _ _ _ Hcategory).
    unfold SecurityWeek.extract_article_content, fetch_page_content, send.
    unfold bind. rewrite Hanswer.
    apply Z.eqb_neq in Hstatus. rewrite Hstatus. reflexivity. }
  split; [exact Hraise|].
  intros pre post acc acc1 w0 Hpre. eapply for_break_raises; eassumption.
Qed.

Lemma securityweek_failed_fetch_raises_witness :
  SecurityWeek.extract_article_details Examples.securityweek_lib
    Examples.securityweek_base Demo.cutoff Examples.noon_10_jan_2025
    (Examples.node_tag Examples.securityweek_gone) empty_world
  = (Raise (Exn ValueError "not enough values to unpack (expected 3, got 2)"),
     printed (sent empty_world true "https://www.securityweek.com/gone/")
             "Failed to retrieve https://www.securityweek.com/gone/").
Proof.
  eapply (proj1 (securityweek_failed_fetch_raises Examples.securityweek_lib
                   Examples.securityweek_base Demo.cutoff Examples.noon_10_jan_2025
                   (Examples.node_tag Examples.securityweek_gone)
                   "Gone" "https://www.securityweek.com/gone/" "2 hours ago" "ICS/OT"
                   (ymd2ord 2025 1 10) {| status_code := 404; text := "Not Found" |}
                   empty_world empty_world empty_world empty_world
                   eq_refl eq_refl eq_refl eq_refl _ eq_refl eq_refl _)).
  Unshelve.
  - vm_compute. discriminate.
  - vm_compute. discriminate.
Defined.

(** ** The controllers with a per-page loop *)

Ltac returned_early H :=
  repeat open_bind H; unfold ret in H; injection H as <- _; assumption.

Lemma securityaffairs_details_allowed (L : Lib) (base_url : string) (min_date : Date)
  (article : tag) (w w' : World) (a : Article) :
  SecurityAffairsScraper.extract_article_details L base_url min_date article w
  = (Ok (Some a), w') ->
  date_allowed min_date (date a) /\ source a = "Security Affairs".
Proof.
  unfold SecurityAffairsScraper.extract_article_details. intros H. open_bind H.
  destruct (valid_truthy (is_article_valid min_date v)) eqn:Hv; simpl in H;
    [|discriminate H].
  do 4 open_bind H. unfold ret in H. injection H as <- _.
  split; [now apply valid_truthy_allowed | reflexivity].
Qed.

Lemma securityaffairs_pages_invariant (L : Lib) (base_url : string) (min_date : Date)
  (P : Article -> Prop) (fuel : nat) :
  (forall article w a w',
     SecurityAffairsScraper.extract_article_details L base_url min_date article w
     = (Ok (Some a), w') -> P a) ->
  forall page_number acc result w w',
    SecurityAffairsScraper.scrape_pages L base_url min_date fuel page_number acc w
    = (Ok result, w') ->
    Forall P acc -> Forall P result.
Proof.
  intros Hd. induction fuel as [|fuel IH]; intros page_number acc result w w';
    cbn [SecurityAffairsScraper.scrape_pages]; [discriminate|].
  intros H Hacc. open_bind H.
  destruct v as [[|c page_content]|]; try returned_early H.
  destruct (SecurityAffairsScraper.extract_articles _) as [|item items];
    [returned_early H|].
  open_bind H. destruct v as [acc1 stop].
  pose proof (for_break_invariant _ P Hd _ _ _ _ _ _ Hrun0 Hacc) as Hacc1.
  destruct stop; [unfold ret in H; now injection H as <- _ | eapply IH; eassumption].
Qed.

Lemma tripwire_details_allowed (L : Lib) (base_url : string) (min_date : Date)
  (article : tag) (w w' : World) (a : Article) :
  TripWireScraper.extract_article_details L base_url min_date article w
  = (Ok (Some a), w') ->
  date_allowed min_date (date a) /\ source a = "Tripwire".
Proof.
  unfold TripWireScraper.extract_article_details. intros H. open_bind H.
  destruct (valid_truthy (is_article_valid min_date v)) eqn:Hv; simpl in H;
    [|discriminate H].
  do 6 open_bind H. unfold ret in H. injection H as <- _.
  split; [now apply valid_truthy_allowed | reflexivity].
Qed.

Lemma tripwire_pages_invariant (L : Lib) (base_url : string) (min_date : Date)
  (P : Article -> Prop) (fuel : nat) :
  (forall article w a w',
     TripWireScraper.extract_article_details L base_url min_date article w
     = (Ok (Some a), w') -> P a) ->
  forall page_index acc result w w',
    TripWireScraper.scrape_pages L base_url min_date fuel page_index acc w
    = (Ok result, w') ->
    Forall P acc -> Forall P result.
Proof.
  intros Hd. induction fuel as [|fuel IH]; intros page_index acc result w w';
    cbn [TripWireScraper.scrape_pages]; [discriminate|].
  intros H Hacc. open_bind H.
  destruct v as [[|c page_content]|]; try returned_early H.
  destruct (TripWireScraper.extract_articles _) as [|item items];
    [returned_early H|].
  open_bind H. destruct v as [acc1 stop].
  pose proof (for_break_invariant _ P Hd _ _ _ _ _ _ Hrun0 Hacc) as Hacc1.
  destruct stop; [unfold ret in H; now injection H as <- _ | eapply IH; eassumption].
Qed.

Lemma sectrio_details_allowed (L : Lib) (base_url : string) (min_date : Date)
  (article : tag) (w w' : World) (a : Article) :
  SectrioScraper.extract_article_details L base_url min_date article w
  = (Ok (Some a), w') ->
  date_allowed min_date (date a) /\ source a = "Sectrio".
Proof.
  unfold SectrioScraper.extract_article_details. intros H. do 4 open_bind H.
  destruct v2 as [[[article_date content] image]|]; [|discriminate H].
  destruct (valid_truthy (is_article_valid min_date article_date)) eqn:Hv; simpl in H;
    [|discriminate H].
  unfold ret in H. injection H as <- _.
  split; [now apply valid_truthy_allowed | reflexivity].
Qed.

Lemma sectrio_pages_invariant (L : Lib) (base_url : string) (min_date : Date)
  (P : Article -> Prop) (fuel : nat) :
  (forall article w a w',
     SectrioScraper.extract_article_details L base_url min_date article w
     = (Ok (Some a), w') -> P a) ->
  forall current_url current_page acc result w w',
    SectrioScraper.scrape_pages L base_url min_date fuel current_url current_page acc w
    = (Ok result, w') ->
    Forall P acc -> Forall P result.
Proof.
  intros Hd. induction fuel as [|fuel IH];
    intros current_url current_page acc result w w';
    cbn [SectrioScraper.scrape_pages]; [discriminate|].
  intros H Hacc. open_bind H.
  destruct v as [[|c page_content]|]; try returned_early H.
  destruct (SectrioScraper.extract_articles _) as [|item items];
    [returned_early H|].
  open_bind H. destruct v as [acc1 stop].
  pose proof (for_break_invariant _ P Hd _ _ _ _ _ _ Hrun0 Hacc) as Hacc1.
  destruct stop; [unfold ret in H; now injection H as <- _ | eapply IH; eassumption].
Qed.

Lemma scadafence_details_allowed (L : Lib) (base_url : string) (min_date : Date)
  (article : tag) (w w' : World) (a : Article) :
  SCADAfenceScraper.extract_article_details L base_url min_date article w
  = (Ok (Some a), w') ->
  date_allowed min_date (date a) /\ source a = "SCADAfence".
Proof.
  unfold SCADAfenceScraper.extract_article_details. intros H. open_bind H.
  destruct (valid_truthy (is_article_valid min_date v)) eqn:Hv; simpl in H;
    [|discriminate H].
  do 4 open_bind H. unfold ret in H. injection H as <- _.
  split; [now apply valid_truthy_allowed | reflexivity].
Qed.

(** X9: every article returned by the [scrape] method of
    [SecurityAffairsScraper], [TripWireScraper], [SectrioScraper] and
    [SCADAfenceScraper] has passed the validation of its date (the date is
    a string or is not before the cutoff) and carries the source name of
    its site. *)
Theorem controllers_return_validated_articles (L : Lib) (base_url : string)
  (min_date : Date) (result : list Article) (w w' : World) :
  (forall fuel,
     SecurityAffairsScraper.scrape L base_url min_date fuel w = (Ok result, w') ->
     Forall (fun a => date_allowed min_date (date a) /\ source a = "Security Affairs")
       result)
  /\ (forall fuel,
        TripWireScraper.scrape L base_url min_date fuel w = (Ok result, w') ->
        Forall (fun a => date_allowed min_date (date a) /\ source a = "Tripwire") result)
  /\ (forall fuel,
        SectrioScraper.scrape L base_url min_date fuel w = (Ok result, w') ->
        Forall (fun a => date_allowed min_date (date a) /\ source a = "Sectrio") result)
  /\ (SCADAfenceScraper.scrape L base_url min_date w = (Ok result, w') ->
      Forall (fun a => date_allowed min_date (date a) /\ source a = "SCADAfence") result).
Proof.
  split; [|split; [|split]].
  - intros fuel H.
    eapply securityaffairs_pages_invariant; [|exact H|constructor].
    intros article wa a wb. apply securityaffairs_details_allowed.
  - intros fuel H.
    eapply tripwire_pages_invariant; [|exact H|constructor].
    intros article wa a wb. apply tripwire_details_allowed.
  - intros fuel H.
    eapply sectrio_pages_invariant; [|exact H|constructor].
    intros article wa a wb. apply sectrio_details_allowed.
  - unfold SCADAfenceScraper.scrape. intros H. open_bind H.
    destruct v as [[|c page_content]|];
      try (unfold ret in H; injection H as <- _; constructor).
    eapply for_filter_invariant; [|exact H|constructor].
    intros article wa a wb. apply scadafence_details_allowed.
Qed.

Lemma controllers_return_validated_articles_witness :
  exists result w',
    SecurityAffairsScraper.scrape Examples.securityaffairs_lib
      Examples.securityaffairs_base Demo.cutoff 3 empty_world = (Ok result, w')
    /\ List.length result = 1%nat
    /\ Forall (fun a => date_allowed Demo.cutoff (date a) /\ source a = "Security Affairs")
         result.
Proof.
  eexists. eexists. split; [vm_compute; reflexivity|]. split; [reflexivity|].
  eapply (proj1 (controllers_return_validated_articles Examples.securityaffairs_lib
                   Examples.securityaffairs_base Demo.cutoff _ empty_world _) 3%nat).
  vm_compute. reflexivity.
Defined.

(** ** [SecurityAffairsScraper]: an article without a date *)

(** X10: in [SecurityAffairsScraper] an article that has no date line, or a
    date line with fewer than two [span] elements, gets the date [None],
    which fails the validation: the article is not returned, nothing is
    printed or requested for it, and the loop over the page stops there,
    so that the articles after it are not looked at. *)
Theorem securityaffairs_undated_article_stops (L : Lib) (base_url : string)
  (min_date : Date) (article : tag) (w : World)
  (Hundated :
     match find_class article "div" "post-time mb-3" with
     | None => True
     | Some date_container => (List.length (find_all date_container ["span"]) <= 1)%nat
     end) :
  SecurityAffairsScraper.extract_article_date L
    (find_class article "div" "post-time mb-3") = Ok DNone
  /\ SecurityAffairsScraper.extract_article_details L base_url min_date article w
     = (Ok None, w)
  /\ forall pre post acc acc1 w0,
       Loop.for_break (SecurityAffairsScraper.extract_article_details L base_url min_date)
         pre acc w0 = (Ok (acc1, false), w) ->
       Loop.for_break (SecurityAffairsScraper.extract_article_details L base_url min_date)
         (pre ++ article :: post) acc w0 = (Ok (acc1, true), w).
Proof.
  assert (Hdate : SecurityAffairsScraper.extract_article_date L
                    (find_class article "div" "post-time mb-3") = Ok DNone).
  { unfold SecurityAffairsScraper.extract_article_date.
    destruct (find_class article "div" "post-time mb-3") as [c|]; [|reflexivity].
    destruct (find_all c ["span"]) as [|s1 [|s2 rest]]; try reflexivity.
    simpl in Hundated. lia. }
  assert (Hnone : SecurityAffairsScraper.extract_article_details L base_url min_date
                    article w = (Ok None, w)).
  { unfold SecurityAffairsScraper.extract_article_details.
    rewrite (bind_lift_ok _ _ _ _ Hdate). reflexivity. }
  split; [exact Hdate|]. split; [exact Hnone|].
  intros pre post acc acc1 w0 Hpre. eapply for_break_stops; eassumption.
Qed.

Lemma securityaffairs_undated_article_stops_witness :
  exists first undated third a w',
    SecurityAffairsScraper.extract_articles Examples.securityaffairs_listing_tree
      = [first] ++ undated :: [third]
    /\ Loop.for_break
         (SecurityAffairsScraper.extract_article_details Examples.securityaffairs_lib
            Examples.securityaffairs_base Demo.cutoff)
         ([first] ++ undated :: [third]) [] empty_world
       = (Ok ([a], true), w')
    /\ requests w' = [(false, "https://securityaffairs.com/1/first.html")].
Proof.
  do 5 eexists. split; [vm_compute; reflexivity|]. split.
  - eapply (proj2 (proj2 (securityaffairs_undated_article_stops
                            Examples.securityaffairs_lib Examples.securityaffairs_base
                            Demo.cutoff _ _ _))).
    vm_compute. reflexivity.
  - reflexivity.
  Unshelve. vm_compute. lia.
Defined.

(** ** [TripWireScraper]: the date pattern *)

Lemma str_app_assoc (a b c : string) : (a +++ b) +++ c = a +++ b +++ c.
Proof. induction a as [|x a IH]; simpl; [reflexivity|]. now rewrite IH. Qed.

Lemma take_digits_spec (n : nat) (s ds r : string) :
  TripWireScraper.take_digits n s = Some (ds, r) -> digits n ds /\ s = ds +++ r.
Proof.
  revert s ds r. induction n as [|n IH]; intros s ds r; cbn [TripWireScraper.take_digits].
  - intros [= <- <-]. repeat split.
  - destruct s as [|c s]; [discriminate|].
    destruct (isdigit c) eqn:Hc; [|discriminate].
    destruct (TripWireScraper.take_digits n s) as [[ds' r']|] eqn:E; [|discriminate].
    intros [= <- <-]. apply IH in E as [[Hlen Hds] ->].
    unfold digits. cbn [String.length UrlParse.str_forallb]. rewrite Hc, Hds, Hlen.
    repeat split.
Qed.

Lemma take_digits_complete (n : nat) (ds r : string) :
  digits n ds -> TripWireScraper.take_digits n (ds +++ r) = Some (ds, r).
Proof.
  revert ds. induction n as [|n IH]; intros ds [Hlen Hds].
  - destruct ds; [reflexivity|discriminate].
  - destruct ds as [|c ds]; [discriminate|].
    cbn [String.length] in Hlen. cbn [UrlParse.str_forallb] in Hds.
    apply andb_prop in Hds as [Hc Hds].
    cbn [String.append TripWireScraper.take_digits]. rewrite Hc, IH; [reflexivity|].
    split; [lia|assumption].
Qed.

Lemma take_slash_spec (s r : string) :
  TripWireScraper.take_slash s = Some r -> s = "/" +++ r.
Proof.
  unfold TripWireScraper.take_slash. destruct s as [|c s]; [discriminate|].
  destruct (Ascii.eqb_spec c "/") as [->|Hne].
  - now intros [= <-].
  - destruct c as [[] [] [] [] [] [] [] []]; try discriminate. now elim Hne.
Qed.

Lemma tripwire_match_here_spec (s m : string) :
  TripWireScraper.match_here s = Some m ->
  date_shape m /\ exists post, s = m +++ post.
Proof.
  unfold TripWireScraper.match_here.
  destruct (TripWireScraper.take_digits 2 s) as [[mm r1]|] eqn:E1; [|discriminate].
  destruct (TripWireScraper.take_slash r1) as [r2|] eqn:E2; [|discriminate].
  destruct (TripWireScraper.take_digits 2 r2) as [[dd r3]|] eqn:E3; [|discriminate].
  destruct (TripWireScraper.take_slash r3) as [r4|] eqn:E4; [|discriminate].
  destruct (TripWireScraper.take_digits 4 r4) as [[yyyy r5]|] eqn:E5; [|discriminate].
  intros [= <-].
  apply take_digits_spec in E1 as [H1 ->]. apply take_slash_spec in E2 as ->.
  apply take_digits_spec in E3 as [H3 ->]. apply take_slash_spec in E4 as ->.
  apply take_digits_spec in E5 as [H5 ->].
  split.
  - exists mm, dd, yyyy. auto.
  - exists r5. repeat (first [rewrite str_app_assoc | progress cbn [String.append]]). reflexivity.
Qed.

Lemma tripwire_match_here_complete (m post : string) :
  date_shape m -> TripWireScraper.match_here (m +++ post) = Some m.
Proof.
  intros (mm & dd & yyyy & H1 & H2 & H3 & ->).
  unfold TripWireScraper.match_here.
  rewrite !str_app_assoc.
  rewrite (take_digits_complete 2 mm _ H1).
  cbn [String.append TripWireScraper.take_slash].
  rewrite (take_digits_complete 2 dd _ H2).
  cbn [String.append TripWireScraper.take_slash].
  rewrite (take_digits_complete 4 yyyy _ H3).
  reflexivity.
Qed.

Lemma tripwire_re_search_sound (s m : string) :
  TripWireScraper.re_search s = Some m ->
  date_shape m /\ exists pre post, s = pre +++ m +++ post.
Proof.
  revert m. induction s as [|c s IH]; intros m; cbn [TripWireScraper.re_search].
  - destruct (TripWireScraper.match_here "") as [m'|] eqn:E; [|discriminate].
    intros [= ->]. apply tripwire_match_here_spec in E as [Hm [post Hs]].
    split; [assumption|]. exists "", post. exact Hs.
  - destruct (TripWireScraper.match_here (String c s)) as [m'|] eqn:E.
    + intros [= ->]. apply tripwire_match_here_spec in E as [Hm [post Hs]].
      split; [assumption|]. exists "", post. exact Hs.
    + intros H. apply IH in H as [Hm (pre & post & ->)].
      split; [assumption|]. exists (String c pre), post. reflexivity.
Qed.

(** X11: the search for [\d{2}/\d{2}/\d{4}] in [TripWireScraper] returns a
    text only if it has the shape of two digits, a slash, two digits, a
    slash and four digits and stands somewhere in the text searched;
    it finds a text of that shape wherever one stands, and returns it when
    the text searched starts with it. *)
Theorem tripwire_date_pattern (s : string) :
  (forall m, TripWireScraper.re_search s = Some m ->
     date_shape m /\ exists pre post, s = pre +++ m +++ post)
  /\ (forall pre m post, s = pre +++ m +++ post -> date_shape m ->
        TripWireScraper.re_search s <> None)
  /\ (forall m post, s = m +++ post -> date_shape m ->
        TripWireScraper.re_search s = Some m).
Proof.
  split; [|split].
  - intros m. apply tripwire_re_search_sound.
  - intros pre m post -> Hm. induction pre as [|c pre IH].
    + cbn [String.append].
      destruct (m +++ post) eqn:E; cbn [TripWireScraper.re_search]; rewrite <- E;
        now rewrite (tripwire_match_here_complete m post Hm).
    + cbn [String.append TripWireScraper.re_search].
      destruct (TripWireScraper.match_here _); [discriminate|exact IH].
  - intros m post -> Hm.
    destruct (m +++ post) eqn:E; cbn [TripWireScraper.re_search]; rewrite <- E;
      now rewrite (tripwire_match_here_complete m post Hm).
Qed.

Lemma tripwire_date_pattern_witness :
  TripWireScraper.re_search "Posted on 01/08/2025 by Ann" = Some "01/08/2025"
  /\ date_shape "01/08/2025".
Proof.
  split; [reflexivity|].
  apply (proj1 (tripwire_date_pattern "Posted on 01/08/2025 by Ann") "01/08/2025").
  reflexivity.
Defined.

(** X12: what [TripWireScraper] makes of the date line of an article: with
    no date line the date is the marker ['No Date'], which passes the
    validation, so the article is never dropped for its date; with a date
    line in which no text of the shape [dd/dd/dddd] stands, the call of
    [group] on the failed search raises [AttributeError] out of
    [extract_article_details], before anything is printed or requested. *)
Theorem tripwire_date_line (L : Lib) (base_url : string) (min_date : Date)
  (article : tag) (w : World) :
  (find_class article "div" "node--submitted" = None ->
   TripWireScraper.extract_article_date L (find_class article "div" "node--submitted")
   = Ok (DStr "No Date")
   /\ forall w', TripWireScraper.extract_article_details L base_url min_date article w
                 <> (Ok None, w'))
  /\ (forall date_container,
        find_class article "div" "node--submitted" = Some date_container ->
        (forall pre m post, get_text_strip date_container = pre +++ m +++ post ->
                            ~ date_shape m) ->
        TripWireScraper.extract_article_details L base_url min_date article w
        = (Raise (attribute_error_none "group"), w)).
Proof.
  split.
  - intros Hnone. rewrite Hnone. split; [reflexivity|].
    intros w' H. unfold TripWireScraper.extract_article_details in H.
    rewrite Hnone in H. cbn [TripWireScraper.extract_article_date] in H.
    rewrite (bind_lift_ok _ _ (DStr "No Date") _ eq_refl) in H.
    cbn [is_article_valid valid_truthy negb] in H.
    do 6 open_bind H. discriminate H.
  - intros c Hc Hshape. unfold TripWireScraper.extract_article_details.
    rewrite Hc. cbn [TripWireScraper.extract_article_date].
    destruct (TripWireScraper.re_search (get_text_strip c)) as [m|] eqn:E.
    + apply tripwire_re_search_sound in E as [Hm (pre & post & Hs)].
      now elim (Hshape pre m post Hs).
    + reflexivity.
Qed.

Lemma tripwire_date_line_witness :
  TripWireScraper.extract_article_date Examples.tripwire_lib
    (find_class (Examples.node_tag Examples.tripwire_bare) "div" "node--submitted")
  = Ok (DStr "No Date").
Proof.
  apply (proj1 (tripwire_date_line Examples.tripwire_lib Examples.tripwire_base
                  Demo.cutoff (Examples.node_tag Examples.tripwire_bare) empty_world)).
  reflexivity.
Defined.

(** ** [SCADAfenceScraper]: one page, every post looked at *)

Lemma for_filter_app {T} (details : T -> M (option Article))
  (pre post : list T) (acc : list Article) (w : World) :
  Loop.for_filter details (pre ++ post) acc w =
  match Loop.for_filter details pre acc w with
  | (Ok acc1, w1) => Loop.for_filter details post acc1 w1
  | r => r
  end.
Proof.
  revert acc w. induction pre as [|x pre IH]; intros acc w; cbn [app Loop.for_filter].
  - reflexivity.
  - unfold bind. destruct (details x w) as [[[a|]|e|] w1]; auto.
Qed.

(** X13: the loop of [SCADAfenceScraper.scrape] does not stop at a post
    whose date fails the validation: it goes on with the posts after it,
    with the articles gathered so far.  A post without a [div] of class
    [date] is another matter: [get_text] is called on [None], and the
    [AttributeError] ends the loop and the whole [scrape], the articles
    gathered so far with it. *)
Theorem scadafence_skips_stale_and_raises_on_undated (L : Lib) (base_url : string)
  (min_date : Date) (pre post : list tag) (article : tag)
  (acc acc1 : list Article) (w w1 : World)
  (Hpre : Loop.for_filter (SCADAfenceScraper.extract_article_details L base_url min_date)
            pre acc w = (Ok acc1, w1)) :
  (forall date_tag d,
     find_class article "div" "date" = Some date_tag ->
     parse_date L (Some (get_text_strip date_tag)) "%B %d, %Y" = Ok d ->
     valid_truthy (is_article_valid min_date d) = false ->
     Loop.for_filter (SCADAfenceScraper.extract_article_details L base_url min_date)
       (pre ++ article :: post) acc w
     = Loop.for_filter (SCADAfenceScraper.extract_article_details L base_url min_date)
         post acc1 w1)
  /\ (find_class article "div" "date" = None ->
      SCADAfenceScraper.extract_article_details L base_url min_date article w1
      = (Raise (attribute_error_none "get_text"), w1)
      /\ Loop.for_filter (SCADAfenceScraper.extract_article_details L base_url min_date)
           (pre ++ article :: post) acc w
         = (Raise (attribute_error_none "get_text"), w1)).
Proof.
  split.
  - intros date_tag d Htag Hparse Hstale.
    rewrite for_filter_app, Hpre. cbn [Loop.for_filter].
    unfold SCADAfenceScraper.extract_article_details at 1.
    rewrite Htag, (bind_step _ _ w1 w1 None); [reflexivity|].
    rewrite (bind_lift_ok _ _ _ _ Hparse), Hstale. reflexivity.
  - intros Hnone.
    assert (Hraise : SCADAfenceScraper.extract_article_details L base_url min_date
                       article w1 = (Raise (attribute_error_none "get_text"), w1)).
    { unfold SCADAfenceScraper.extract_article_details. now rewrite Hnone. }
    split; [exact Hraise|].
    rewrite for_filter_app, Hpre. cbn [Loop.for_filter].
    now rewrite (bind_raise _ _ _ _ _ Hraise).
Qed.

Lemma scadafence_skips_stale_and_raises_on_undated_witness :
  Loop.for_filter
    (SCADAfenceScraper.extract_article_details Examples.scadafence_lib
       Examples.scadafence_base Demo.cutoff)
    ([] ++ Examples.node_tag Examples.scadafence_undated
        :: [Examples.node_tag Examples.scadafence_fresh]) [] empty_world
  = (Raise (attribute_error_none "get_text"), empty_world).
Proof.
  eapply (proj2 (scadafence_skips_stale_and_raises_on_undated Examples.scadafence_lib
                   Examples.scadafence_base Demo.cutoff [] _ _ [] [] empty_world
                   empty_world eq_refl)).
  reflexivity.
Defined.

(** ** [SectrioScraper]: the page of an article *)

(** X14: [SectrioScraper] reads the date of an article on the page of the
    article, and has no way on when that page gives none.  When the server
    answers the request for the page with a status other than 200,
    [extract_article_content] returns [None], which cannot be unpacked:
    [TypeError] is raised.  When the page has no [meta] element for the
    time of publication, or one without a [content] attribute, one line is
    printed and the variable [parsed_date] is returned unassigned:
    [UnboundLocalError] is raised, after the content and the image were
    extracted. *)
Theorem sectrio_article_page_errors (L : Lib) (base_url : string) (min_date : Date)
  (article : tag) (title link description : string) (w w1 w2 : World)
  (Htitle : extract_text L (Some article) "h3.elementor-post__title a" "No Title" w
            = (Ok title, w1))
  (Hlink : extract_link L (Some article) "h3.elementor-post__title a" base_url ""
           = Ok link)
  (Hdescription : extract_text L (Some article) "div.elementor-post__excerpt p"
                    "No Description" w1 = (Ok description, w2)) :
  (forall r,
     http_get L (requests w2) false link = Ok r -> status_code r <> 200 ->
     SectrioScraper.extract_article_details L base_url min_date article w
     = (Raise (Exn TypeError "cannot unpack non-iterable NoneType object"),
        printed (sent w2 false link) ("Failed to retrieve " +++ link)))
  /\ (forall r content image w3,
        http_get L (requests w2) false link = Ok r -> status_code r = 200 ->
        text r <> EmptyString ->
        match find_attr (parse_html L (text r)) "meta" "property"
                "article:published_time" with
        | Some meta_tag => attr_get "content" (tag_attrs meta_tag) = None
        | None => True
        end ->
        extract_content L (parse_html L (text r)) "div.bialty-container" = Ok content ->
        extract_image L (Some (parse_html L (text r)))
          "figure.wp-block-image.size-large img" "data-src" ""
          (printed (sent w2 false link) "Published time not found.") = (Ok image, w3) ->
        SectrioScraper.extract_article_details L base_url min_date article w
        = (Raise (SectrioScraper.unbound_local "parsed_date"), w3)).
Proof.
  split.
  - intros r Hanswer Hstatus. unfold SectrioScraper.extract_article_details.
    rewrite (bind_step _ _ _ _ _ Htitle), (bind_lift_ok _ _ _ _ Hlink),
      (bind_step _ _ _ _ _ Hdescription).
    unfold SectrioScraper.extract_article_content, fetch_page_content, send.
    unfold bind. rewrite Hanswer.
    apply Z.eqb_neq in Hstatus. rewrite Hstatus. reflexivity.
  - intros r content image w3 Hanswer Hstatus Hbody Hmeta Hcontent Himage.
    unfold SectrioScraper.extract_article_details.
    rewrite (bind_step _ _ _ _ _ Htitle), (bind_lift_ok _ _ _ _ Hlink),
      (bind_step _ _ _ _ _ Hdescription).
    assert (Hfetch : fetch_page_content L link false w2
                     = (Ok (Some (text r)), sent w2 false link)).
    { unfold fetch_page_content, send, bind. rewrite Hanswer.
      apply Z.eqb_eq in Hstatus. now rewrite Hstatus. }
    apply bind_raise. unfold SectrioScraper.extract_article_content.
    rewrite (bind_step _ _ _ _ _ Hfetch).
    destruct (text r) as [|c body] eqn:Hr; [contradiction|].
    set (soup := parse_html L (String c body)) in *.
    assert (Hnotime :
      match find_attr soup "meta" "property" "article:published_time" with
      | Some meta_tag => attr_get "content" (tag_attrs meta_tag)
      | None => None
      end = None).
    { destruct (find_attr soup "meta" "property" "article:published_time"); auto. }
    rewrite Hnotime.
    rewrite (bind_step _ _ (sent w2 false link)
               (printed (sent w2 false link) "Published time not found.") None);
      [|reflexivity].
    rewrite (bind_lift_ok _ _ _ _ Hcontent), (bind_step _ _ _ _ _ Himage).
    reflexivity.
Qed.

Lemma sectrio_article_page_errors_witness :
  SectrioScraper.extract_article_details Examples.sectrio_lib Examples.sectrio_base
    Demo.cutoff (Examples.node_tag Examples.sectrio_gone) empty_world
  = (Raise (Exn TypeError "cannot unpack non-iterable NoneType object"),
     printed (sent empty_world false "https://sectrio.com/blog/gone/")
       "Failed to retrieve https://sectrio.com/blog/gone/")
  /\ fst (SectrioScraper.extract_article_details Examples.sectrio_lib
            Examples.sectrio_base Demo.cutoff (Examples.node_tag Examples.sectrio_untimed)
            empty_world)
     = Raise (SectrioScraper.unbound_local "parsed_date").
Proof.
  split.
  - eapply (proj1 (sectrio_article_page_errors Examples.sectrio_lib
                     Examples.sectrio_base Demo.cutoff
                     (Examples.node_tag Examples.sectrio_gone)
                     "Gone" "https://sectrio.com/blog/gone/" "Excerpt"
                     empty_world empty_world empty_world eq_refl eq_refl eq_refl)
                  {| status_code := 404; text := "Not Found" |}).
    + reflexivity.
    + vm_compute. discriminate.
  - erewrite (proj2 (sectrio_article_page_errors Examples.sectrio_lib
                       Examples.sectrio_base Demo.cutoff
                       (Examples.node_tag Examples.sectrio_untimed)
                       "Untimed" "https://sectrio.com/blog/untimed/" "Excerpt"
                       empty_world empty_world empty_world eq_refl eq_refl eq_refl)
                    {| status_code := 200; text := Examples.sectrio_untimed_html |}).
    + reflexivity.
    + reflexivity.
    + reflexivity.
    + discriminate.
    + vm_compute. exact I.
    + vm_compute. reflexivity.
    + vm_compute. reflexivity.
Defined.

(** ** The run orchestrator: what is already in the set stays *)

Lemma set_add_extends (L : Lib) (s : list Article) (a : Article) :
  exists more, set_add L s a = s ++ more.
Proof.
  unfold set_add. destruct (set_contains L s a).
  - exists []. now rewrite app_nil_r.
  - now exists [a].
Qed.

Lemma set_update_extends (L : Lib) (other s : list Article) :
  exists more, set_update L s other = s ++ more.
Proof.
  unfold set_update. revert s. induction other as [|a other IH]; intros s; simpl.
  - exists []. now rewrite app_nil_r.
  - destruct (set_add_extends L s a) as [m1 ->]. destruct (IH (s ++ m1)) as [m2 ->].
    exists (m1 ++ m2). now rewrite app_assoc.
Qed.

Lemma scrape_sites_extends (L : Lib) (min_date : Date) (configs : list config)
  (st st' : run_state) (w w' : World) :
  scrape_sites L min_date configs st w = (Ok st', w') ->
  (exists more, fst st' = fst st ++ more)
  /\ (exists more_errors, snd st' = snd st ++ more_errors
                          /\ (List.length more_errors <= List.length configs)%nat).
Proof.
  revert st w. induction configs as [|c configs IH]; intros [all errors] w;
    cbn [scrape_sites].
  - unfold ret. intros [= <- _]. split.
    + exists []. now rewrite app_nil_r.
    + exists []. now rewrite app_nil_r.
  - unfold bind. rewrite scrape_site_cases.
    destruct (config_scraper_class c (config_url c) min_date w) as [[scraped|e|] w1];
      try discriminate; intros H; apply IH in H as [[more Hall] (errs & Herr & Hlen)];
      cbn [fst snd] in *.
    + split.
      * destruct (set_update_extends L (set_of L scraped) all) as [m1 Hm1].
        rewrite Hm1 in Hall. exists (m1 ++ more). now rewrite app_assoc.
      * exists errs. split; [assumption|]. cbn [List.length]. lia.
    + split; [now exists more|].
      exists ((config_name c, exn_msg e) :: errs). split.
      * rewrite Herr, <- app_assoc. reflexivity.
      * cbn [List.length]. lia.
Qed.

(** X15: the loop over the sites only ever adds to its set and to its list
    of errors, at the end and at most one error for a site; so an article
    that is in the set keeps its place, and when a later site returns an
    article of the same title and URL (with whatever date or content), the
    one in the set stays and the later one is not added. *)
Theorem scrape_sites_first_article_wins (L : Lib) (min_date : Date)
  (configs : list config) (st st' : run_state) (w w' : World)
  (Hrun : scrape_sites L min_date configs st w = (Ok st', w'))
  (Hdistinct : NoDup (map key (fst st))) :
  (exists more, fst st' = fst st ++ more)
  /\ (exists more_errors, snd st' = snd st ++ more_errors
                          /\ (List.length more_errors <= List.length configs)%nat)
  /\ (forall a b, In a (fst st) -> In b (fst st') -> key b = key a -> b = a).
Proof.
  destruct (scrape_sites_extends _ _ _ _ _ _ _ Hrun) as [[more Hall] Herrors].
  split; [now exists more|]. split; [exact Herrors|].
  intros a b Ha Hb Hkey.
  apply (NoDup_map_same key (fst st')); auto.
  - apply (proj1 (scrape_sites_invariant _ _ _ _ _ _ _ Hrun) Hdistinct).
  - rewrite Hall. apply in_or_app. now left.
Qed.

Lemma scrape_sites_first_article_wins_witness :
  let mine := mkArticle "New advisory" "https://www.cisa.gov/news/new" (DStr "kept")
                TagsNone "Mine" None None None in
  exists st' w',
    scrape_sites Demo.cisa_lib Demo.cutoff [Demo.cisa_config] ([mine], []) empty_world
    = (Ok st', w')
    /\ forall b, In b (fst st') -> key b = key mine -> b = mine.
Proof.
  intros mine.
  assert (Hrun : exists st' w',
            scrape_sites Demo.cisa_lib Demo.cutoff [Demo.cisa_config] ([mine], [])
              empty_world = (Ok st', w'))
    by (eexists; eexists; vm_compute; reflexivity).
  destruct Hrun as (st' & w' & Hrun).
  assert (Hdistinct : NoDup (map key (fst ([mine], @nil (string * string)))))
    by (repeat constructor; intros []).
  exists st', w'. split; [exact Hrun|].
  intros b Hb Hkey.
  apply (proj2 (proj2 (scrape_sites_first_article_wins Demo.cisa_lib Demo.cutoff
                         [Demo.cisa_config] ([mine], []) st' empty_world w'
                         Hrun Hdistinct)) mine b);
    [left; reflexivity | exact Hb | exact Hkey].
Defined.

(** ** The run orchestrator: the browser session *)

(** X16: the browser session of [scrape_selected_sites] is started and
    ended outside the handler of the loop.  When starting it raises, the
    exception is raised out of [scrape_selected_sites] after the first
    line was printed and before any site is looked at; when ending it
    raises, the exception is raised although every site has been scraped,
    and the set of articles is not returned. *)
Theorem scrape_selected_sites_browser_errors (L : Lib) (configs : list config)
  (min_date : Date) (w : World) (e : exn) :
  (webdriver_Chrome L = Raise e ->
   scrape_selected_sites L configs min_date w
   = (Raise e, printed w (LF +++ "Scraping in progress...")))
  /\ (forall st w1,
        webdriver_Chrome L = Ok tt ->
        scrape_sites L min_date configs ([], [])
          (printed w (LF +++ "Scraping in progress...")) = (Ok st, w1) ->
        driver_quit L = Raise e ->
        fst (scrape_selected_sites L configs min_date w) = Raise e).
Proof.
  split.
  - intros Hstart. unfold scrape_selected_sites, bind, print, lift, printed.
    now rewrite Hstart.
  - intros [all errors] w1 Hstart Hloop Hquit.
    unfold scrape_selected_sites, bind at 1, print at 1.
    unfold bind at 1, lift at 1. rewrite Hstart.
    unfold printed in Hloop. rewrite (bind_step _ _ _ _ _ Hloop).
    unfold bind at 1, print at 1.
    destruct errors as [|x errors].
    + unfold bind, lift, ret. now rewrite Hquit.
    + unfold bind at 1. unfold bind at 1, print at 1.
      match goal with
      | |- context [print_errors ?l ?w0] =>
          destruct (print_errors_returns l w0) as (w2 & Hp); rewrite Hp
      end.
      unfold bind, lift. now rewrite Hquit.
Qed.

Lemma scrape_selected_sites_browser_errors_witness :
  scrape_selected_sites Examples.no_browser_lib [Demo.cisa_config] Demo.cutoff empty_world
  = (Raise Examples.no_browser, printed empty_world (LF +++ "Scraping in progress...")).
Proof.
  apply (proj1 (scrape_selected_sites_browser_errors Examples.no_browser_lib
                  [Demo.cisa_config] Demo.cutoff empty_world Examples.no_browser)).
  reflexivity.
Defined.

(** ** [CyberSecurityDiveScraper]: a page that cannot be fetched, a feed
    that is empty *)

Lemma fetch_refused (L : Lib) (u : string) (cloud : bool) (r : response) (w : World) :
  http_get L (requests w) cloud u = Ok r -> status_code r <> 200 ->
  fetch_page_content L u cloud w
  = (Ok None, printed (sent w cloud u) ("Failed to retrieve " +++ u)).
Proof.
  intros Hanswer Hstatus. unfold fetch_page_content, send, bind. rewrite Hanswer.
  apply Z.eqb_neq in Hstatus. now rewrite Hstatus.
Qed.

(** X17: when the server answers the request for the page of an article
    with a status other than 200, [CyberSecurityDiveScraper] has no date
    for the article.  For an article of the feed that is the end: the date
    [None] fails the validation, [extract_article_details] returns [None]
    and the loop over the feed stops as at a stale article.  For a
    featured article the same value is put into the [Article] without a
    look: an article whose date, image and content are [None] is
    returned. *)
Theorem dive_page_not_fetched (L : Lib) (base_url : string) (min_date : Date)
  (article : tag) (link : string) (r : response) :
  (forall title description w w1 w2,
     extract_text L (Some article) "h3.feed__title" "" w = (Ok title, w1) ->
     extract_link L (Some article) "a" base_url "" = Ok link ->
     extract_text L (Some article) "p.feed__description" "" w1 = (Ok description, w2) ->
     http_get L (requests w2) false link = Ok r -> status_code r <> 200 ->
     let w3 := printed (sent w2 false link) ("Failed to retrieve " +++ link) in
     CyberSecurityDiveScraper.extract_article_details L base_url min_date article w
     = (Ok None, w3)
     /\ forall pre post acc acc1 w0,
          CyberSecurityDiveScraper.process_articles L base_url min_date pre acc w0
          = (Ok (acc1, false), w) ->
          CyberSecurityDiveScraper.process_articles L base_url min_date
            (pre ++ article :: post) acc w0 = (Ok (acc1, true), w3))
  /\ (forall title w w1,
        extract_text L (Some article) "h3 a" "" w = (Ok title, w1) ->
        extract_link L (Some article) "h3 a" base_url "" = Ok link ->
        http_get L (requests w1) false link = Ok r -> status_code r <> 200 ->
        CyberSecurityDiveScraper.extract_featured_article_details L base_url article false w
        = (Ok (mkArticle title link DNone TagsNone "CyberSecurity Dive" None None None),
           printed (sent w1 false link) ("Failed to retrieve " +++ link))).
Proof.
  split.
  - intros title description w w1 w2 Htitle Hlink Hdescription Hanswer Hstatus w3.
    assert (Hnone : CyberSecurityDiveScraper.extract_article_details L base_url min_date
                      article w = (Ok None, w3)).
    { unfold CyberSecurityDiveScraper.extract_article_details.
      rewrite (bind_step _ _ _ _ _ Htitle), (bind_lift_ok _ _ _ _ Hlink),
        (bind_step _ _ _ _ _ Hdescription).
      unfold CyberSecurityDiveScraper.extract_article_content.
      unfold bind at 1. unfold bind at 1.
      now rewrite (fetch_refused _ _ _ _ _ Hanswer Hstatus). }
    split; [exact Hnone|].
    intros pre post acc acc1 w0 Hpre.
    rewrite dive_process_articles_app, Hpre.
    cbn [CyberSecurityDiveScraper.process_articles].
    now rewrite (bind_step _ _ _ _ _ Hnone).
  - intros title w w1 Htitle Hlink Hanswer Hstatus.
    unfold CyberSecurityDiveScraper.extract_featured_article_details.
    rewrite (bind_step _ _ _ _ _ Htitle), (bind_lift_ok _ _ _ _ Hlink).
    unfold CyberSecurityDiveScraper.extract_article_content.
    unfold bind at 1. unfold bind at 1.
    now rewrite (fetch_refused _ _ _ _ _ Hanswer Hstatus).
Qed.

Lemma dive_page_not_fetched_witness :
  CyberSecurityDiveScraper.extract_article_details Demo.dive_lib Demo.dive_base
    Demo.cutoff (Examples.node_tag Examples.dive_gone) empty_world
  = (Ok None,
     printed (sent empty_world false "https://www.cybersecuritydive.com/news/gone/")
       "Failed to retrieve https://www.cybersecuritydive.com/news/gone/")
  /\ exists a w',
       CyberSecurityDiveScraper.extract_featured_article_details Demo.dive_lib
         Demo.dive_base (Examples.node_tag Examples.dive_gone) false empty_world
       = (Ok a, w') /\ date a = DNone.
Proof.
  pose proof (dive_page_not_fetched Demo.dive_lib Demo.dive_base Demo.cutoff
                (Examples.node_tag Examples.dive_gone)
                "https://www.cybersecuritydive.com/news/gone/"
                {| status_code := 404; text := "Not Found" |}) as [Hfeed Hfeatured].
  split.
  - refine (proj1 (Hfeed "Gone" "Summary" empty_world empty_world empty_world
                     eq_refl eq_refl eq_refl eq_refl _)).
    vm_compute. discriminate.
  - eexists. eexists. split.
    + refine (Hfeatured "Gone" empty_world empty_world eq_refl eq_refl eq_refl _).
      vm_compute. discriminate.
    + reflexivity.
Defined.

(** X18: when the first page of the Cybersecurity Dive site has no item in
    its feed, [scrape] returns no article at all after this one request:
    the hero article and the top stories of the page are looked at only
    when the feed has an item. *)
Theorem dive_empty_feed_skips_featured (L : Lib) (base_url : string) (min_date : Date)
  (fuel : nat) (page_content : string) (w w1 : World)
  (Hfetch : fetch_page_content L base_url false w = (Ok (Some page_content), w1))
  (Hempty : CyberSecurityDiveScraper.extract_articles (parse_html L page_content) = []) :
  CyberSecurityDiveScraper.scrape L base_url min_date (S fuel) w = (Ok [], w1).
Proof.
  unfold CyberSecurityDiveScraper.scrape.
  cbn [CyberSecurityDiveScraper.scrape_pages].
  change (1 <? 1) with false. cbv iota.
  rewrite (bind_step _ _ _ _ _ Hfetch).
  destruct page_content as [|c page_content]; [reflexivity|].
  now rewrite Hempty.
Qed.

Lemma dive_empty_feed_skips_featured_witness :
  Demo.select_chain (Demo.parse_selector "section.hero-article")
    (html_parser Examples.dive_hero_only_lib Examples.dive_hero_only_html) <> []
  /\ CyberSecurityDiveScraper.scrape Examples.dive_hero_only_lib Demo.dive_base
       Demo.cutoff 3 empty_world
     = (Ok [], sent empty_world false Demo.dive_base).
Proof.
  split; [vm_compute; discriminate|].
  apply (dive_empty_feed_skips_featured Examples.dive_hero_only_lib Demo.dive_base
           Demo.cutoff 2 Examples.dive_hero_only_html); reflexivity.
Defined.

(** ** [InfoSecurityMagazineScraper] and [CISAScraper] *)

(** X8: every article [InfoSecurityMagazineScraper.scrape] and
    [CISAScraper.scrape] return has a published date that is a string or
    is not before the cutoff, whatever the pages say and however many
    pages are visited. *)
Theorem infosec_and_cisa_return_validated_articles (L : Lib) (base_url : string)
  (min_date : Date) (fuel : nat) (result : list Article) (w w' : World)
  (Hrun : InfoSecurityMagazineScraper.scrape L base_url min_date fuel w = (Ok result, w')
          \/ CISAScraper.scrape L base_url min_date fuel w = (Ok result, w')) :
  Forall (fun a => date_allowed min_date (date a)) result.
Proof.
  destruct Hrun as [H|H].
  - eapply infosec_scrape_allowed; exact H.
  - eapply cisa_scrape_pages_allowed; [exact H|constructor].
Qed.

Lemma infosec_and_cisa_return_validated_articles_witness :
  exists result w',
    InfoSecurityMagazineScraper.scrape Demo.infosec_lib Demo.infosec_base Demo.cutoff 3
      empty_world = (Ok result, w')
    /\ List.length result = 1%nat
    /\ Forall (fun a => date_allowed Demo.cutoff (date a)) result.
Proof.
  eexists. eexists. split; [vm_compute; reflexivity|]. split; [reflexivity|].
  eapply (infosec_and_cisa_return_validated_articles Demo.infosec_lib Demo.infosec_base
            Demo.cutoff 3 _ empty_world).
  left. vm_compute. reflexivity.
Defined.

(** X19: an item of the InfoSecurity Magazine listing that has no [time]
    element ends the scrape of the site with a [TypeError]: the date text
    is [None], [parse_date] does not catch what [strptime] raises on it,
    and neither does anything else in the controller.  In the run over the
    sites the error is recorded, and none of the articles gathered from
    the site before that item reaches the set. *)
Theorem infosec_item_without_time_aborts (L : Lib) (base_url : string) (min_date : Date)
  (fuel : nat) (page_content : string) (pre post : list tag) (bad : tag)
  (gathered : list Article) (w w1 w2 : World)
  (Hfetch : fetch_page_content L base_url false w = (Ok (Some page_content), w1))
  (Hbody : page_content <> EmptyString)
  (Hitems : InfoSecurityMagazineScraper.extract_articles (parse_html L page_content)
            = pre ++ bad :: post)
  (Hpre : InfoSecurityMagazineScraper.process_articles L base_url min_date pre [] w1
          = (Ok (gathered, false), w2))
  (Htime : select_one L bad "time" = Ok None) :
  let error := Exn TypeError "strptime() argument 1 must be str, not None" in
  InfoSecurityMagazineScraper.scrape L base_url min_date (S fuel) w = (Raise error, w2)
  /\ forall c all_articles errors,
       config_url c = base_url ->
       config_scraper_class c
       = (fun u d => InfoSecurityMagazineScraper.scrape L u d (S fuel)) ->
       scrape_site L min_date (all_articles, errors) c w
       = (Ok (all_articles, errors ++ [(config_name c, exn_msg error)]),
          printed w2 (LF +++ "Error scraping " +++ config_name c +++ ": "
                      +++ exn_msg error)).
Proof.
  intros error.
  assert (Hdetails : InfoSecurityMagazineScraper.extract_article_details L base_url
                       min_date bad w2 = (Raise error, w2)).
  { unfold InfoSecurityMagazineScraper.extract_article_details.
    assert (Htext : extract_text L (Some bad) "time" (@None string) w2 = (Ok None, w2)).
    { unfold extract_text, try_except, bind, lift, call_select_one. now rewrite Htime. }
    now rewrite (bind_step _ _ _ _ _ Htext). }
  assert (Hscrape : InfoSecurityMagazineScraper.scrape L base_url min_date (S fuel) w
                    = (Raise error, w2)).
  { unfold InfoSecurityMagazineScraper.scrape.
    cbn [InfoSecurityMagazineScraper.scrape_pages].
    change (1 <? 1) with false. cbv iota.
    rewrite (bind_step _ _ _ _ _ Hfetch).
    destruct page_content as [|ch page_content]; [contradiction|].
    rewrite Hitems.
    assert (Hloop : InfoSecurityMagazineScraper.process_articles L base_url min_date
                      (pre ++ bad :: post) [] w1 = (Raise error, w2)).
    { rewrite infosec_process_articles_app, Hpre.
      cbn [InfoSecurityMagazineScraper.process_articles].
      now rewrite (bind_raise _ _ _ _ _ Hdetails). }
    destruct (pre ++ bad :: post) as [|item items] eqn:E.
    - now destruct pre.
    - now rewrite (bind_raise _ _ _ _ _ Hloop). }
  split; [exact Hscrape|].
  intros c all_articles errors Hurl Hclass.
  rewrite scrape_site_cases, Hclass, Hurl, Hscrape. reflexivity.
Qed.

Lemma infosec_item_without_time_aborts_witness :
  exists st w',
    scrape_site Examples.infosec_timeless_lib Demo.cutoff ([], [])
      Examples.infosec_timeless_config empty_world = (Ok st, w')
    /\ st = ([], [("InfoSecurity Magazine", "strptime() argument 1 must be str, not None")])
    /\ requests w' = [(false, Demo.infosec_base);
                      (false, "https://www.infosecurity-magazine.com/news/first/")].
Proof.
  pose (first := Examples.node_tag (Demo.infosec_item "/news/first/" "First" "10 Jan 2025")).
  pose (w1 := sent empty_world false Demo.infosec_base).
  pose (w2 := sent w1 false "https://www.infosecurity-magazine.com/news/first/").
  assert (Hpre : exists gathered,
            InfoSecurityMagazineScraper.process_articles Examples.infosec_timeless_lib
              Demo.infosec_base Demo.cutoff [first] [] w1 = (Ok (gathered, false), w2))
    by (eexists; vm_compute; reflexivity).
  destruct Hpre as [gathered Hpre].
  assert (Hbody : Examples.infosec_timeless_html <> EmptyString) by discriminate.
  destruct (infosec_item_without_time_aborts Examples.infosec_timeless_lib
              Demo.infosec_base Demo.cutoff 4 Examples.infosec_timeless_html
              [first] [] (Examples.node_tag Examples.infosec_timeless) gathered
              empty_world w1 w2 eq_refl Hbody eq_refl Hpre eq_refl) as [_ Hsite].
  eexists. eexists. split.
  - exact (Hsite Examples.infosec_timeless_config [] [] eq_refl eq_refl).
  - split; reflexivity.
Defined.

(** ** [load_configurations] *)

Lemma row_get_field (row : csv_row) (column v : string) :
  row_get row column = Ok v -> row_field row column = v.
Proof. unfold row_field. now intros ->. Qed.

Lemma load_rows_spec
  (globals_get : string -> option (string -> Date -> M (list Article)))
  (rows : list csv_row) (configs : list config) (w : World) :
  Forall has_columns rows ->
  exists loaded,
    load_rows globals_get rows configs w
    = (Ok (configs ++ loaded),
       {| stdout := stdout w
                    ++ map skipped_line
                         (filter (fun r => negb (class_known globals_get r)) rows);
          requests := requests w |})
    /\ Forall2 (built_from globals_get) (filter (class_known globals_get) rows) loaded.
Proof.
  intros Hrows. revert configs w.
  induction Hrows as [|row rows Hrow Hrows IH]; intros configs w.
  - exists []. cbn. rewrite !app_nil_r. destruct w. split; [reflexivity|constructor].
  - cbn [load_rows filter].
    destruct (Hrow "scraper_class") as [cls Hcls]; [simpl; tauto|].
    destruct (Hrow "name") as [name Hname]; [simpl; tauto|].
    destruct (Hrow "scrape_type") as [type Htype]; [simpl; tauto|].
    destruct (Hrow "url") as [link Hlink]; [simpl; tauto|].
    rewrite (bind_lift_ok _ _ _ _ Hcls).
    assert (Hknown : class_known globals_get row
                     = match globals_get cls with Some _ => true | None => false end)
      by (unfold class_known; now rewrite (row_get_field _ _ _ Hcls)).
    rewrite !Hknown.
    destruct (globals_get cls) as [scraper_class|] eqn:Hglobal; cbn [negb map].
    + rewrite (bind_lift_ok _ _ _ _ Hname), (bind_lift_ok _ _ _ _ Htype),
        (bind_lift_ok _ _ _ _ Hlink).
      destruct (IH (configs ++ [ {| config_name := name; config_scrape_type := type;
                                    config_url := link;
                                    config_scraper_class := scraper_class |} ]) w)
        as (loaded & Hrun & Hbuilt).
      eexists (_ :: loaded). split.
      * rewrite Hrun, <- app_assoc. reflexivity.
      * constructor; [|exact Hbuilt]. split.
        -- unfold site_of_row, site_of_config.
           cbn [config_name config_scrape_type config_url].
           now rewrite (row_get_field _ _ _ Hname), (row_get_field _ _ _ Htype),
             (row_get_field _ _ _ Hlink).
        -- cbn [config_scraper_class].
           now rewrite (row_get_field _ _ _ Hcls), Hglobal.
    + unfold bind at 1, print at 1.
      match goal with
      | |- context [load_rows globals_get rows configs ?w0] =>
          destruct (IH configs w0) as (loaded & Hrun & Hbuilt)
      end.
      exists loaded. split.
      * rewrite Hrun. cbn [stdout requests]. unfold skipped_line at 2.
        rewrite (row_get_field _ _ _ Hcls), <- app_assoc. reflexivity.
      * exact Hbuilt.
Qed.

Lemma built_from_sites
  (globals_get : string -> option (string -> Date -> M (list Article)))
  (rows : list csv_row) (configs : list config) :
  Forall2 (built_from globals_get) rows configs ->
  map site_of_config configs = map site_of_row rows
  /\ Forall (fun c => exists r, In r rows
               /\ globals_get (row_field r "scraper_class")
                  = Some (config_scraper_class c)) configs.
Proof.
  induction 1 as [|r c rows configs [Hsite Hclass] _ [IHs IHc]]; cbn [map].
  - split; constructor.
  - split; [now rewrite Hsite, IHs|]. constructor.
    + exists r. split; [now left|assumption].
    + eapply Forall_impl; [|exact IHc].
      intros c' (r' & Hr' & Hc'). exists r'. split; [now right|assumption].
Qed.

(** X20: [load_configurations] returns one configuration for each row whose
    class name is defined in the script, in the order of the file, and each
    configuration carries the name, the type and the URL of its own row and
    the class that the name in that same row denotes; for each other row it
    prints one line and goes on; and when the file has no column
    [scraper_class] it raises [KeyError] at the first row. *)
Theorem load_configurations_keeps_known_rows
  (globals_get : string -> option (string -> Date -> M (list Article)))
  (rows : list csv_row) (w : World) :
  (Forall has_columns rows ->
   exists configs,
     load_configurations globals_get rows w
     = (Ok configs,
        {| stdout := stdout w
                     ++ map skipped_line
                          (filter (fun r => negb (class_known globals_get r)) rows);
           requests := requests w |})
     /\ Forall2 (built_from globals_get) (filter (class_known globals_get) rows) configs
     /\ map site_of_config configs
        = map site_of_row (filter (class_known globals_get) rows)
     /\ Forall (fun c => exists r, In r rows
                  /\ globals_get (row_field r "scraper_class")
                     = Some (config_scraper_class c)) configs)
  /\ (forall row rest e,
        rows = row :: rest -> row_get row "scraper_class" = Raise e ->
        load_configurations globals_get rows w = (Raise e, w)
        /\ exn_class e = KeyError).
Proof.
  split.
  - intros Hrows. destruct (load_rows_spec globals_get rows [] w Hrows)
      as (loaded & Hrun & Hbuilt).
    exists loaded. split; [exact Hrun|]. split; [exact Hbuilt|].
    destruct (built_from_sites _ _ _ Hbuilt) as [Hsites Hclasses].
    split; [exact Hsites|].
    eapply Forall_impl; [|exact Hclasses].
    intros c (r & Hr & Hc). exists r. split; [|assumption].
    now apply filter_In in Hr.
  - intros row rest e -> Hmissing. split.
    + unfold load_configurations. cbn [load_rows]. unfold bind, lift.
      now rewrite Hmissing.
    + clear - Hmissing. induction row as [|[k v] row IH]; cbn [row_get] in Hmissing.
      * now injection Hmissing as <-.
      * destruct (String.eqb k "scraper_class"); [discriminate|auto].
Qed.

Lemma load_configurations_keeps_known_rows_witness :
  exists cisa dive w',
    load_configurations Examples.example_globals Examples.example_rows empty_world
    = (Ok [cisa; dive], w')
    /\ site_of_config cisa = ("CISA", "html", Demo.cisa_base)
    /\ config_scraper_class cisa = (fun u d => CISAScraper.scrape Demo.cisa_lib u d 5)
    /\ site_of_config dive = ("CyberSecurity Dive", "html", Demo.dive_base)
    /\ config_scraper_class dive
       = (fun u d => CyberSecurityDiveScraper.scrape Demo.dive_lib u d 5)
    /\ stdout w'
       = ["Scraper class 'UnknownScraper' not found. Skipping this configuration."].
Proof.
  assert (Hrows : Forall has_columns Examples.example_rows).
  { repeat constructor; intros column Hc; simpl in Hc;
      repeat (destruct Hc as [<-|Hc]; [eexists; reflexivity|]); contradiction. }
  destruct (proj1 (load_configurations_keeps_known_rows Examples.example_globals
                     Examples.example_rows empty_world) Hrows)
    as (configs & Hrun & Hbuilt & _).
  assert (Hknown : filter (class_known Examples.example_globals) Examples.example_rows
                   = [ nth 0 Examples.example_rows []; nth 2 Examples.example_rows [] ])
    by reflexivity.
  rewrite Hknown in Hbuilt.
  inversion Hbuilt as [|r1 cisa rs1 cs1 [Hs1 Hc1] Hrest1 Hr1 Hcs1]; subst.
  inversion Hrest1 as [|r2 dive rs2 cs2 [Hs2 Hc2] Hrest2 Hr2 Hcs2]; subst.
  inversion Hrest2; subst.
  exists cisa, dive. eexists. split; [exact Hrun|].
  split; [exact Hs1|]. split; [symmetry; exact (some_eq _ _ Hc1)|].
  split; [exact Hs2|]. split; [symmetry; exact (some_eq _ _ Hc2)|reflexivity].
Defined.

(** ** [BleepingComputerScraper]: the articles tagged [Deals] *)

Lemma bleeping_details_kept (L : Lib) (base_url : string) (min_date : Date)
  (article : tag) (w w' : World) (a : Article) :
  BleepingComputerScraper.extract_article_details L base_url min_date article w
  = (Ok (BleepingComputerScraper.Details a), w') ->
  date_allowed min_date (date a)
  /\ exists t, tags a = TagsList [t] /\ t <> "Deals".
Proof.
  unfold BleepingComputerScraper.extract_article_details. intros H.
  do 2 open_bind H.
  destruct (valid_truthy (is_article_valid min_date v0)) eqn:Hv; cbn [negb] in H;
    [|discriminate H].
  do 3 open_bind H. cbn [existsb] in H.
  destruct (String.eqb_spec "Deals" v3) as [|Hne]; cbn [orb] in H; [discriminate H|].
  do 2 open_bind H. destruct v5 as [content image]. unfold ret in H.
  injection H as <- _. split; [now apply valid_truthy_allowed|].
  exists v3. split; [reflexivity|congruence].
Qed.

Lemma bleeping_process_articles_kept (L : Lib) (base_url : string) (min_date : Date)
  (P : Article -> Prop) :
  (forall article w a w',
     BleepingComputerScraper.extract_article_details L base_url min_date article w
     = (Ok (BleepingComputerScraper.Details a), w') -> P a) ->
  forall items acc acc' stop w w',
    BleepingComputerScraper.process_articles L base_url min_date items acc w
    = (Ok (acc', stop), w') ->
    Forall P acc -> Forall P acc'.
Proof.
  intros Hd items. induction items as [|x items IH]; intros acc acc' stop w w';
    cbn [BleepingComputerScraper.process_articles].
  - unfold ret. now intros [= <- _ _].
  - intros H Hacc. open_bind H. destruct v as [a| |]; cbn in H.
    + apply (IH _ _ _ _ _ H). apply Forall_app. split; [assumption|].
      constructor; [|constructor]. eapply Hd; eassumption.
    + now apply (IH _ _ _ _ _ H).
    + unfold ret in H. now injection H as <- _ _.
Qed.

Lemma bleeping_pages_kept (L : Lib) (base_url : string) (min_date : Date)
  (P : Article -> Prop) (fuel : nat) :
  (forall article w a w',
     BleepingComputerScraper.extract_article_details L base_url min_date article w
     = (Ok (BleepingComputerScraper.Details a), w') -> P a) ->
  forall page_number acc result last_page w w',
    BleepingComputerScraper.scrape_pages L base_url min_date fuel page_number acc w
    = (Ok (result, last_page), w') ->
    Forall P acc -> Forall P result.
Proof.
  intros Hd. induction fuel as [|fuel IH];
    intros page_number acc result last_page w w';
    cbn [BleepingComputerScraper.scrape_pages]; [discriminate|].
  intros H Hacc. open_bind H.
  destruct v as [[|c page_content]|];
    try (open_bind H; unfold ret in H; now injection H as <- _ _).
  destruct (BleepingComputerScraper.extract_articles _) as [|item items];
    [open_bind H; unfold ret in H; now injection H as <- _ _|].
  open_bind H. destruct v as [acc1 stop].
  pose proof (bleeping_process_articles_kept _ _ _ P Hd _ _ _ _ _ _ Hrun0 Hacc) as Hacc1.
  destruct stop; [unfold ret in H; now injection H as <- _ _ | eapply IH; eassumption].
Qed.

(** X21: no article [BleepingComputerScraper.scrape] returns is tagged
    [Deals], and each has one tag and a date that has passed the
    validation. *)
Theorem bleepingcomputer_returns_no_deals (L : Lib) (base_url : string)
  (min_date : Date) (fuel : nat) (result : list Article) (w w' : World)
  (Hrun : BleepingComputerScraper.scrape L base_url min_date fuel w = (Ok result, w')) :
  Forall (fun a => date_allowed min_date (date a)
                   /\ exists t, tags a = TagsList [t] /\ t <> "Deals") result.
Proof.
  unfold BleepingComputerScraper.scrape in Hrun. open_bind Hrun.
  destruct v as [articles last_page]. unfold ret in Hrun. injection Hrun as <- _.
  eapply bleeping_pages_kept; [|exact Hrun0|constructor].
  intros article wa a wb. apply bleeping_details_kept.
Qed.

Lemma bleepingcomputer_returns_no_deals_witness :
  exists result w',
    BleepingComputerScraper.scrape Examples.bleeping_lib Examples.bleeping_base
      Demo.cutoff 3 empty_world = (Ok result, w')
    /\ map title result = ["First"; "Third"]
    /\ Forall (fun a => date_allowed Demo.cutoff (date a)
                        /\ exists t, tags a = TagsList [t] /\ t <> "Deals") result.
Proof.
  eexists. eexists. split; [vm_compute; reflexivity|]. split; [reflexivity|].
  eapply (bleepingcomputer_returns_no_deals Examples.bleeping_lib Examples.bleeping_base
            Demo.cutoff 3 _ empty_world).
  vm_compute. reflexivity.
Defined.

Lemma bleeping_process_articles_app (L : Lib) (base_url : string) (min_date : Date)
  (pre post : list tag) (acc : list Article) (w : World) :
  BleepingComputerScraper.process_articles L base_url min_date (pre ++ post) acc w =
  match BleepingComputerScraper.process_articles L base_url min_date pre acc w with
  | (Ok (acc1, false), w1) =>
      BleepingComputerScraper.process_articles L base_url min_date post acc1 w1
  | r => r
  end.
Proof.
  revert acc w. induction pre as [|article pre IH]; intros acc w;
    cbn [app BleepingComputerScraper.process_articles].
  - reflexivity.
  - unfold bind.
    destruct (BleepingComputerScraper.extract_article_details
                L base_url min_date article w) as [[[a| |]|e|] w1]; cbn; auto.
Qed.

(** X22: an article tagged [Deals] whose date passes the validation is
    skipped by [BleepingComputerScraper]: its page is not requested, it is
    not added, and the loop goes on with the articles after it.  When its
    date fails the validation it is not skipped: the date is looked at
    first, and the loop stops as at any stale article. *)
Theorem bleepingcomputer_skips_deals (L : Lib) (base_url : string) (min_date : Date)
  (pre post : list tag) (article : tag) (acc acc1 : list Article)
  (date_str : string) (d : date_value) (w w1 w2 : World)
  (Hpre : BleepingComputerScraper.process_articles L base_url min_date pre acc w
          = (Ok (acc1, false), w1))
  (Hdate : extract_text L (Some article) "li.bc_news_date" "No Date" w1
           = (Ok date_str, w2))
  (Hparse : parse_date L (Some date_str) "%B %d, %Y" = Ok d) :
  (valid_truthy (is_article_valid min_date d) = false ->
   BleepingComputerScraper.process_articles L base_url min_date (pre ++ article :: post)
     acc w = (Ok (acc1, true), w2))
  /\ (forall title link w3 w4,
        valid_truthy (is_article_valid min_date d) = true ->
        extract_text L (Some article) "h4 a" "No Title" w2 = (Ok title, w3) ->
        extract_link L (Some article) "h4 a" base_url "" = Ok link ->
        extract_text L (Some article) "div.bc_latest_news_category span a" "No Tag" w3
        = (Ok "Deals", w4) ->
        BleepingComputerScraper.process_articles L base_url min_date
          (pre ++ article :: post) acc w
        = BleepingComputerScraper.process_articles L base_url min_date post acc1 w4
        /\ requests w4 = requests w1).
Proof.
  split.
  - intros Hstale. rewrite bleeping_process_articles_app, Hpre.
    cbn [BleepingComputerScraper.process_articles].
    assert (Hnothing : BleepingComputerScraper.extract_article_details L base_url
                         min_date article w1 = (Ok BleepingComputerScraper.Nothing, w2)).
    { unfold BleepingComputerScraper.extract_article_details.
      rewrite (bind_step _ _ _ _ _ Hdate), (bind_lift_ok _ _ _ _ Hparse), Hstale.
      reflexivity. }
    now rewrite (bind_step _ _ _ _ _ Hnothing).
  - intros title link w3 w4 Hfresh Htitle Hlink Htag. split.
    + rewrite bleeping_process_articles_app, Hpre.
      cbn [BleepingComputerScraper.process_articles].
      assert (Hpass : BleepingComputerScraper.extract_article_details L base_url
                        min_date article w1 = (Ok BleepingComputerScraper.Pass, w4)).
      { unfold BleepingComputerScraper.extract_article_details.
        rewrite (bind_step _ _ _ _ _ Hdate), (bind_lift_ok _ _ _ _ Hparse), Hfresh.
        cbn [negb].
        rewrite (bind_step _ _ _ _ _ Htitle), (bind_lift_ok _ _ _ _ Hlink),
          (bind_step _ _ _ _ _ Htag).
        reflexivity. }
      now rewrite (bind_step _ _ _ _ _ Hpass).
    + pose proof (selector_helpers_requests L string _ (Some article)) as Hreq.
      assert (H12 : requests w2 = requests w1)
        by (rewrite <- (Hreq "li.bc_news_date" "No Date" w1), Hdate; reflexivity).
      assert (H23 : requests w3 = requests w2)
        by (rewrite <- (Hreq "h4 a" "No Title" w2), Htitle; reflexivity).
      assert (H34 : requests w4 = requests w3)
        by (rewrite <- (Hreq "div.bc_latest_news_category span a" "No Tag" w3), Htag;
            reflexivity).
      congruence.
Qed.

Lemma bleepingcomputer_skips_deals_witness :
  exists third w4,
    BleepingComputerScraper.process_articles Examples.bleeping_lib Examples.bleeping_base
      Demo.cutoff ([] ++ Examples.node_tag Examples.bleeping_deal :: [third]) []
      empty_world
    = BleepingComputerScraper.process_articles Examples.bleeping_lib
        Examples.bleeping_base Demo.cutoff [third] [] w4
    /\ requests w4 = requests empty_world.
Proof.
  exists (Examples.node_tag Examples.bleeping_deal). eexists.
  eapply (proj2 (bleepingcomputer_skips_deals Examples.bleeping_lib
                   Examples.bleeping_base Demo.cutoff [] _
                   (Examples.node_tag Examples.bleeping_deal) [] []
                   "January 8, 2025" (DDate (ymd2ord 2025 1 8))
                   empty_world empty_world empty_world eq_refl eq_refl eq_refl)
            "Sale" "https://www.bleepingcomputer.com/offer/deals/sale/"
            empty_world empty_world); reflexivity.
Defined.

(** ** [Intel471Scraper]: a loop without a check for an empty page *)

(** X23: the loop of [Intel471Scraper.scrape] ends on a page that cannot be
    fetched or at an article that fails the validation, and on nothing
    else.  On a site that answers every request with a page whose listing
    has no article, it asks for page after page and never returns: the run
    of the model uses up whatever fuel it is given, one request for each
    unit.  And a page without the element of id [listing-results] ends the
    scrape with an [AttributeError]. *)
Theorem intel471_scrape_needs_a_failed_fetch (L : Lib) (base_url : string)
  (min_date : Date) (page : string) (r : response)
  (Hstatus : status_code r = 200) (Hpage : text r = page)
  (Hbody : page <> EmptyString) (Hbase : base_url <> EmptyString) :
  (forall listing,
     (forall history u, http_get L history false u = Ok r) ->
     find_attr (parse_html L page) "div" "id" "listing-results" = Some listing ->
     find_all_attr listing "a" "target" "_self" = [] ->
     forall fuel w,
       exists w', Intel471Scraper.scrape L base_url min_date fuel w = (Diverge, w')
                  /\ List.length (requests w')
                     = (List.length (requests w) + fuel)%nat)
  /\ (forall fuel w,
        http_get L (requests w) false base_url = Ok r ->
        find_attr (parse_html L page) "div" "id" "listing-results" = None ->
        Intel471Scraper.scrape L base_url min_date (S fuel) w
        = (Raise (attribute_error_none "find_all"), sent w false base_url)).
Proof.
  split.
  - intros listing Hsite Hlisting Hempty.
    assert (Hloop : forall fuel u current_page acc w,
              u <> EmptyString ->
              exists w', Intel471Scraper.scrape_pages L base_url min_date fuel u
                           current_page acc w = (Diverge, w')
                         /\ List.length (requests w')
                            = (List.length (requests w) + fuel)%nat).
    { induction fuel as [|fuel IH]; intros u current_page acc w Hu;
        cbn [Intel471Scraper.scrape_pages].
      - exists w. split; [reflexivity|lia].
      - destruct u as [|ch u]; [contradiction|]. cbn [str_truthy negb].
        assert (Hfetch : fetch_page_content L (String ch u) false w
                         = (Ok (Some page), sent w false (String ch u))).
        { unfold fetch_page_content, send, bind. rewrite Hsite.
          apply Z.eqb_eq in Hstatus. now rewrite Hstatus, Hpage. }
        rewrite (bind_step _ _ _ _ _ Hfetch).
        destruct page as [|ch' page']; [contradiction|].
        rewrite Hlisting. cbn [Intel471Scraper.extract_articles].
        rewrite (bind_lift_ok _ _ [] _); [|now rewrite Hempty].
        cbn [Loop.for_break]. rewrite (bind_step _ _ _ _ (acc, false) eq_refl).
        cbv iota.
        destruct (IH (base_url +++ "?page=" +++ str_of_int (current_page + 1))
                    (current_page + 1) acc (sent w false (String ch u)))
          as (w' & Hrun & Hlen).
        + destruct base_url; [contradiction|discriminate].
        + exists w'. split; [exact Hrun|].
          rewrite Hlen. unfold sent. cbn [requests]. rewrite length_app.
          cbn [List.length]. lia. }
    intros fuel w. apply Hloop. assumption.
  - intros fuel w Hanswer Hmissing.
    unfold Intel471Scraper.scrape. cbn [Intel471Scraper.scrape_pages].
    destruct base_url as [|ch u]; [contradiction|]. cbn [str_truthy negb].
    assert (Hfetch : fetch_page_content L (String ch u) false w
                     = (Ok (Some page), sent w false (String ch u))).
    { unfold fetch_page_content, send, bind. rewrite Hanswer.
      apply Z.eqb_eq in Hstatus. now rewrite Hstatus, Hpage. }
    rewrite (bind_step _ _ _ _ _ Hfetch).
    destruct page as [|ch' page']; [contradiction|].
    rewrite Hmissing. reflexivity.
Qed.

Lemma intel471_scrape_needs_a_failed_fetch_witness :
  exists w',
    Intel471Scraper.scrape Examples.intel471_empty_lib Examples.intel471_base
      Demo.cutoff 25 empty_world = (Diverge, w')
    /\ List.length (requests w') = (List.length (requests empty_world) + 25)%nat.
Proof.
  assert (Hbody : Examples.intel471_empty_html <> EmptyString) by discriminate.
  assert (Hbase : Examples.intel471_base <> EmptyString) by discriminate.
  eapply (proj1 (intel471_scrape_needs_a_failed_fetch Examples.intel471_empty_lib
                   Examples.intel471_base Demo.cutoff Examples.intel471_empty_html
                   {| status_code := 200; text := Examples.intel471_empty_html |}
                   eq_refl eq_refl Hbody Hbase)
            (Tag "div" [("id", "listing-results")] [])); reflexivity.
Defined.

(** ** [get_user_input]: the sites selected *)

Lemma print_sites_typed (index : Z) (sites : list string) (c : UserInput.Console) :
  UserInput.typed (UserInput.print_sites index sites c) = UserInput.typed c.
Proof.
  revert index c. induction sites as [|site sites IH]; intros index c;
    cbn [UserInput.print_sites]; [reflexivity|].
  rewrite IH. now destruct (index mod 2 =? 1).
Qed.

Lemma int_of_value (s : string) (i : Z) : UserInput.int_of s = Ok i -> i = int s.
Proof.
  unfold UserInput.int_of. destruct (negb _); [discriminate|].
  destruct (_ <? _)%nat; [discriminate|]. now intros [= <-].
Qed.

Lemma read_indices_spec (items : list string) (added : list Z) :
  UserInput.read_indices items = Ok added ->
  forall i, In i added <->
            exists item, In item items /\ UserInput.str_isdigit (strip item) = true
                         /\ int (strip item) = i.
Proof.
  revert added. induction items as [|item items IH]; intros added;
    cbn [UserInput.read_indices].
  - intros [= <-] i. split; [intros []|intros (x & [] & _)].
  - destruct (UserInput.str_isdigit (strip item)) eqn:Hd.
    + destruct (UserInput.int_of (strip item)) as [n|e|] eqn:Hn; try discriminate.
      cbn [obind].
      destruct (UserInput.read_indices items) as [l|e|]; try discriminate.
      cbn [obind]. intros [= <-] i. apply int_of_value in Hn. split.
      * intros [<-|Hin].
        -- exists item. repeat split; auto. now left.
        -- apply (IH l eq_refl) in Hin as (x & Hx & Hdx & Hix).
           exists x. repeat split; auto. now right.
      * intros (x & [<-|Hx] & Hdx & Hix).
        -- left. congruence.
        -- right. apply (IH l eq_refl). eauto.
    + intros H i. rewrite (IH added H). split.
      * intros (x & Hx & Hdx & Hix). exists x. repeat split; auto. now right.
      * intros (x & [<-|Hx] & Hdx & Hix); [congruence|eauto].
Qed.

Lemma pick_spec (configs : list config) (indices : list Z) :
  map Some (UserInput.pick configs indices)
  = map (fun i => nth_error configs (Z.to_nat (i - 1)))
        (filter (fun i => (1 <=? i) && (i <=? Z.of_nat (List.length configs))) indices).
Proof.
  unfold UserInput.pick. induction indices as [|i indices IH]; [reflexivity|].
  cbn [flat_map filter].
  destruct ((1 <=? i) && (i <=? Z.of_nat (List.length configs))) eqn:Hrange.
  - apply andb_prop in Hrange as [Hlo Hhi]. apply Z.leb_le in Hlo, Hhi.
    destruct (nth_error configs (Z.to_nat (i - 1))) as [c|] eqn:Hnth.
    + cbn [app map]. now rewrite IH, Hnth.
    + apply nth_error_None in Hnth. lia.
  - exact IH.
Qed.

Lemma existsb_eqb_In (x : string) (l : list string) :
  existsb (String.eqb x) l = true <-> In x l.
Proof.
  rewrite existsb_exists. split.
  - intros (y & Hy & E). apply String.eqb_eq in E. now subst.
  - intros H. exists x. split; [assumption|apply String.eqb_refl].
Qed.

(** X24: what [get_user_input] returns when it returns a selection.  The
    list of sites is not empty; it is the whole configuration when one of
    the items typed is [0]; otherwise it holds the configurations whose
    numbers were typed, each once however often its number was typed, the
    numbers out of range and the items that are not numbers having been
    ignored.  The date is the one typed, or [MIN_DATE] when [strptime]
    rejects what was typed with a [ValueError]. *)
Theorem get_user_input_selection (L : Lib) (set_iter : list Z -> list Z)
  (configs selected : list config) (line line2 : string) (rest : list string)
  (d : Date) (c c' : UserInput.Console)
  (Hset : gives_each_once set_iter)
  (Htyped : UserInput.typed c = line :: line2 :: rest)
  (Hrun : UserInput.get_user_input L set_iter configs c = (Ok (Some (selected, d)), c')) :
  selected <> []
  /\ (In "0" (split_chr "," (strip line)) -> selected = configs)
  /\ (~ In "0" (split_chr "," (strip line)) ->
      exists indices,
        NoDup indices
        /\ (forall i, In i indices <->
                      typed_number line i /\ 1 <= i <= Z.of_nat (List.length configs))
        /\ map Some selected
           = map (fun i => nth_error configs (Z.to_nat (i - 1))) indices)
  /\ (forall dt, strptime L (strip line2) "%d-%m-%y" = Ok dt -> d = dt_date dt)
  /\ (forall e, strptime L (strip line2) "%d-%m-%y" = Raise e ->
        d = UserInput.MIN_DATE /\ exn_class e = ValueError)
  /\ UserInput.typed c' = rest.
Proof.
  unfold UserInput.get_user_input in Hrun.
  match type of Hrun with
  | context [UserInput.input _ ?c0] =>
      assert (Ht : UserInput.typed c0 = line :: line2 :: rest)
        by (destruct (_ =? 1); cbn [UserInput.println UserInput.print_end UserInput.typed];
            rewrite print_sites_typed; exact Htyped);
      set (c1 := c0) in *
  end.
  unfold UserInput.input at 1 in Hrun. rewrite Ht in Hrun.
  match type of Hrun with
  | context [match ?sel with Ok _ => _ | Raise _ => _ | Diverge => _ end] =>
      destruct sel as [[|cfg chosen]|e|] eqn:Hsel
  end.
  - discriminate Hrun.
  - unfold UserInput.input in Hrun. cbn [UserInput.typed] in Hrun.
    assert (Hdate : (forall dt, strptime L (strip line2) "%d-%m-%y" = Ok dt ->
                                d = dt_date dt)
                    /\ (forall e, strptime L (strip line2) "%d-%m-%y" = Raise e ->
                          d = UserInput.MIN_DATE /\ exn_class e = ValueError)
                    /\ UserInput.typed c' = rest /\ selected = cfg :: chosen).
    { destruct (strptime L (strip line2) "%d-%m-%y") as [dt|e|] eqn:Hstr.
      - injection Hrun as <- <- <-.
        split; [now intros dt' [= <-]|]. split; [intros e He; discriminate He|].
        split; reflexivity.
      - destruct (exc_class_eqb (exn_class e) ValueError) eqn:Hclass; [|discriminate Hrun].
        apply exc_class_eqb_eq in Hclass. injection Hrun as <- <- <-.
        split; [intros dt Hdt; discriminate Hdt|].
        split; [intros e' [= <-]; auto|]. split; reflexivity.
      - discriminate Hrun. }
    destruct Hdate as (Hok & Hbad & Hrest & ->).
    split; [discriminate|]. split; [|split; [|auto]].
    + intros Hzero. apply existsb_eqb_In in Hzero. rewrite Hzero in Hsel.
      now injection Hsel as <-.
    + intros Hzero.
      destruct (existsb (String.eqb "0") (split_chr "," (strip line))) eqn:E;
        [now apply existsb_eqb_In in E|].
      destruct (UserInput.read_indices (split_chr "," (strip line))) as [added| |] eqn:Hread;
        try discriminate Hsel.
      cbn [obind] in Hsel. injection Hsel as Hsel.
      destruct (Hset added) as [Hnodup Hin].
      exists (filter (fun i => (1 <=? i) && (i <=? Z.of_nat (List.length configs)))
                     (set_iter added)).
      split; [now apply NoDup_filter|]. split.
      * intros i. rewrite filter_In, Hin, (read_indices_spec _ _ Hread i).
        unfold typed_number. rewrite andb_true_iff, !Z.leb_le. tauto.
      * rewrite <- Hsel. apply pick_spec.
  - destruct (exc_class_eqb (exn_class e) ValueError); discriminate Hrun.
  - discriminate Hrun.
Qed.

Lemma first_added_gives_each_once : gives_each_once Examples.first_added.
Proof.
  intros l. split; [apply NoDup_nodup|]. intros i. apply nodup_In.
Qed.

Lemma get_user_input_selection_witness :
  let typed := {| UserInput.typed := ["2, x,2 ,7"; " 10-01-25"]; UserInput.shown := "" |} in
  let second := Examples.quiet_config "CyberSecurity Dive" Demo.dive_base in
  let run := UserInput.get_user_input Examples.typed_dates_lib Examples.first_added
               Examples.three_sites typed in
  fst run = Ok (Some ([second], ymd2ord 2025 1 10))
  /\ UserInput.typed (snd run) = [].
Proof.
  intros typed second run.
  assert (Hfst : fst run = Ok (Some ([second], ymd2ord 2025 1 10)))
    by (vm_compute; reflexivity).
  assert (Hrun : run = (Ok (Some ([second], ymd2ord 2025 1 10)), snd run))
    by (rewrite <- Hfst; apply surjective_pairing).
  split; [exact Hfst|].
  exact (proj2 (proj2 (proj2 (proj2 (proj2
           (get_user_input_selection Examples.typed_dates_lib Examples.first_added
              Examples.three_sites [second] "2, x,2 ,7" " 10-01-25" []
              (ymd2ord 2025 1 10) typed (snd run) first_added_gives_each_once
              eq_refl Hrun)))))).
Defined.

Lemma int_of_refuses (s : string) (e : exn) :
  UserInput.int_of s = Raise e ->
  exn_class e = ValueError
  /\ (UrlParse.str_forallb isdigit s = false \/ (4300 < String.length s)%nat).
Proof.
  unfold UserInput.int_of.
  destruct (UrlParse.str_forallb isdigit s); cbn [negb].
  - destruct (Nat.ltb_spec 4300 (String.length s)); [|discriminate].
    intros [= <-]. auto.
  - intros [= <-]. auto.
Qed.

Lemma read_indices_raises (items : list string) (e : exn) :
  UserInput.read_indices items = Raise e ->
  exn_class e = ValueError
  /\ exists item, In item items /\ UserInput.str_isdigit (strip item) = true
                  /\ (UrlParse.str_forallb isdigit (strip item) = false
                      \/ (4300 < String.length (strip item))%nat).
Proof.
  induction items as [|item items IH]; cbn [UserInput.read_indices]; [discriminate|].
  destruct (UserInput.str_isdigit (strip item)) eqn:Hd.
  - destruct (UserInput.int_of (strip item)) as [n|e'|] eqn:Hn; cbn [obind].
    + destruct (UserInput.read_indices items) as [l|e'|]; cbn [obind]; try discriminate.
      intros [= <-]. destruct (IH eq_refl) as [Hc (x & Hx & Hdx & Hbad)].
      split; [assumption|]. exists x. repeat split; auto. now right.
    + intros [= <-]. apply int_of_refuses in Hn as [Hc Hbad].
      split; [assumption|]. exists item. repeat split; auto. now left.
    + discriminate.
  - intros H. destruct (IH H) as [Hc (x & Hx & Hdx & Hbad)].
    split; [assumption|]. exists x. repeat split; auto. now right.
Qed.

(** X25: when [get_user_input] returns no selection, the second question
    is not asked, and one of two lines was printed.  [No valid websites
    selected] means that no number typed is the number of a site (or that
    [0] was typed for an empty configuration): items that are not numbers
    and numbers out of range are ignored without a word.  [Invalid input]
    is printed only when an item is made of digits for [isdigit] and is
    refused by [int]: it has a superscript digit in it, or more than 4300
    digits; letters and signs never lead there. *)
Theorem get_user_input_no_selection (L : Lib) (set_iter : list Z -> list Z)
  (configs : list config) (line : string) (rest : list string)
  (c c' : UserInput.Console)
  (Hset : gives_each_once set_iter)
  (Htyped : UserInput.typed c = line :: rest)
  (Hrun : UserInput.get_user_input L set_iter configs c = (Ok None, c')) :
  UserInput.typed c' = rest
  /\ ((exists c1, c' = UserInput.println "No valid websites selected. Exiting..." c1)
      /\ (In "0" (split_chr "," (strip line)) -> configs = [])
      /\ (~ In "0" (split_chr "," (strip line)) ->
          forall i, typed_number line i -> ~ 1 <= i <= Z.of_nat (List.length configs))
      \/ (exists c1, c' = UserInput.println "Invalid input. Please enter numbers only." c1)
         /\ exists item,
              In item (split_chr "," (strip line))
              /\ UserInput.str_isdigit (strip item) = true
              /\ (UrlParse.str_forallb isdigit (strip item) = false
                  \/ (4300 < String.length (strip item))%nat)).
Proof.
  unfold UserInput.get_user_input in Hrun.
  match type of Hrun with
  | context [UserInput.input _ ?c0] =>
      assert (Ht : UserInput.typed c0 = line :: rest)
        by (destruct (_ =? 1); cbn [UserInput.println UserInput.print_end UserInput.typed];
            rewrite print_sites_typed; exact Htyped);
      set (c1 := c0) in *
  end.
  unfold UserInput.input at 1 in Hrun. rewrite Ht in Hrun.
  match type of Hrun with
  | context [match ?sel with Ok _ => _ | Raise _ => _ | Diverge => _ end] =>
      destruct sel as [[|cfg chosen]|e|] eqn:Hsel
  end.
  - injection Hrun as <-. split; [reflexivity|]. left.
    split; [eexists; reflexivity|]. split.
    + intros Hzero. apply existsb_eqb_In in Hzero. rewrite Hzero in Hsel.
      now injection Hsel as <-.
    + intros Hzero i Hi Hrange.
      destruct (existsb (String.eqb "0") (split_chr "," (strip line))) eqn:E;
        [now apply existsb_eqb_In in E|].
      destruct (UserInput.read_indices (split_chr "," (strip line))) as [added| |] eqn:Hread;
        try discriminate Hsel.
      cbn [obind] in Hsel. injection Hsel as Hsel.
      pose proof (pick_spec configs (set_iter added)) as Hpick.
      rewrite Hsel in Hpick. cbn [map] in Hpick.
      assert (Hin : In i (filter (fun i => (1 <=? i)
                                           && (i <=? Z.of_nat (List.length configs)))
                                 (set_iter added))).
      { apply filter_In. split.
        - apply (proj2 (Hset added)), (read_indices_spec _ _ Hread i). exact Hi.
        - apply andb_true_iff. rewrite !Z.leb_le. exact Hrange. }
      destruct (filter _ (set_iter added)); [contradiction|discriminate Hpick].
  - unfold UserInput.input in Hrun. cbn [UserInput.typed] in Hrun.
    destruct rest as [|line2 rest]; [discriminate Hrun|].
    destruct (strptime L (strip line2) "%d-%m-%y") as [dt|e|]; try discriminate Hrun.
    destruct (exc_class_eqb (exn_class e) ValueError); discriminate Hrun.
  - destruct (existsb (String.eqb "0") (split_chr "," (strip line))); [discriminate Hsel|].
    destruct (UserInput.read_indices (split_chr "," (strip line))) as [added|e'|] eqn:Hread;
      try discriminate Hsel.
    cbn [obind] in Hsel. injection Hsel as <-.
    apply read_indices_raises in Hread as [Hclass Hitem].
    rewrite Hclass in Hrun. cbn [exc_class_eqb] in Hrun. injection Hrun as <-.
    split; [reflexivity|]. right. split; [eexists; reflexivity|exact Hitem].
  - discriminate Hrun.
Qed.

Lemma get_user_input_no_selection_witness :
  let superscript_two := String (ascii_of_nat 178) EmptyString in
  let typed line := {| UserInput.typed := [line; "10-01-25"]; UserInput.shown := "" |} in
  let ask line :=
    UserInput.get_user_input Examples.typed_dates_lib Examples.first_added
      Examples.three_sites (typed line) in
  fst (ask "x, -1, 7") = Ok None
  /\ fst (ask superscript_two) = Ok None
  /\ UserInput.typed (snd (ask "x, -1, 7")) = ["10-01-25"]
  /\ UserInput.typed (snd (ask superscript_two)) = ["10-01-25"].
Proof.
  intros superscript_two typed ask.
  assert (H1 : fst (ask "x, -1, 7") = Ok None) by (vm_compute; reflexivity).
  assert (H2 : fst (ask superscript_two) = Ok None) by (vm_compute; reflexivity).
  assert (R1 : ask "x, -1, 7" = (Ok None, snd (ask "x, -1, 7")))
    by (rewrite <- H1; apply surjective_pairing).
  assert (R2 : ask superscript_two = (Ok None, snd (ask superscript_two)))
    by (rewrite <- H2; apply surjective_pairing).
  split; [exact H1|]. split; [exact H2|]. split.
  - exact (proj1 (get_user_input_no_selection Examples.typed_dates_lib
                    Examples.first_added Examples.three_sites
                    "x, -1, 7" ["10-01-25"] (typed "x, -1, 7") (snd (ask "x, -1, 7"))
                    first_added_gives_each_once eq_refl R1)).
  - exact (proj1 (get_user_input_no_selection Examples.typed_dates_lib
                    Examples.first_added Examples.three_sites
                    superscript_two ["10-01-25"] (typed superscript_two)
                    (snd (ask superscript_two)) first_added_gives_each_once eq_refl R2)).
Defined.

(** ** A site that cannot be reached *)

(** X26: a site whose first page is answered with a status other than 200
    is not reported as an error.  The controller prints that the page
    could not be retrieved and returns an empty list, and the run over the
    sites prints that it successfully scraped 0 articles from the site and
    leaves its set and its list of errors as they were; only an exception
    (a transport error, a page of an unexpected shape) puts a site on the
    list of errors. *)
Theorem unreachable_site_counts_as_success (L : Lib) (min_date : Date) (c : config)
  (r : response) (all_articles : list Article) (errors : list (string * string))
  (w : World)
  (Hanswer : http_get L (requests w) false (config_url c) = Ok r)
  (Hstatus : status_code r <> 200) :
  let refused := printed (sent w false (config_url c))
                   ("Failed to retrieve " +++ config_url c) in
  let success := LF +++ "Successfully scraped 0 articles from " +++ config_name c in
  (config_scraper_class c = (fun u d => SCADAfenceScraper.scrape L u d) ->
   scrape_site L min_date (all_articles, errors) c w
   = (Ok (all_articles, errors), printed refused success))
  /\ (forall fuel,
        config_scraper_class c
        = (fun u d => InfoSecurityMagazineScraper.scrape L u d (S fuel)) ->
        scrape_site L min_date (all_articles, errors) c w
        = (Ok (all_articles, errors),
           printed (printed refused ("Failed to retrieve content from " +++ config_url c
                                     +++ ". Stopping.")) success)).
Proof.
  intros refused success.
  pose proof (fetch_refused L (config_url c) false r w Hanswer Hstatus) as Hfetch.
  split.
  - intros Hclass. rewrite scrape_site_cases, Hclass.
    unfold SCADAfenceScraper.scrape. rewrite (bind_step _ _ _ _ _ Hfetch).
    reflexivity.
  - intros fuel Hclass. rewrite scrape_site_cases, Hclass.
    unfold InfoSecurityMagazineScraper.scrape.
    cbn [InfoSecurityMagazineScraper.scrape_pages].
    change (1 <? 1) with false. cbv iota.
    rewrite (bind_step _ _ _ _ _ Hfetch). reflexivity.
Qed.

Lemma unreachable_site_counts_as_success_witness :
  let site := {| config_name := "SCADAfence"; config_scrape_type := "html";
                 config_url := "https://www.scadafence.com/missing";
                 config_scraper_class :=
                   fun u d => SCADAfenceScraper.scrape Examples.scadafence_lib u d |} in
  scrape_site Examples.scadafence_lib Demo.cutoff ([], []) site empty_world
  = (Ok ([], []),
     {| stdout := ["Failed to retrieve https://www.scadafence.com/missing";
                   LF +++ "Successfully scraped 0 articles from SCADAfence"];
        requests := [(false, "https://www.scadafence.com/missing")] |}).
Proof.
  intros site.
  refine (proj1 (unreachable_site_counts_as_success Examples.scadafence_lib Demo.cutoff
                   site {| status_code := 404; text := "Not Found" |} [] [] empty_world
                   eq_refl _) eq_refl).
  vm_compute. discriminate.
Defined.

(* ================================================================= *)
(** * Stale articles, relative dates, failed requests and failing sites *)

(** ** The pattern of a relative date *)

Lemma span_digits_split (s ds r : string) :
  span_digits s = (ds, r) -> s = ds +++ r.
Proof.
  revert ds r. induction s as [|c s IH]; intros ds r; cbn [span_digits].
  - now intros [= <- <-].
  - destruct (isdigit c).
    + destruct (span_digits s) as [ds' r']. intros [= <- <-].
      cbn [String.append]. f_equal. now apply IH.
    + now intros [= <- <-].
Qed.

Lemma lstrip_split (s : string) :
  exists sp, s = sp +++ lstrip s /\ UrlParse.str_forallb isspace sp = true.
Proof.
  induction s as [|c s (sp & Hs & Hsp)]; cbn [lstrip].
  - now exists EmptyString.
  - destruct (isspace c) eqn:Hc.
    + exists (String c sp). cbn [String.append UrlParse.str_forallb].
      rewrite Hc, Hsp. split; [now rewrite <- Hs|reflexivity].
    + now exists EmptyString.
Qed.

Lemma lstrip_app_space (sp s : string) :
  UrlParse.str_forallb isspace sp = true -> lstrip (sp +++ s) = lstrip s.
Proof.
  induction sp as [|c sp IH]; cbn [UrlParse.str_forallb String.append lstrip];
    [reflexivity|].
  intros H. apply andb_prop in H as [Hc Hsp]. rewrite Hc. auto.
Qed.

Lemma prefix_split (p s : string) :
  String.prefix p s = true -> s = p +++ drop (String.length p) s.
Proof.
  revert s. induction p as [|c p IH]; intros s.
  - reflexivity.
  - destruct s as [|c' s]; cbn [String.prefix]; [discriminate|].
    destruct (Ascii.ascii_dec c c') as [->|]; [|discriminate].
    intros H. cbn [String.length drop String.append]. f_equal. auto.
Qed.

Lemma match_unit_split (units : list string) (s u r : string) :
  match_unit units s = Some (u, r) -> s = u +++ r.
Proof.
  induction units as [|u' units IH]; cbn [match_unit]; [discriminate|].
  destruct (String.prefix u' s) eqn:E; [|exact IH].
  intros [= <- <-]. now apply prefix_split.
Qed.

Lemma match_ago_split (s : string) :
  match_ago s = true ->
  exists sp rest, s = sp +++ "ago" +++ rest /\ UrlParse.str_forallb isspace sp = true.
Proof.
  unfold match_ago. intros H. apply prefix_split in H.
  destruct (lstrip_split s) as (sp & Hs & Hsp).
  exists sp, (drop (String.length "ago") (lstrip s)). split; [|exact Hsp].
  now rewrite <- H.
Qed.

(** A match of the model is a match of the pattern. *)
Lemma match_here_sound (s ds u : string) :
  match_here s = Some (ds, u) ->
  exists space1 plural space2 rest,
    s = ds +++ space1 +++ u +++ plural +++ space2 +++ "ago" +++ rest
    /\ ds <> EmptyString
    /\ UrlParse.str_forallb isdigit ds = true
    /\ UrlParse.str_forallb isspace space1 = true
    /\ In u time_units
    /\ (plural = EmptyString \/ plural = "s")
    /\ UrlParse.str_forallb isspace space2 = true.
Proof.
  unfold match_here. destruct (span_digits s) as [ds' r] eqn:Hspan.
  pose proof (span_digits_digits _ _ _ Hspan) as Hdigits.
  apply span_digits_split in Hspan.
  destruct ds' as [|c ds']; [discriminate|].
  destruct (match_unit time_units (lstrip r)) as [[u' r']|] eqn:Hunit; [|discriminate].
  pose proof (match_unit_in _ _ _ _ Hunit) as Hin.
  apply match_unit_split in Hunit.
  destruct (lstrip_split r) as (sp1 & Hr & Hsp1). rewrite Hunit in Hr.
  destruct (match_ago r') eqn:Hago.
  - rewrite orb_true_r. intros [= <- <-].
    destruct (match_ago_split _ Hago) as (sp2 & rest & Hr' & Hsp2).
    exists sp1, EmptyString, sp2, rest.
    split; [|split; [discriminate|auto 6]].
    rewrite Hspan, Hr, Hr'. reflexivity.
  - rewrite orb_false_r.
    destruct r' as [|c' r'']; [discriminate|].
    destruct (Ascii.eqb_spec c' "s") as [->|Hne].
    + destruct (match_ago r'') eqn:Hago'; [|discriminate]. intros [= <- <-].
      destruct (match_ago_split _ Hago') as (sp2 & rest & Hr'' & Hsp2).
      exists sp1, "s", sp2, rest.
      split; [|split; [discriminate|auto 6]].
      rewrite Hspan, Hr, Hr''. reflexivity.
    + intros H. exfalso.
      destruct c' as [[] [] [] [] [] [] [] []]; try discriminate H.
      now apply Hne.
Qed.

Lemma re_search_sound (s ds u : string) :
  re_search s = Some (ds, u) -> matches_time_pattern s.
Proof.
  induction s as [|c s IH]; cbn [re_search].
  - destruct (match_here "") as [[ds' u']|] eqn:E; [|discriminate].
    intros _. apply match_here_sound in E as (sp1 & pl & sp2 & rest & H).
    exists EmptyString, ds', sp1, u', pl, sp2, rest. exact H.
  - destruct (match_here (String c s)) as [[ds' u']|] eqn:E.
    + intros _. apply match_here_sound in E as (sp1 & pl & sp2 & rest & H).
      exists EmptyString, ds', sp1, u', pl, sp2, rest. exact H.
    + intros H. destruct (IH H) as (pre & n & sp1 & u' & pl & sp2 & rest & Hs & Hrest).
      exists (String c pre), n, sp1, u', pl, sp2, rest.
      split; [|exact Hrest]. cbn [String.append]. now rewrite Hs.
Qed.

Lemma space_not_digit (c : ascii) : isspace c = true -> isdigit c = false.
Proof.
  unfold isspace, isdigit. cbv zeta. intros H.
  destruct (N.leb_spec 48 (N_of_ascii c)); [|reflexivity].
  destruct (N.leb_spec (N_of_ascii c) 57); [|reflexivity].
  exfalso.
  repeat match type of H with
  | context [(?a <=? ?b)%N] => destruct (N.leb_spec a b); try lia
  | context [(?a =? ?b)%N] => destruct (N.eqb_spec a b); try lia
  end; discriminate H.
Qed.

(** Where the pattern stands, the model finds it. *)
Lemma match_here_complete (number space1 u plural space2 rest : string) :
  number <> EmptyString ->
  UrlParse.str_forallb isdigit number = true ->
  UrlParse.str_forallb isspace space1 = true ->
  In u time_units ->
  plural = EmptyString \/ plural = "s" ->
  UrlParse.str_forallb isspace space2 = true ->
  match_here (number +++ space1 +++ u +++ plural +++ space2 +++ "ago" +++ rest)
  = Some (number, u).
Proof.
  intros Hne Hnumber Hsp1 Hu Hplural Hsp2. unfold match_here.
  assert (Hago : match_ago (space2 +++ "ago" +++ rest) = true).
  { unfold match_ago. rewrite lstrip_app_space by assumption.
    cbn [String.append lstrip]. change (isspace "a") with false. cbv iota.
    now destruct rest. }
  assert (Htail : forall tail,
             match tail with
             | String "s" r'' => match_ago r''
             | _ => false
             end || match_ago tail = true ->
             match_unit time_units (lstrip (u +++ tail)) = Some (u, tail) ->
             match span_digits (number +++ space1 +++ u +++ tail) with
             | (EmptyString, _) => None
             | (String c ds as ds0, r) =>
                 match match_unit time_units (lstrip r) with
                 | None => None
                 | Some (u0, r') =>
                     if match r' with
                        | String "s" r'' => match_ago r''
                        | _ => false
                        end || match_ago r'
                     then Some (ds0, u0) else None
                 end
             end = Some (number, u)).
  { intros tail Htail Hunit.
    rewrite span_digits_app; [|assumption|].
    - destruct number as [|c number]; [contradiction|].
      rewrite lstrip_app_space by assumption. rewrite Hunit. now rewrite Htail.
    - destruct space1 as [|c space1].
      + cbn [String.append].
        simpl in Hu. decompose [or] Hu; subst; try contradiction; reflexivity.
      + cbn [String.append]. cbn [UrlParse.str_forallb] in Hsp1.
        apply andb_prop in Hsp1 as [Hc _]. now apply space_not_digit. }
  apply Htail.
  - set (tail := space2 +++ "ago" +++ rest) in *.
    destruct Hplural as [->| ->]; cbn [String.append].
    + rewrite Hago. apply orb_true_r.
    + now rewrite Hago.
  - simpl in Hu.
    decompose [or] Hu; subst; try contradiction;
      now destruct (plural +++ space2 +++ "ago" +++ rest).
Qed.

Lemma re_search_complete (s : string) :
  matches_time_pattern s -> re_search s <> None.
Proof.
  intros (pre & n & sp1 & u & pl & sp2 & rest & -> & Hne & Hn & Hsp1 & Hu & Hpl & Hsp2).
  pose proof (match_here_complete n sp1 u pl sp2 rest Hne Hn Hsp1 Hu Hpl Hsp2) as Hhere.
  set (found := n +++ sp1 +++ u +++ pl +++ sp2 +++ "ago" +++ rest) in *.
  induction pre as [|c pre IH].
  - cbn [String.append]. now rewrite (re_search_here _ _ Hhere).
  - cbn [String.append re_search].
    destruct (match_here (String c _)); [discriminate|exact IH].
Qed.

Lemma offset_of_known (u : string) (q : Z) :
  In u time_units -> offset_of u q <> None.
Proof.
  intros Hu. simpl in Hu. decompose [or] Hu; subst; try contradiction; discriminate.
Qed.

(** [calculate_article_date] returns [None] exactly on the texts in which
    the pattern stands nowhere. *)
Lemma calculate_article_date_none (today : datetime) (s : string) :
  calculate_article_date today s = Ok None <-> ~ matches_time_pattern s.
Proof.
  unfold calculate_article_date. split.
  - intros H Hmatch. apply re_search_complete in Hmatch.
    destruct (re_search s) as [[ds u]|] eqn:E; [|now apply Hmatch].
    apply re_search_groups in E as [_ Hu].
    pose proof (offset_of_known u (int ds) Hu) as Hsome.
    destruct (offset_of u (int ds)) as [[td|e|]|]; [| | |now apply Hsome];
      try discriminate H.
    cbn [obind] in H. destruct (datetime_sub today td); discriminate H.
  - intros Hnone. destruct (re_search s) as [[ds u]|] eqn:E; [|reflexivity].
    exfalso. apply Hnone. exact (re_search_sound _ _ _ E).
Qed.

(** Going back to before the first day of year 1 raises [OverflowError]. *)
Lemma back_days_overflow (today : datetime) (q : Z) :
  datetime_ok today -> dt_ordinal today <= q ->
  exists e,
    obind (mk_timedelta q 0 0 0 0) (fun delta =>
      obind (datetime_sub today delta) (fun article_date =>
        Ok (Some (dt_date article_date))))
    = Raise e /\ exn_class e = OverflowError.
Proof.
  intros [[Hlo Hhi] Hsec] Hq. unfold MINORDINAL, MAXORDINAL in *.
  destruct (mk_timedelta q 0 0 0 0) as [td|e|] eqn:Htd.
  - cbn [obind]. unfold mk_timedelta in Htd.
    replace (0 + 60 * 0 + 3600 * 0) with 0 in Htd by reflexivity.
    replace (q + 7 * 0 + 0 / 86400) with q in Htd by (cbn; lia).
    destruct (Z.abs q <=? 999999999); [|destruct (_ && _); discriminate Htd].
    apply (f_equal (fun o => match o with Ok t => t | _ => td end)) in Htd.
    subst td. unfold datetime_sub. cbv beta iota zeta delta [td_days td_seconds].
    replace (0 mod 86400) with 0 by reflexivity.
    assert (Hdiv : (dt_ordinal today * 86400 + dt_second today - (q * 86400 + 0)) / 86400
                   = dt_ordinal today - q).
    { symmetry. apply Z.div_unique with (r := dt_second today); lia. }
    rewrite Hdiv. unfold MINORDINAL.
    destruct (Z.leb_spec 1 (dt_ordinal today - q)); [lia|].
    cbn [andb obind]. eexists. split; reflexivity.
  - cbn [obind]. exists e. split; [reflexivity|]. exact (mk_timedelta_raises _ _ _ _ _ _ Htd).
  - now apply mk_timedelta_returns in Htd.
Qed.

Lemma back_weeks_overflow (today : datetime) (q : Z) :
  datetime_ok today -> dt_ordinal today <= 7 * q ->
  exists e,
    obind (mk_timedelta 0 0 0 0 q) (fun delta =>
      obind (datetime_sub today delta) (fun article_date =>
        Ok (Some (dt_date article_date))))
    = Raise e /\ exn_class e = OverflowError.
Proof.
  intros Hok Hq. destruct (back_days_overflow today (7 * q) Hok Hq) as (e & He & Hc).
  exists e. split; [|exact Hc]. rewrite <- He.
  assert (E : 0 + 7 * q + (0 + 60 * 0 + 3600 * 0) / 86400
              = 7 * q + 7 * 0 + (0 + 60 * 0 + 3600 * 0) / 86400) by lia.
  unfold mk_timedelta. rewrite E. reflexivity.
Qed.

(** C4, as amended: at the current time [today],
    [calculate_article_date] maps ["3 days ago"] to the date 3 days before,
    ["1 week ago"] to the date 7 days before, and ["<n> days ago"],
    ["<n> weeks ago"], ["<n> months ago"] and ["<n> years ago"] to the date
    [n], [7 * n], [30 * n] and [365 * n] days before, whenever that date
    exists; when it would be before the first day of year 1 the call raises
    [OverflowError] ([n] written with at most 4300 digits).  It returns
    [None] exactly on the texts in which the pattern (digits, white space
    or none, a unit, an [s] or none, white space or none, [ago]) stands
    nowhere: so after a number, for a word that no unit starts, and for a
    text without [ago]; and the [else] branch over the unit returns [None]
    as well. *)
Theorem calculate_article_date_relative (today : datetime) (n : nat)
  (Htoday : datetime_ok today) :
  (3 < dt_ordinal today ->
   calculate_article_date today "3 days ago" = Ok (Some (dt_date today - 3)))
  /\ (7 < dt_ordinal today ->
      calculate_article_date today "1 week ago" = Ok (Some (dt_date today - 7)))
  /\ (Z.of_nat n < dt_ordinal today ->
      calculate_article_date today (str_of_nat n +++ " days ago")
      = Ok (Some (dt_date today - Z.of_nat n)))
  /\ (7 * Z.of_nat n < dt_ordinal today ->
      calculate_article_date today (str_of_nat n +++ " weeks ago")
      = Ok (Some (dt_date today - 7 * Z.of_nat n)))
  /\ (30 * Z.of_nat n < dt_ordinal today ->
      calculate_article_date today (str_of_nat n +++ " months ago")
      = Ok (Some (dt_date today - 30 * Z.of_nat n)))
  /\ (365 * Z.of_nat n < dt_ordinal today ->
      calculate_article_date today (str_of_nat n +++ " years ago")
      = Ok (Some (dt_date today - 365 * Z.of_nat n)))
  /\ ((String.length (str_of_nat n) <= 4300)%nat ->
      (dt_ordinal today <= Z.of_nat n ->
       exists e, calculate_article_date today (str_of_nat n +++ " days ago") = Raise e
                 /\ exn_class e = OverflowError)
      /\ (dt_ordinal today <= 7 * Z.of_nat n ->
          exists e, calculate_article_date today (str_of_nat n +++ " weeks ago") = Raise e
                    /\ exn_class e = OverflowError)
      /\ (dt_ordinal today <= 30 * Z.of_nat n ->
          exists e, calculate_article_date today (str_of_nat n +++ " months ago") = Raise e
                    /\ exn_class e = OverflowError)
      /\ (dt_ordinal today <= 365 * Z.of_nat n ->
          exists e, calculate_article_date today (str_of_nat n +++ " years ago") = Raise e
                    /\ exn_class e = OverflowError))
  /\ (forall s, calculate_article_date today s = Ok None <-> ~ matches_time_pattern s)
  /\ (forall w, is_word w = true -> no_unit_prefix w = true ->
        calculate_article_date today (str_of_nat n +++ " " +++ w +++ " ago") = Ok None)
  /\ calculate_article_date today "3 fortnights ago" = Ok None
  /\ calculate_article_date today "3 days" = Ok None
  /\ (forall time_unit quantity,
        ~ In time_unit time_units -> offset_of time_unit quantity = None).
Proof.
  repeat match goal with |- _ /\ _ => split end.
  - intros Hrange. change "3 days ago" with (str_of_nat 3 +++ " days ago").
    unfold calculate_article_date. rewrite re_search_days, int_str_of_nat.
    cbn [offset_of String.eqb Ascii.eqb Bool.eqb].
    apply back_whole_days; [assumption|lia].
  - intros Hrange. change "1 week ago" with (str_of_nat 1 +++ " week ago").
    unfold calculate_article_date.
    replace (re_search (str_of_nat 1 +++ " week ago"))
      with (Some (str_of_nat 1, "week")) by reflexivity.
    rewrite int_str_of_nat.
    cbn [offset_of String.eqb Ascii.eqb Bool.eqb].
    apply (back_whole_weeks today 1); [assumption|lia].
  - intros Hrange. unfold calculate_article_date. rewrite re_search_days, int_str_of_nat.
    cbn [offset_of String.eqb Ascii.eqb Bool.eqb].
    apply back_whole_days; [assumption|lia].
  - intros Hrange. unfold calculate_article_date. rewrite re_search_weeks, int_str_of_nat.
    cbn [offset_of String.eqb Ascii.eqb Bool.eqb].
    apply back_whole_weeks; [assumption|lia].
  - intros Hrange. unfold calculate_article_date. rewrite re_search_months, int_str_of_nat.
    cbn [offset_of String.eqb Ascii.eqb Bool.eqb].
    apply back_whole_days; [assumption|lia].
  - intros Hrange. unfold calculate_article_date. rewrite re_search_years, int_str_of_nat.
    cbn [offset_of String.eqb Ascii.eqb Bool.eqb].
    apply back_whole_days; [assumption|lia].
  - intros _. split; [|split; [|split]]; intros Hrange; unfold calculate_article_date.
    + rewrite re_search_days, int_str_of_nat.
      cbn [offset_of String.eqb Ascii.eqb Bool.eqb]. now apply back_days_overflow.
    + rewrite re_search_weeks, int_str_of_nat.
      cbn [offset_of String.eqb Ascii.eqb Bool.eqb]. now apply back_weeks_overflow.
    + rewrite re_search_months, int_str_of_nat.
      cbn [offset_of String.eqb Ascii.eqb Bool.eqb]. now apply back_days_overflow.
    + rewrite re_search_years, int_str_of_nat.
      cbn [offset_of String.eqb Ascii.eqb Bool.eqb]. now apply back_days_overflow.
  - intros s. apply calculate_article_date_none.
  - intros w Hw Hu. unfold calculate_article_date.
    rewrite re_search_unknown_unit; auto using str_of_nat_digits.
  - reflexivity.
  - reflexivity.
  - intros time_unit quantity Hnot. unfold offset_of.
    repeat match goal with
    | |- context [String.eqb time_unit ?u] =>
        destruct (String.eqb_spec time_unit u) as [->|_];
        [exfalso; apply Hnot; simpl; tauto|]
    end.
    reflexivity.
Qed.

Lemma calculate_article_date_relative_witness :
  calculate_article_date noon_5_jan_2025 "3 days ago" = Ok (Some (ymd2ord 2025 1 2))
  /\ calculate_article_date noon_5_jan_2025 "1 week ago" = Ok (Some (ymd2ord 2024 12 29))
  /\ calculate_article_date noon_5_jan_2025 "2 months ago" = Ok (Some (ymd2ord 2024 11 6))
  /\ calculate_article_date noon_5_jan_2025 "2 years ago" = Ok (Some (ymd2ord 2023 1 6))
  /\ ~ matches_time_pattern "3 days".
Proof.
  assert (Hok : datetime_ok noon_5_jan_2025)
    by (unfold datetime_ok, MINORDINAL, MAXORDINAL; vm_compute; intuition discriminate).
  pose proof (calculate_article_date_relative noon_5_jan_2025 2 Hok)
    as (H3 & H1 & _ & _ & Hm & Hy & _ & Hnone & _ & _ & Hdays & _).
  split; [exact (H3 eq_refl)|]. split; [exact (H1 eq_refl)|].
  split; [exact (Hm eq_refl)|]. split; [exact (Hy eq_refl)|].
  exact (proj1 (Hnone "3 days") Hdays).
Defined.

(** ** A request that raises *)

Lemma fetch_raises (L : Lib) (u : string) (cloud : bool) (e : exn) (w : World) :
  http_get L (requests w) cloud u = Raise e ->
  fetch_page_content L u cloud w = (Raise e, sent w cloud u).
Proof.
  intros Hdown. unfold fetch_page_content, send, bind, sent. now rewrite Hdown.
Qed.

(** C6, as amended: on status 200 [fetch_page_content] returns the body;
    on another status it prints a message and returns [None]; an exception
    raised by the HTTP client (a transport error) is not caught: it is the
    outcome of the call, and of whatever the caller goes on to do with the
    page.  The controllers whose first request is for the URL of the site
    do not catch it either, [scrape] raises it; and the body of the loop of
    [scrape_selected_sites] catches it: it prints the error, puts the name
    of the site and the message on record and returns. *)
Theorem fetch_page_content_outcomes (L : Lib) (u : string) (use_cloudscraper : bool)
  (w : World) :
  fetch_page_content L u use_cloudscraper w =
  match http_get L (requests w) use_cloudscraper u with
  | Ok r =>
      if status_code r =? 200
      then (Ok (Some (text r)), sent w use_cloudscraper u)
      else (Ok None, printed (sent w use_cloudscraper u) ("Failed to retrieve " +++ u))
  | Raise e => (Raise e, sent w use_cloudscraper u)
  | Diverge => (Diverge, sent w use_cloudscraper u)
  end
  /\ (forall e,
        http_get L (requests w) use_cloudscraper u = Raise e ->
        let failed := (Raise e, sent w use_cloudscraper u) in
        (forall (B : Type) (k : option string -> M B),
           (page_content <- fetch_page_content L u use_cloudscraper ;; k page_content) w
           = (Raise e, sent w use_cloudscraper u))
        /\ (forall min_date fuel,
              (use_cloudscraper = false ->
               InfoSecurityMagazineScraper.scrape L u min_date (S fuel) w = failed
               /\ CyberSecurityDiveScraper.scrape L u min_date (S fuel) w = failed
               /\ SecurityAffairsScraper.scrape L u min_date (S fuel) w = failed
               /\ SectrioScraper.scrape L u min_date (S fuel) w = failed
               /\ SCADAfenceScraper.scrape L u min_date w = failed)
              /\ (use_cloudscraper = true ->
                  CISAScraper.scrape L u min_date (S fuel) w = failed
                  /\ BleepingComputerScraper.scrape L u min_date (S fuel) w = failed))
        /\ (forall c min_date all_articles errors,
              config_scraper_class c (config_url c) min_date w = failed ->
              scrape_site L min_date (all_articles, errors) c w
              = (Ok (all_articles, errors ++ [(config_name c, exn_msg e)]),
                 printed (sent w use_cloudscraper u)
                   (LF +++ "Error scraping " +++ config_name c +++ ": " +++ exn_msg e)))).
Proof.
  split.
  - unfold fetch_page_content, bind, send, sent, printed.
    destruct (http_get L (requests w) use_cloudscraper u) as [r|e|]; try reflexivity.
    destruct (status_code r =? 200); reflexivity.
  - intros e Hdown failed. pose proof (fetch_raises L u use_cloudscraper e w Hdown) as Hfetch.
    split; [|split].
    + intros B k. exact (bind_raise _ _ _ _ _ Hfetch).
    + intros min_date fuel. split; intros ->.
      * repeat split.
        -- unfold InfoSecurityMagazineScraper.scrape.
           cbn [InfoSecurityMagazineScraper.scrape_pages].
           change (1 <? 1) with false. cbv iota. exact (bind_raise _ _ _ _ _ Hfetch).
        -- unfold CyberSecurityDiveScraper.scrape.
           cbn [CyberSecurityDiveScraper.scrape_pages].
           change (1 <? 1) with false. cbv iota. exact (bind_raise _ _ _ _ _ Hfetch).
        -- unfold SecurityAffairsScraper.scrape.
           cbn [SecurityAffairsScraper.scrape_pages].
           change (1 <? 1) with false. cbv iota. exact (bind_raise _ _ _ _ _ Hfetch).
        -- unfold SectrioScraper.scrape. cbn [SectrioScraper.scrape_pages].
           exact (bind_raise _ _ _ _ _ Hfetch).
        -- unfold SCADAfenceScraper.scrape. exact (bind_raise _ _ _ _ _ Hfetch).
      * split.
        -- unfold CISAScraper.scrape. cbn [CISAScraper.scrape_pages].
           change (1 <? 1) with false. cbv iota. apply bind_raise.
           unfold CISAScraper.scrape_page. exact (bind_raise _ _ _ _ _ Hfetch).
        -- unfold BleepingComputerScraper.scrape.
           cbn [BleepingComputerScraper.scrape_pages]. apply bind_raise.
           unfold BleepingComputerScraper.build_page_url.
           change (1 <? 1) with false. cbv iota. exact (bind_raise _ _ _ _ _ Hfetch).
    + intros c min_date all_articles errors Hsite.
      rewrite scrape_site_cases. unfold failed in Hsite. now rewrite Hsite.
Qed.

Lemma fetch_page_content_outcomes_witness :
  let site := {| config_name := "SCADAfence"; config_scrape_type := "html";
                 config_url := "https://blog.scadafence.com/";
                 config_scraper_class := SCADAfenceScraper.scrape Demo.down_lib |} in
  SCADAfenceScraper.scrape Demo.down_lib "https://blog.scadafence.com/" Demo.cutoff
    empty_world
  = (Raise (Exn RequestException "Connection refused"),
     sent empty_world false "https://blog.scadafence.com/")
  /\ scrape_site Demo.down_lib Demo.cutoff ([], []) site empty_world
     = (Ok ([], [("SCADAfence", "Connection refused")]),
        printed (sent empty_world false "https://blog.scadafence.com/")
          (LF +++ "Error scraping SCADAfence: Connection refused")).
Proof.
  intros site.
  destruct (proj2 (fetch_page_content_outcomes Demo.down_lib
                     "https://blog.scadafence.com/" false empty_world)
              (Exn RequestException "Connection refused") eq_refl)
    as (_ & Hcontrollers & Hsite).
  destruct (proj1 (Hcontrollers Demo.cutoff 0%nat) eq_refl) as (_ & _ & _ & _ & Hscada).
  split; [exact Hscada|].
  exact (Hsite site Demo.cutoff [] [] Hscada).
Defined.

(** ** A site that fails *)

Lemma print_errors_run (errors : list (string * string)) (w : World) :
  print_errors errors w
  = (Ok tt, {| stdout := stdout w ++ map error_line errors; requests := requests w |}).
Proof.
  revert w. induction errors as [|[site error] errors IH]; intros w; cbn [print_errors map].
  - unfold ret. rewrite app_nil_r. now destruct w.
  - unfold bind at 1, print at 1. rewrite IH. cbn [stdout requests].
    now rewrite <- app_assoc.
Qed.

(** What [scrape_selected_sites] does once the loop over the sites has
    returned: it returns the set of the loop, and has printed every error
    on record. *)
Lemma scrape_selected_sites_run (L : Lib) (configs : list config) (min_date : Date)
  (w w1 : World) (all : list Article) (errors : list (string * string)) :
  webdriver_Chrome L = Ok tt -> driver_quit L = Ok tt ->
  scrape_sites L min_date configs ([], []) (printed w (LF +++ "Scraping in progress..."))
  = (Ok (all, errors), w1) ->
  exists w',
    scrape_selected_sites L configs min_date w = (Ok all, w')
    /\ (forall x, In x errors ->
          In (LF +++ "Errors occurred while scraping the following websites:") (stdout w')
          /\ In (error_line x) (stdout w')).
Proof.
  intros Hstart Hquit Hloop. unfold scrape_selected_sites.
  unfold bind at 1, print at 1, bind at 1, lift at 1. rewrite Hstart.
  fold (printed w (LF +++ "Scraping in progress...")).
  rewrite (bind_step _ _ _ _ _ Hloop).
  unfold bind at 1, print at 1. unfold bind at 1.
  destruct errors as [|x errors].
  - unfold ret at 1. unfold bind, lift. rewrite Hquit. unfold ret.
    eexists. split; [reflexivity|]. intros x [].
  - unfold bind at 1, print at 1. rewrite print_errors_run.
    unfold bind, lift. rewrite Hquit. unfold ret.
    eexists. split; [reflexivity|]. cbn [stdout]. intros y Hy. split.
    + apply in_or_app. left. apply in_or_app. right. now left.
    + apply in_or_app. right. now apply in_map.
Qed.

(** C7: when the controller of a site raises, the loop of
    [scrape_selected_sites] records the name of the site and the message
    in [errors], leaves [all_articles] as it was and goes on with the sites
    after it; the articles of a later site that returns are in the final
    set; the loop itself returns whenever the later controllers return or
    raise, the error still on record.  So does [scrape_selected_sites], with
    a browser session that starts and quits: it returns a set that has the
    articles gathered before the failing site and, by title and URL, every
    article of a later site that returns, and it has printed the name of
    the failing site with the message under the heading of the errors. *)
Theorem scrape_sites_continues_after_exception
  (L : Lib) (min_date : Date) (pre post : list config) (c : config)
  (st st1 : run_state) (w w1 w2 : World) (e : exn)
  (Hpre : scrape_sites L min_date pre st w = (Ok st1, w1))
  (Hraise : config_scraper_class c (config_url c) min_date w1 = (Raise e, w2)) :
  let recorded := (fst st1, snd st1 ++ [(config_name c, exn_msg e)]) in
  let after := printed w2 (LF +++ "Error scraping " +++ config_name c
                           +++ ": " +++ exn_msg e) in
  scrape_sites L min_date (pre ++ c :: post) st w
  = scrape_sites L min_date post recorded after
  /\ (forall later rest c2 st2 w3 w4 scraped st' w',
        post = later ++ c2 :: rest ->
        scrape_sites L min_date later recorded after = (Ok st2, w3) ->
        config_scraper_class c2 (config_url c2) min_date w3 = (Ok scraped, w4) ->
        scrape_sites L min_date (pre ++ c :: post) st w = (Ok st', w') ->
        forall a, In a scraped -> In (key a) (map key (fst st')))
  /\ ((forall c', In c' post -> forall w0,
         fst (config_scraper_class c' (config_url c') min_date w0) <> Diverge) ->
      exists st' w',
        scrape_sites L min_date (pre ++ c :: post) st w = (Ok st', w')
        /\ In (config_name c, exn_msg e) (snd st'))
  /\ (webdriver_Chrome L = Ok tt -> driver_quit L = Ok tt ->
      (forall c', In c' (pre ++ c :: post) -> forall w0,
         fst (config_scraper_class c' (config_url c') min_date w0) <> Diverge) ->
      forall w0, exists result w',
        scrape_selected_sites L (pre ++ c :: post) min_date w0 = (Ok result, w'))
  /\ (forall w0,
        st = ([], []) -> w = printed w0 (LF +++ "Scraping in progress...") ->
        webdriver_Chrome L = Ok tt -> driver_quit L = Ok tt ->
        (forall c', In c' post -> forall w',
           fst (config_scraper_class c' (config_url c') min_date w') <> Diverge) ->
        exists result w',
          scrape_selected_sites L (pre ++ c :: post) min_date w0 = (Ok result, w')
          /\ (forall a, In a (fst st1) -> In a result)
          /\ In (LF +++ "Errors occurred while scraping the following websites:")
                (stdout w')
          /\ In (config_name c +++ ": " +++ exn_msg e) (stdout w')
          /\ forall later rest c2 st2 w3 w4 scraped,
               post = later ++ c2 :: rest ->
               scrape_sites L min_date later recorded after = (Ok st2, w3) ->
               config_scraper_class c2 (config_url c2) min_date w3 = (Ok scraped, w4) ->
               forall a, In a scraped -> In (key a) (map key result)).
Proof.
  intros recorded after.
  assert (Hstep : scrape_sites L min_date (pre ++ c :: post) st w
                  = scrape_sites L min_date post recorded after).
  { rewrite scrape_sites_app, Hpre. cbn [scrape_sites]. unfold bind.
    destruct st1 as [all errors]. now rewrite scrape_site_cases, Hraise. }
  split; [exact Hstep|split; [|split; [|split]]].
  - intros later rest c2 st2 w3 w4 scraped st' w' -> Hlater Hc2 Hall a Ha.
    rewrite Hstep in Hall.
    eapply (scrape_sites_aggregates L min_date later rest c2);
      [exact Hlater | exact Hc2 | exact Hall | exact Ha].
  - intros Hret. rewrite Hstep.
    destruct (scrape_sites_returns L min_date post Hret recorded after)
      as (st' & w' & H).
    exists st', w'. split; [exact H|].
    apply (scrape_sites_keeps_errors _ _ _ _ _ _ _ H).
    apply in_or_app. right. now left.
  - intros Hstart Hquit Hret. now apply scrape_selected_sites_returns.
  - intros w0 -> -> Hstart Hquit Hret.
    destruct (scrape_sites_returns L min_date post Hret recorded after)
      as ([all errors] & w3 & Hpost).
    assert (Hall : scrape_sites L min_date (pre ++ c :: post) ([], [])
                     (printed w0 (LF +++ "Scraping in progress..."))
                   = (Ok (all, errors), w3)) by (now rewrite Hstep).
    destruct (scrape_selected_sites_run L _ min_date w0 w3 all errors Hstart Hquit Hall)
      as (w' & Hrun & Hprinted).
    assert (Herr : In (config_name c, exn_msg e) errors).
    { apply (scrape_sites_keeps_errors _ _ _ _ _ _ _ Hpost).
      apply in_or_app. right. now left. }
    destruct (Hprinted _ Herr) as [Hhead Hline].
    exists all, w'. split; [exact Hrun|]. split; [|split; [exact Hhead|split]].
    + intros a Ha. destruct (scrape_sites_extends _ _ _ _ _ _ _ Hpost) as [[more Hmore] _].
      cbn [fst] in Hmore. rewrite Hmore. apply in_or_app. now left.
    + exact Hline.
    + intros later rest c2 st2 w4 w5 scraped -> Hlater Hc2 a Ha.
      exact (scrape_sites_aggregates L min_date later rest c2 _ _ _ _ _ _ _ _
               Hlater Hc2 Hpost a Ha).
Qed.

Lemma scrape_sites_continues_after_exception_witness :
  exists scraped w4 result w',
    CISAScraper.scrape Demo.cisa_lib Demo.cisa_base Demo.cutoff 5
      (printed (printed empty_world (LF +++ "Scraping in progress..."))
         (LF +++ "Error scraping Broken: 'NoneType' object has no attribute 'find_all'"))
    = (Ok scraped, w4)
    /\ scraped <> []
    /\ scrape_selected_sites Demo.cisa_lib
         ([] ++ Demo.broken_config :: [Demo.cisa_config]) Demo.cutoff empty_world
       = (Ok result, w')
    /\ In "Broken: 'NoneType' object has no attribute 'find_all'" (stdout w')
    /\ (forall a, In a scraped -> In (key a) (map key result)).
Proof.
  assert (Hsite : exists scraped w4,
             CISAScraper.scrape Demo.cisa_lib Demo.cisa_base Demo.cutoff 5
               (printed (printed empty_world (LF +++ "Scraping in progress..."))
                  (LF +++ "Error scraping Broken: 'NoneType' object has no attribute 'find_all'"))
             = (Ok scraped, w4) /\ scraped <> [])
    by (eexists; eexists; split; [vm_compute; reflexivity|discriminate]).
  destruct Hsite as (scraped & w4 & Hsite & Hsome).
  assert (Hret : forall c', In c' [Demo.cisa_config] -> forall w0,
             fst (config_scraper_class c' (config_url c') Demo.cutoff w0) <> Diverge).
  { intros c' [<-|[]] w0. unfold Demo.cisa_config, config_scraper_class, config_url.
    vm_compute. discriminate. }
  destruct (proj2 (proj2 (proj2 (proj2 (scrape_sites_continues_after_exception
              Demo.cisa_lib Demo.cutoff [] [Demo.cisa_config] Demo.broken_config
              ([], []) ([], [])
              (printed empty_world (LF +++ "Scraping in progress..."))
              (printed empty_world (LF +++ "Scraping in progress..."))
              (printed empty_world (LF +++ "Scraping in progress..."))
              (Exn AttributeError "'NoneType' object has no attribute 'find_all'")
              eq_refl eq_refl))))
              empty_world eq_refl eq_refl eq_refl eq_refl Hret)
    as (result & w' & Hrun & _ & _ & Hline & Hlater).
  exists scraped, w4, result, w'.
  split; [exact Hsite|]. split; [exact Hsome|]. split; [exact Hrun|].
  split; [exact Hline|].
  exact (Hlater [] [] Demo.cisa_config _ _ _ scraped eq_refl eq_refl Hsite).
Defined.

(** ** A stale article on a page *)

Lemma infosec_stale_none (L : Lib) (base_url : string) (min_date : Date)
  (article : tag) (w w' : World) :
  Stale.infosec L min_date article w w' ->
  InfoSecurityMagazineScraper.extract_article_details L base_url min_date article w
  = (Ok None, w').
Proof. intros H. now apply infosec_details_none. Qed.

Lemma cisa_stale_none (L : Lib) (min_date : Date) (container : tag) (w w' : World) :
  Stale.cisa L min_date container w w' ->
  CISAScraper.extract_article_details L min_date container w = (Ok None, w').
Proof. intros H. now apply cisa_details_none. Qed.

Lemma dive_stale_none (L : Lib) (base_url : string) (min_date : Date)
  (article : tag) (w w' : World) :
  Stale.dive L base_url min_date article w w' ->
  CyberSecurityDiveScraper.extract_article_details L base_url min_date article w
  = (Ok None, w').
Proof.
  intros (title & link & description & wa & wb & d & content & image
          & Ht & Hl & Hd & Hc & Hv).
  unfold CyberSecurityDiveScraper.extract_article_details.
  rewrite (bind_step _ _ _ _ _ Ht), (bind_lift_ok _ _ _ _ Hl),
    (bind_step _ _ _ _ _ Hd), (bind_step _ _ _ _ _ Hc).
  now rewrite Hv.
Qed.

Lemma securityweek_stale_none (L : Lib) (base_url : string) (min_date : Date)
  (now : World -> datetime) (article : tag) (w w' : World) :
  Stale.securityweek L base_url min_date now article w w' ->
  SecurityWeek.extract_article_details L base_url min_date now article w = (Ok None, w').
Proof.
  intros (title & link & date_text & wa & d & Ht & Hl & Hd & Hr & Hv).
  unfold SecurityWeek.extract_article_details.
  rewrite (bind_step _ _ _ _ _ Ht), (bind_lift_ok _ _ _ _ Hl),
    (bind_step _ _ _ _ _ Hd).
  assert (Hparsed : try_except_ValueError
                      (d0 <- SecurityWeek.read_date L now date_text ;; ret (Some d0))
                      (fun _ => print ("Error parsing date: " +++ date_text) ;;; ret None) w'
                    = (Ok (Some d), w')).
  { unfold try_except_ValueError. now rewrite (bind_step _ _ _ _ _ Hr). }
  rewrite (bind_step _ _ _ _ _ Hparsed). now rewrite Hv.
Qed.

Lemma securityaffairs_stale_none (L : Lib) (base_url : string) (min_date : Date)
  (article : tag) (w w' : World) :
  Stale.securityaffairs L min_date article w w' ->
  SecurityAffairsScraper.extract_article_details L base_url min_date article w
  = (Ok None, w').
Proof.
  intros (-> & d & Hd & Hv). unfold SecurityAffairsScraper.extract_article_details.
  cbv zeta. rewrite (bind_lift_ok _ _ _ _ Hd). now rewrite Hv.
Qed.

Lemma tripwire_stale_none (L : Lib) (base_url : string) (min_date : Date)
  (article : tag) (w w' : World) :
  Stale.tripwire L min_date article w w' ->
  TripWireScraper.extract_article_details L base_url min_date article w = (Ok None, w').
Proof.
  intros (-> & d & Hd & Hv). unfold TripWireScraper.extract_article_details.
  cbv zeta. rewrite (bind_lift_ok _ _ _ _ Hd). now rewrite Hv.
Qed.

Lemma scadafence_stale_none (L : Lib) (base_url : string) (min_date : Date)
  (article : tag) (w w' : World) :
  Stale.scadafence L min_date article w w' ->
  SCADAfenceScraper.extract_article_details L base_url min_date article w = (Ok None, w').
Proof.
  intros (-> & date_tag & d & Ht & Hd & Hv).
  unfold SCADAfenceScraper.extract_article_details. rewrite Ht.
  rewrite (bind_lift_ok _ _ _ _ Hd). now rewrite Hv.
Qed.

Lemma sectrio_stale_none (L : Lib) (base_url : string) (min_date : Date)
  (article : tag) (w w' : World) :
  Stale.sectrio L base_url min_date article w w' ->
  SectrioScraper.extract_article_details L base_url min_date article w = (Ok None, w').
Proof.
  intros (title & link & description & wa & wb & d & content & image
          & Ht & Hl & Hd & Hc & Hv).
  unfold SectrioScraper.extract_article_details.
  rewrite (bind_step _ _ _ _ _ Ht), (bind_lift_ok _ _ _ _ Hl),
    (bind_step _ _ _ _ _ Hd), (bind_step _ _ _ _ _ Hc).
  now rewrite Hv.
Qed.

Lemma bleepingcomputer_stale_nothing (L : Lib) (base_url : string) (min_date : Date)
  (article : tag) (w w' : World) :
  Stale.bleepingcomputer L min_date article w w' ->
  BleepingComputerScraper.extract_article_details L base_url min_date article w
  = (Ok BleepingComputerScraper.Nothing, w').
Proof.
  intros (date_str & d & Ht & Hd & Hv).
  unfold BleepingComputerScraper.extract_article_details.
  rewrite (bind_step _ _ _ _ _ Ht), (bind_lift_ok _ _ _ _ Hd). now rewrite Hv.
Qed.

Lemma intel471_stale_none (L : Lib) (base_url : string) (min_date : Date)
  (article : tag) (w w' : World) :
  Stale.intel471 L base_url min_date article w w' ->
  Intel471Scraper.extract_article_details L base_url min_date article w = (Ok None, w').
Proof.
  intros (title & link & description & date_text & wa & wb & d
          & Ht & Hl & Hd & Hdate & Hp & Hv).
  unfold Intel471Scraper.extract_article_details.
  rewrite (bind_step _ _ _ _ _ Ht), (bind_lift_ok _ _ _ _ Hl),
    (bind_step _ _ _ _ _ Hd), (bind_step _ _ _ _ _ Hdate).
  cbv zeta. rewrite (bind_lift_ok _ _ _ _ Hp). now rewrite Hv.
Qed.

Lemma for_break_stops_at_stale (details : tag -> M (option Article))
  (stale : tag -> World -> World -> Prop) :
  (forall article w w', stale article w w' -> details article w = (Ok None, w')) ->
  stops_at_stale (Loop.for_break details) stale.
Proof.
  intros Hnone pre article post acc acc1 w w1 w2 Hpre Hstale.
  eapply for_break_stops; eauto.
Qed.

(** C3, as amended: in [InfoSecurityMagazineScraper],
    [CyberSecurityDiveScraper], [SecurityWeekScraper],
    [SecurityAffairsScraper], [TripWireScraper], [SectrioScraper],
    [Intel471Scraper] and [BleepingComputerScraper] the loop over the
    articles of a page stops at the first article whose date fails the
    validation: what it returns and the world it leaves do not depend on
    the articles after that one, none of which is processed or added; and
    once that loop has stopped, the loop over the pages returns what was
    gathered without another request.  In [CISAScraper] and
    [SCADAfenceScraper] the loop over the articles does not stop: it skips
    the stale article and goes on with the articles after it; and
    [CISAScraper] goes on to the next page whenever the page has given an
    article, and returns at the first page that gives none. *)
Theorem stale_article_stops_or_is_skipped (L : Lib) (base_url : string)
  (min_date : Date) (now : World -> datetime) :
  (* the loops that stop at a stale article *)
  (stops_at_stale (InfoSecurityMagazineScraper.process_articles L base_url min_date)
     (Stale.infosec L min_date)
   /\ stops_at_stale (CyberSecurityDiveScraper.process_articles L base_url min_date)
        (Stale.dive L base_url min_date)
   /\ stops_at_stale
        (Loop.for_break (SecurityWeek.extract_article_details L base_url min_date now))
        (Stale.securityweek L base_url min_date now)
   /\ stops_at_stale
        (Loop.for_break (SecurityAffairsScraper.extract_article_details L base_url min_date))
        (Stale.securityaffairs L min_date)
   /\ stops_at_stale
        (Loop.for_break (TripWireScraper.extract_article_details L base_url min_date))
        (Stale.tripwire L min_date)
   /\ stops_at_stale
        (Loop.for_break (SectrioScraper.extract_article_details L base_url min_date))
        (Stale.sectrio L base_url min_date)
   /\ stops_at_stale
        (Loop.for_break (Intel471Scraper.extract_article_details L base_url min_date))
        (Stale.intel471 L base_url min_date)
   /\ stops_at_stale (BleepingComputerScraper.process_articles L base_url min_date)
        (Stale.bleepingcomputer L min_date))
  (* once the loop over a page has stopped, no other page is requested *)
  /\ ((forall fuel page_number page_content items acc acc1 w w1 w2,
         fetch_page_content L
           (if 1 <? page_number
            then base_url +++ "/page-" +++ str_of_int page_number +++ "/"
            else base_url) false w = (Ok (Some page_content), w1) ->
         page_content <> EmptyString ->
         InfoSecurityMagazineScraper.extract_articles (parse_html L page_content) = items ->
         InfoSecurityMagazineScraper.process_articles L base_url min_date items acc w1
         = (Ok (acc1, true), w2) ->
         InfoSecurityMagazineScraper.scrape_pages L base_url min_date (S fuel)
           page_number acc w = (Ok acc1, w2))
      /\ (forall fuel page_number page_content items acc acc0 acc1 w w1 w1' w2,
            fetch_page_content L
              (if 1 <? page_number
               then base_url +++ "?page=" +++ str_of_int page_number
               else base_url) false w = (Ok (Some page_content), w1) ->
            page_content <> EmptyString ->
            CyberSecurityDiveScraper.extract_articles (parse_html L page_content) = items ->
            (if page_number =? 1
             then featured_articles <-
                    CyberSecurityDiveScraper.extract_featured_articles L base_url
                      (parse_html L page_content) ;;
                  ret (acc ++ featured_articles)
             else ret acc) w1 = (Ok acc0, w1') ->
            CyberSecurityDiveScraper.process_articles L base_url min_date items acc0 w1'
            = (Ok (acc1, true), w2) ->
            CyberSecurityDiveScraper.scrape_pages L base_url min_date (S fuel)
              page_number acc w = (Ok acc1, w2))
      /\ (forall fuel category_url page_count page_content items acc acc1 w w1 w2,
            fetch_page_content L
              (if 1 <? page_count
               then category_url +++ "page/" +++ str_of_int page_count
               else category_url) true w = (Ok (Some page_content), w1) ->
            page_content <> EmptyString ->
            SecurityWeek.extract_articles L (parse_html L page_content) = Ok items ->
            Loop.for_break (SecurityWeek.extract_article_details L base_url min_date now)
              items acc w1 = (Ok (acc1, true), w2) ->
            SecurityWeek.scrape_category_pages L base_url min_date now (S fuel)
              category_url page_count acc w = (Ok acc1, w2))
      /\ (forall fuel page_number page_content items acc acc1 w w1 w2,
            fetch_page_content L
              (if 1 <? page_number
               then base_url +++ "/page/" +++ str_of_int page_number +++ "/"
               else base_url) false w = (Ok (Some page_content), w1) ->
            page_content <> EmptyString ->
            SecurityAffairsScraper.extract_articles (parse_html L page_content) = items ->
            Loop.for_break (SecurityAffairsScraper.extract_article_details L base_url min_date)
              items acc w1 = (Ok (acc1, true), w2) ->
            SecurityAffairsScraper.scrape_pages L base_url min_date (S fuel)
              page_number acc w = (Ok acc1, w2))
      /\ (forall fuel page_index page_content items acc acc1 w w1 w2,
            fetch_page_content L (base_url +++ "?page=" +++ str_of_int page_index) false w
            = (Ok (Some page_content), w1) ->
            page_content <> EmptyString ->
            TripWireScraper.extract_articles (parse_html L page_content) = items ->
            Loop.for_break (TripWireScraper.extract_article_details L base_url min_date)
              items acc w1 = (Ok (acc1, true), w2) ->
            TripWireScraper.scrape_pages L base_url min_date (S fuel) page_index acc w
            = (Ok acc1, w2))
      /\ (forall fuel current_url current_page page_content items acc acc1 w w1 w2,
            fetch_page_content L current_url false w = (Ok (Some page_content), w1) ->
            page_content <> EmptyString ->
            SectrioScraper.extract_articles (parse_html L page_content) = items ->
            Loop.for_break (SectrioScraper.extract_article_details L base_url min_date)
              items acc w1 = (Ok (acc1, true), w2) ->
            SectrioScraper.scrape_pages L base_url min_date (S fuel) current_url
              current_page acc w = (Ok acc1, w2))
      /\ (forall fuel next_page_url current_page page_content items acc acc1 w w1 w2,
            next_page_url <> EmptyString ->
            fetch_page_content L next_page_url false w = (Ok (Some page_content), w1) ->
            page_content <> EmptyString ->
            Intel471Scraper.extract_articles
              (find_attr (parse_html L page_content) "div" "id" "listing-results")
            = Ok items ->
            Loop.for_break (Intel471Scraper.extract_article_details L base_url min_date)
              items acc w1 = (Ok (acc1, true), w2) ->
            Intel471Scraper.scrape_pages L base_url min_date (S fuel) next_page_url
              current_page acc w = (Ok acc1, w2))
      /\ (forall fuel page_number page_content items acc acc1 w w1 w2,
            fetch_page_content L
              (BleepingComputerScraper.build_page_url base_url page_number) true w
            = (Ok (Some page_content), w1) ->
            page_content <> EmptyString ->
            BleepingComputerScraper.extract_articles (parse_html L page_content) = items ->
            BleepingComputerScraper.process_articles L base_url min_date items acc w1
            = (Ok (acc1, true), w2) ->
            BleepingComputerScraper.scrape_pages L base_url min_date (S fuel)
              page_number acc w = (Ok (acc1, page_number + 1), w2)))
  (* the loops that do not stop *)
  /\ skips_stale (CISAScraper.process_containers L min_date) (Stale.cisa L min_date)
  /\ skips_stale
       (Loop.for_filter (SCADAfenceScraper.extract_article_details L base_url min_date))
       (Stale.scadafence L min_date)
  /\ (forall fuel current_page acc page_articles w w1,
        CISAScraper.scrape_page L min_date
          (if 1 <? current_page
           then base_url +++ "?page=" +++ str_of_int current_page
           else base_url) w = (Ok page_articles, w1) ->
        CISAScraper.scrape_pages L base_url min_date (S fuel) current_page acc w
        = match page_articles with
          | [] => (Ok acc, w1)
          | _ :: _ =>
              CISAScraper.scrape_pages L base_url min_date fuel (current_page + 1)
                (acc ++ page_articles) w1
          end).
Proof.
  split; [|split; [|split; [|split]]].
  - repeat split.
    + intros pre article post acc acc1 w w1 w2 Hpre Hstale.
      rewrite infosec_process_articles_app, Hpre.
      cbn [InfoSecurityMagazineScraper.process_articles].
      now rewrite (bind_step _ _ _ _ _ (infosec_stale_none _ base_url _ _ _ _ Hstale)).
    + intros pre article post acc acc1 w w1 w2 Hpre Hstale.
      rewrite dive_process_articles_app, Hpre.
      cbn [CyberSecurityDiveScraper.process_articles].
      now rewrite (bind_step _ _ _ _ _ (dive_stale_none _ _ _ _ _ _ Hstale)).
    + apply for_break_stops_at_stale. apply securityweek_stale_none.
    + apply for_break_stops_at_stale. apply securityaffairs_stale_none.
    + apply for_break_stops_at_stale. apply tripwire_stale_none.
    + apply for_break_stops_at_stale. apply sectrio_stale_none.
    + apply for_break_stops_at_stale. apply intel471_stale_none.
    + intros pre article post acc acc1 w w1 w2 Hpre Hstale.
      rewrite bleeping_process_articles_app, Hpre.
      cbn [BleepingComputerScraper.process_articles].
      now rewrite (bind_step _ _ _ _ _
                     (bleepingcomputer_stale_nothing _ base_url _ _ _ _ Hstale)).
  - repeat split.
    + intros fuel page_number page_content items acc acc1 w w1 w2 Hfetch Hne Hitems Hloop.
      cbn [InfoSecurityMagazineScraper.scrape_pages].
      rewrite (bind_step _ _ _ _ _ Hfetch).
      destruct page_content as [|c page_content]; [contradiction|].
      rewrite Hitems. destruct items as [|item items]; [discriminate Hloop|].
      now rewrite (bind_step _ _ _ _ _ Hloop).
    + intros fuel page_number page_content items acc acc0 acc1 w w1 w1' w2
        Hfetch Hne Hitems Hfeatured Hloop.
      cbn [CyberSecurityDiveScraper.scrape_pages].
      rewrite (bind_step _ _ _ _ _ Hfetch).
      destruct page_content as [|c page_content]; [contradiction|].
      rewrite Hitems. destruct items as [|item items]; [discriminate Hloop|].
      rewrite (bind_step _ _ _ _ _ Hfeatured).
      now rewrite (bind_step _ _ _ _ _ Hloop).
    + intros fuel category_url page_count page_content items acc acc1 w w1 w2
        Hfetch Hne Hitems Hloop.
      cbn [SecurityWeek.scrape_category_pages].
      rewrite (bind_step _ _ _ _ _ Hfetch).
      destruct page_content as [|c page_content]; [contradiction|].
      rewrite (bind_lift_ok _ _ _ _ Hitems).
      destruct items as [|item items]; [discriminate Hloop|].
      now rewrite (bind_step _ _ _ _ _ Hloop).
    + intros fuel page_number page_content items acc acc1 w w1 w2 Hfetch Hne Hitems Hloop.
      cbn [SecurityAffairsScraper.scrape_pages].
      rewrite (bind_step _ _ _ _ _ Hfetch).
      destruct page_content as [|c page_content]; [contradiction|].
      rewrite Hitems. destruct items as [|item items]; [discriminate Hloop|].
      now rewrite (bind_step _ _ _ _ _ Hloop).
    + intros fuel page_index page_content items acc acc1 w w1 w2 Hfetch Hne Hitems Hloop.
      cbn [TripWireScraper.scrape_pages].
      rewrite (bind_step _ _ _ _ _ Hfetch).
      destruct page_content as [|c page_content]; [contradiction|].
      rewrite Hitems. destruct items as [|item items]; [discriminate Hloop|].
      now rewrite (bind_step _ _ _ _ _ Hloop).
    + intros fuel current_url current_page page_content items acc acc1 w w1 w2
        Hfetch Hne Hitems Hloop.
      cbn [SectrioScraper.scrape_pages].
      rewrite (bind_step _ _ _ _ _ Hfetch).
      destruct page_content as [|c page_content]; [contradiction|].
      rewrite Hitems. destruct items as [|item items]; [discriminate Hloop|].
      now rewrite (bind_step _ _ _ _ _ Hloop).
    + intros fuel next_page_url current_page page_content items acc acc1 w w1 w2
        Hurl Hfetch Hne Hitems Hloop.
      cbn [Intel471Scraper.scrape_pages].
      destruct next_page_url as [|c0 next_page_url]; [contradiction|].
      cbn [str_truthy negb].
      rewrite (bind_step _ _ _ _ _ Hfetch).
      destruct page_content as [|c page_content]; [contradiction|].
      rewrite (bind_lift_ok _ _ _ _ Hitems).
      now rewrite (bind_step _ _ _ _ _ Hloop).
    + intros fuel page_number page_content items acc acc1 w w1 w2 Hfetch Hne Hitems Hloop.
      cbn [BleepingComputerScraper.scrape_pages].
      rewrite (bind_step _ _ _ _ _ Hfetch).
      destruct page_content as [|c page_content]; [contradiction|].
      rewrite Hitems. destruct items as [|item items]; [discriminate Hloop|].
      now rewrite (bind_step _ _ _ _ _ Hloop).
  - intros pre article post acc acc1 w w1 w2 Hpre Hstale.
    rewrite cisa_process_containers_app, Hpre.
    cbn [CISAScraper.process_containers].
    now rewrite (bind_step _ _ _ _ _ (cisa_stale_none _ _ _ _ _ Hstale)).
  - intros pre article post acc acc1 w w1 w2 Hpre Hstale.
    rewrite for_filter_app, Hpre. cbn [Loop.for_filter].
    now rewrite (bind_step _ _ _ _ _ (scadafence_stale_none _ base_url _ _ _ _ Hstale)).
  - intros fuel current_page acc page_articles w w1 Hpage.
    cbn [CISAScraper.scrape_pages]. rewrite (bind_step _ _ _ _ _ Hpage).
    now destruct page_articles.
Qed.

Lemma stale_article_stops_or_is_skipped_witness :
  (exists first stale third a w',
     InfoSecurityMagazineScraper.extract_articles Demo.infosec_listing_tree
     = [first] ++ stale :: [third]
     /\ InfoSecurityMagazineScraper.scrape Demo.infosec_lib Demo.infosec_base
          Demo.cutoff 1 empty_world = (Ok [a], w')
     /\ requests w' = [(false, Demo.infosec_base);
                       (false, "https://www.infosecurity-magazine.com/news/first/")])
  /\ (exists w',
        CyberSecurityDiveScraper.process_articles Demo.dive_lib Demo.dive_base Demo.cutoff
          ([] ++ Examples.node_tag Examples.dive_stale_item
              :: CyberSecurityDiveScraper.extract_articles Demo.dive_listing_tree)
          [] empty_world = (Ok ([], true), w')
        /\ requests w' = [(false, "https://www.cybersecuritydive.com/news/old-story/")]).
Proof.
  pose proof (stale_article_stops_or_is_skipped Demo.infosec_lib Demo.infosec_base
                Demo.cutoff (fun _ => noon_5_jan_2025))
    as ((Hinfosec & _) & (Hpage & _) & _).
  pose proof (stale_article_stops_or_is_skipped Demo.dive_lib Demo.dive_base
                Demo.cutoff (fun _ => noon_5_jan_2025))
    as ((_ & Hdive & _) & _).
  split.
  - set (items := InfoSecurityMagazineScraper.extract_articles Demo.infosec_listing_tree).
    set (nothing := Demo.document []).
    set (first := nth 0 items nothing). set (stale := nth 1 items nothing).
    set (third := nth 2 items nothing).
    set (w1 := sent empty_world false Demo.infosec_base).
    assert (Hitems : items = [first] ++ stale :: [third]) by (vm_compute; reflexivity).
    assert (Hfetch : fetch_page_content Demo.infosec_lib
                       (if 1 <? 1
                        then Demo.infosec_base +++ "/page-" +++ str_of_int 1 +++ "/"
                        else Demo.infosec_base) false empty_world
                     = (Ok (Some Demo.infosec_listing_html), w1))
      by (vm_compute; reflexivity).
    assert (Hne : Demo.infosec_listing_html <> EmptyString) by discriminate.
    assert (Hpre : exists a w2,
               InfoSecurityMagazineScraper.process_articles Demo.infosec_lib
                 Demo.infosec_base Demo.cutoff [first] [] w1 = (Ok ([a], false), w2)
               /\ Stale.infosec Demo.infosec_lib Demo.cutoff stale w2 w2
               /\ requests w2
                  = [(false, Demo.infosec_base);
                     (false, "https://www.infosecurity-magazine.com/news/first/")]).
    { do 2 eexists. split; [vm_compute; reflexivity|]. split; [|reflexivity].
      exists (Some "01 Jan 2020"), (DDate (ymd2ord 2020 1 1)).
      split; [vm_compute; reflexivity|split; reflexivity]. }
    destruct Hpre as (a & w2 & Hpre & Hstale & Hreq).
    pose proof (Hinfosec [first] stale [third] [] [a] w1 w2 w2 Hpre Hstale) as Hloop.
    exists first, stale, third, a, w2. split; [exact Hitems|]. split; [|exact Hreq].
    refine (Hpage 0%nat 1 Demo.infosec_listing_html _ [] [a] empty_world w1 w2
              Hfetch Hne eq_refl _).
    change (InfoSecurityMagazineScraper.extract_articles
              (parse_html Demo.infosec_lib Demo.infosec_listing_html)) with items.
    rewrite Hitems. exact Hloop.
  - assert (Hstale : exists w',
               Stale.dive Demo.dive_lib Demo.dive_base Demo.cutoff
                 (Examples.node_tag Examples.dive_stale_item) empty_world w'
               /\ requests w' = [(false, "https://www.cybersecuritydive.com/news/old-story/")]).
    { eexists. split.
      - exists "Old story", "https://www.cybersecuritydive.com/news/old-story/", "Summary",
          empty_world, empty_world, (DDate (ymd2ord 2020 1 1)).
        do 2 eexists.
        split; [vm_compute; reflexivity|]. split; [vm_compute; reflexivity|].
        split; [vm_compute; reflexivity|]. split; [vm_compute; reflexivity|reflexivity].
      - reflexivity. }
    destruct Hstale as (w' & Hstale & Hreq).
    exists w'. split; [|exact Hreq].
    exact (Hdive [] (Examples.node_tag Examples.dive_stale_item) _ [] [] empty_world empty_world w'
             eq_refl Hstale).
Defined.
